(** * Data-quality engine (lib/dataAnalysis.js): shallow embedding and checked properties

    The engine is a pure JavaScript module: [detectDataType],
    [findMissingValues], [findDuplicates], [analyzeDataTypes],
    [calculateStatistics], [detectOutliers] and [analyzeDataQuality].

    Modelling conventions.
    - A JavaScript number is a [number]: an exact rational, or one of the
      three special values NaN, +Infinity, -Infinity.  Division by zero and
      the arithmetic of the special values follow IEEE 754; rounding to
      binary64 and the sign of zero are not modelled.
    - A string is a [string] read as a sequence of 8-bit code units.
    - A cell is a [value]: undefined (absent key), null, a boolean, a number
      or a string, which is what JSON.parse can put in a row.
    - A plain object used as a dictionary is a [jsobj]: its properties in
      insertion order, enumerated the way OrdinaryOwnPropertyKeys does
      (array-index keys first, ascending, then the other keys in insertion
      order).  Header names are assumed not to name members of
      Object.prototype, so that reading an absent key gives undefined; a
      statement that depends on what Object.entries or Object.values lists
      of an object keyed by header says that no header is named __proto__,
      the one key whose assignment creates no property.
    - A [Map] is a [gmap]; arrays are lists; [forEach] with mutation of a
      captured variable is a left fold over an explicit state.
    - A TypeError raised by a method call on null or undefined is [None]. *)

From Stdlib Require Import QArith Qround Qabs Lqa Sorted Permutation Ascii String OrderedTypeEx.
From stdpp Require Import gmap strings list.

Open Scope Q_scope.

(** ** Numbers *)

Inductive number : Type :=
| NaN
| PosInf
| NegInf
| Fin (q : Q).

Module Num.

Definition of_nat (n : nat) : number := Fin (inject_Z (Z.of_nat n)).
Definition of_Z (z : Z) : number := Fin (inject_Z z).

Definition isNaN (x : number) : bool :=
  match x with NaN => true | _ => false end.

Definition is_finite (x : number) : bool :=
  match x with Fin _ => true | _ => false end.

Definition Qltb (a b : Q) : bool := negb (Qle_bool b a).

Definition neg (x : number) : number :=
  match x with
  | NaN => NaN
  | PosInf => NegInf
  | NegInf => PosInf
  | Fin q => Fin (- q)
  end.

Definition add (x y : number) : number :=
  match x, y with
  | NaN, _ | _, NaN => NaN
  | PosInf, NegInf | NegInf, PosInf => NaN
  | PosInf, _ | _, PosInf => PosInf
  | NegInf, _ | _, NegInf => NegInf
  | Fin a, Fin b => Fin (a + b)
  end.

Definition sub (x y : number) : number := add x (neg y).

(** Sign of a number other than NaN: [Lt] negative, [Eq] zero, [Gt] positive. *)
Definition sign (x : number) : comparison :=
  match x with
  | NaN => Eq
  | PosInf => Gt
  | NegInf => Lt
  | Fin q => q ?= 0
  end.

Definition signed_inf (c : comparison) : number :=
  match c with Lt => NegInf | Gt => PosInf | Eq => NaN end.

Definition sign_mul (c d : comparison) : comparison :=
  match c, d with
  | Eq, _ | _, Eq => Eq
  | Lt, Lt | Gt, Gt => Gt
  | _, _ => Lt
  end.

Definition mul (x y : number) : number :=
  match x, y with
  | NaN, _ | _, NaN => NaN
  | Fin a, Fin b => Fin (a * b)
  | _, _ => signed_inf (sign_mul (sign x) (sign y))
  end.

(** [x / y]; a zero divisor is the positive zero. *)
Definition div (x y : number) : number :=
  match x, y with
  | NaN, _ | _, NaN => NaN
  | Fin a, Fin b =>
      if Qeq_bool b 0 then signed_inf (sign x) else Fin (a / b)
  | Fin _, _ => Fin 0
  | _, Fin b => if Qeq_bool b 0 then x else signed_inf (sign_mul (sign x) (sign y))
  | _, _ => NaN
  end.

(** [x < y]; false as soon as one side is NaN. *)
Definition ltb (x y : number) : bool :=
  match x, y with
  | NaN, _ | _, NaN => false
  | _, NegInf => false
  | NegInf, _ => true
  | PosInf, _ => false
  | _, PosInf => true
  | Fin a, Fin b => Qltb a b
  end.

Definition gtb (x y : number) : bool := ltb y x.

(** [x === y] on numbers. *)
Definition eqb (x y : number) : bool :=
  match x, y with
  | PosInf, PosInf | NegInf, NegInf => true
  | Fin a, Fin b => Qeq_bool a b
  | _, _ => false
  end.

(** Math.max of two arguments. *)
Definition max (x y : number) : number :=
  match x, y with
  | NaN, _ | _, NaN => NaN
  | _, _ => if ltb x y then y else x
  end.

(** Math.floor. *)
Definition floor (x : number) : number :=
  match x with
  | Fin q => Fin (inject_Z (Qfloor q))
  | _ => x
  end.

(** Math.pow(x, n) for a natural exponent. *)
Fixpoint pow (x : number) (n : nat) : number :=
  match n with
  | O => Fin 1
  | S O => x
  | S m => mul x (pow x m)
  end.

(** The number lies in the closed interval [lo, hi] (so it is not NaN). *)
Definition in_range (lo hi : Q) (x : number) : Prop :=
  match x with
  | Fin q => lo <= q /\ q <= hi
  | _ => False
  end.

(** The number is finite and not negative. *)
Definition nonneg (x : number) : Prop :=
  match x with
  | Fin q => 0 <= q
  | _ => False
  end.

(** A plain view of a number, with the fraction in lowest terms. *)
Inductive view : Type :=
| vNaN | vPosInf | vNegInf | vFrac (n : Z) (d : positive).

Definition show (x : number) : view :=
  match x with
  | NaN => vNaN
  | PosInf => vPosInf
  | NegInf => vNegInf
  | Fin q => let r := Qred q in vFrac (Qnum r) (Qden r)
  end.

End Num.

Declare Scope num_scope.
Delimit Scope num_scope with num.
Bind Scope num_scope with number.
Infix "+" := Num.add : num_scope.
Infix "-" := Num.sub : num_scope.
Infix "*" := Num.mul : num_scope.
Infix "/" := Num.div : num_scope.
Infix "<?" := Num.ltb : num_scope.
Infix ">?" := Num.gtb : num_scope.

(** ** Strings *)

Module Str.

Definition code (c : ascii) : N := N_of_ascii c.

Definition in_range (lo hi : N) (c : ascii) : bool :=
  ((lo <=? code c) && (code c <=? hi))%N.

(** [\d], [[a-z]], [[A-Z]] and [\s] of the regular expressions. *)
Definition is_digit : ascii -> bool := in_range 48 57.
Definition is_lower : ascii -> bool := in_range 97 122.
Definition is_upper : ascii -> bool := in_range 65 90.
Definition is_space (c : ascii) : bool :=
  in_range 9 13 c || (code c =? 32)%N || (code c =? 160)%N.
Definition is_hex_digit (c : ascii) : bool :=
  is_digit c || in_range 97 102 c || in_range 65 70 c.

Definition digit_value (c : ascii) : Z := Z.of_N (code c) - 48.
Definition hex_digit_value (c : ascii) : Z :=
  if is_digit c then Z.of_N (code c) - 48
  else if in_range 97 102 c then Z.of_N (code c) - 87
  else Z.of_N (code c) - 55.

(** String.prototype.toLowerCase on 8-bit code units. *)
Definition lower_char (c : ascii) : ascii :=
  if is_upper c || (in_range 192 222 c && negb (code c =? 215)%N)
  then ascii_of_N (code c + 32) else c.

Fixpoint toLowerCase (s : string) : string :=
  match s with
  | EmptyString => EmptyString
  | String c r => String (lower_char c) (toLowerCase r)
  end.

Fixpoint all_chars (p : ascii -> bool) (s : string) : bool :=
  match s with
  | EmptyString => true
  | String c r => p c && all_chars p r
  end.

Fixpoint some_char (p : ascii -> bool) (s : string) : bool :=
  match s with
  | EmptyString => false
  | String c r => p c || some_char p r
  end.

Definition is_empty (s : string) : bool :=
  match s with EmptyString => true | _ => false end.

(** [s.includes(c)] for a one-character needle. *)
Definition includes_char (c : ascii) (s : string) : bool :=
  some_char (Ascii.eqb c) s.

Fixpoint trim_start (s : string) : string :=
  match s with
  | String c r => if is_space c then trim_start r else s
  | EmptyString => EmptyString
  end.

(** Drops the white space at the end: a character is kept when something
    that is not white space follows it or it is not white space itself. *)
Fixpoint trim_end (s : string) : string :=
  match s with
  | EmptyString => EmptyString
  | String c r =>
      match trim_end r with
      | EmptyString => if is_space c then EmptyString else String c EmptyString
      | r' => String c r'
      end
  end.

Definition trim (s : string) : string := trim_end (trim_start s).

(** The longest prefix of characters satisfying [p], and what follows. *)
Fixpoint span (p : ascii -> bool) (s : string) : list ascii * string :=
  match s with
  | String c r =>
      if p c then let '(ds, rest) := span p r in (c :: ds, rest)
      else ([], s)
  | EmptyString => ([], EmptyString)
  end.

Definition digits_value (base : Z) (dv : ascii -> Z) (ds : list ascii) : Z :=
  fold_left (fun acc c => (acc * base + dv c)%Z) ds 0%Z.

(** [s] starts with [p]: what follows the prefix. *)
Fixpoint strip_prefix (p s : string) : option string :=
  match p, s with
  | EmptyString, _ => Some s
  | String a p', String b s' => if Ascii.eqb a b then strip_prefix p' s' else None
  | _, _ => None
  end.

(** ExponentPart: [e] or [E], an optional sign, at least one digit.
    Gives the exponent and the rest, or [None] when there is no
    exponent part (nothing is consumed then). *)
Definition exponent_part (s : string) : option (Z * string) :=
  match s with
  | String c r =>
      if (code c =? 101)%N || (code c =? 69)%N then
        let '(sg, r1) :=
          match r with
          | String d r' =>
              if (code d =? 45)%N then ((-1)%Z, r')
              else if (code d =? 43)%N then (1%Z, r')
              else (1%Z, r)
          | EmptyString => (1%Z, r)
          end in
        match span is_digit r1 with
        | ([], _) => None
        | (ds, rest) => Some ((sg * digits_value 10 digit_value ds)%Z, rest)
        end
      else None
  | EmptyString => None
  end.

(** The longest prefix that is a StrUnsignedDecimalLiteral other than
    Infinity: its exact value and the rest of the string. *)
Definition unsigned_decimal (s : string) : option (Q * string) :=
  let '(ip, r1) := span is_digit s in
  let '(fp, r2, dotted) :=
    match r1 with
    | String c r =>
        if (code c =? 46)%N then
          let '(fp, r2) := span is_digit r in
          match ip, fp with
          | [], [] => ([], r1, false)
          | _, _ => (fp, r2, true)
          end
        else ([], r1, false)
    | EmptyString => ([], r1, false)
    end in
  match ip, fp with
  | [], [] => None
  | _, _ =>
      let mant := inject_Z (digits_value 10 digit_value (ip ++ fp))
                  / inject_Z (10 ^ Z.of_nat (length fp)) in
      match exponent_part r2 with
      | Some (e, r3) => Some (mant * Qpower 10 e, r3)
      | None => Some (mant, r2)
      end
  end.

(** An optional sign: the factor it stands for and the rest. *)
Definition sign_prefix (s : string) : Q * string :=
  match s with
  | String c r =>
      if (code c =? 45)%N then (-(1), r)
      else if (code c =? 43)%N then (1, r)
      else (1, s)
  | EmptyString => (1, s)
  end.

(** The global parseFloat applied to a string. *)
Definition parseFloat (s : string) : number :=
  let '(sg, r) := sign_prefix (trim_start s) in
  match strip_prefix "Infinity" r with
  | Some _ => if Qle_bool 0 sg then PosInf else NegInf
  | None =>
      match unsigned_decimal r with
      | Some (v, _) => Fin (sg * v)
      | None => NaN
      end
  end.

(** 0x, 0o and 0b integer literals of StringToNumber. *)
Definition non_decimal (s : string) : option number :=
  match s with
  | String z (String x r) =>
      if (code z =? 48)%N then
        let lit (base : Z) (p : ascii -> bool) :=
          match span p r with
          | ((_ :: _) as ds, EmptyString) =>
              Some (Fin (inject_Z (digits_value base hex_digit_value ds)))
          | _ => Some NaN
          end in
        if (code x =? 120)%N || (code x =? 88)%N then lit 16%Z is_hex_digit
        else if (code x =? 111)%N || (code x =? 79)%N then lit 8%Z (in_range 48 55)
        else if (code x =? 98)%N || (code x =? 66)%N then lit 2%Z (in_range 48 49)
        else None
      else None
  | _ => None
  end.

(** StringToNumber: the value of [Number(s)]. *)
Definition toNumber (s : string) : number :=
  let t := trim s in
  if is_empty t then Fin 0
  else
    match non_decimal t with
    | Some n => n
    | None =>
        let '(sg, r) := sign_prefix t in
        match strip_prefix "Infinity" r with
        | Some EmptyString => if Qle_bool 0 sg then PosInf else NegInf
        | Some _ => NaN
        | None =>
            match unsigned_decimal r with
            | Some (v, EmptyString) => Fin (sg * v)
            | _ => NaN
            end
        end
    end.

(** Decimal numeral of a natural number. *)
Definition digit_char (n : nat) : ascii := ascii_of_nat (48 + n).

Fixpoint nat_digits (fuel n : nat) (acc : string) : string :=
  match fuel with
  | O => acc
  | S f =>
      let acc' := String (digit_char (n mod 10)) acc in
      if (n / 10 =? 0)%nat then acc' else nat_digits f (n / 10) acc'
  end.

Definition of_nat (n : nat) : string := nat_digits (S n) n EmptyString.

Definition of_Z (z : Z) : string :=
  if (z <? 0)%Z then String "-" (of_nat (Z.to_nat (- z))) else of_nat (Z.to_nat z).

Fixpoint join (sep : string) (l : list string) : string :=
  match l with
  | [] => EmptyString
  | [x] => x
  | x :: r => x +:+ sep +:+ join sep r
  end.

End Str.

(** ** Values, the host, and the built-in operations the engine calls *)

Inductive value : Type :=
| VUndefined
| VNull
| VBool (b : bool)
| VNum (n : number)
| VStr (s : string).

(** What the language leaves to the host or what needs the binary64 grid:
    the numeral of a number that is not an integer of magnitude below
    10^21, the square root, and whether [new Date(s)] is a valid date for a
    string that matched one of the three date patterns. *)
Class Host : Type := {
  Number_toString_other : Q -> string;
  Math_sqrt : number -> number;
  Date_parse_valid : string -> bool
}.

Module JS.
Section WithHost.
Context {host : Host}.

(** Number::toString. *)
Definition Number_toString (n : number) : string :=
  match n with
  | NaN => "NaN"
  | PosInf => "Infinity"
  | NegInf => "-Infinity"
  | Fin q =>
      let r := Qred q in
      if (Zpos (Qden r) =? 1)%Z && (Z.abs (Qnum r) <? 10 ^ 21)%Z
      then Str.of_Z (Qnum r)
      else Number_toString_other r
  end.

(** The abstract operation ToString. *)
Definition ToString (v : value) : string :=
  match v with
  | VUndefined => "undefined"
  | VNull => "null"
  | VBool true => "true"
  | VBool false => "false"
  | VNum n => Number_toString n
  | VStr s => s
  end.

(** The method call [v.toString()]: a TypeError on undefined and null. *)
Definition toString_method (v : value) : option string :=
  match v with
  | VUndefined | VNull => None
  | _ => Some (ToString v)
  end.

(** The abstract operation ToNumber. *)
Definition ToNumber (v : value) : number :=
  match v with
  | VUndefined => NaN
  | VNull => Fin 0
  | VBool true => Fin 1
  | VBool false => Fin 0
  | VNum n => n
  | VStr s => Str.toNumber s
  end.

(** The global functions isNaN and parseFloat. *)
Definition isNaN (v : value) : bool := Num.isNaN (ToNumber v).
Definition parseFloat (v : value) : number := Str.parseFloat (ToString v).

(** ToBoolean. *)
Definition truthy (v : value) : bool :=
  match v with
  | VUndefined | VNull => false
  | VBool b => b
  | VNum (Fin q) => negb (Qeq_bool q 0)
  | VNum NaN => false
  | VNum _ => true
  | VStr s => negb (Str.is_empty s)
  end.

(** [x === y]. *)
Definition strict_eq (x y : value) : bool :=
  match x, y with
  | VUndefined, VUndefined | VNull, VNull => true
  | VBool a, VBool b => Bool.eqb a b
  | VNum a, VNum b => Num.eqb a b
  | VStr a, VStr b => String.eqb a b
  | _, _ => false
  end.

(** SameValueZero, the equality of [Set]: as [===] but NaN equals NaN. *)
Definition same_value_zero (x y : value) : bool :=
  match x, y with
  | VNum NaN, VNum NaN => true
  | _, _ => strict_eq x y
  end.

(** [new Set(l).size]. *)
Fixpoint set_of_list (l : list value) (acc : list value) : list value :=
  match l with
  | [] => acc
  | x :: r =>
      if existsb (same_value_zero x) acc then set_of_list r acc
      else set_of_list r (acc ++ [x])
  end.

Definition Set_size (l : list value) : nat := length (set_of_list l []).

(** *** Array.prototype.sort

    The sort is stable and, for a consistent comparator, the result is the
    one stable sorted arrangement; insertion from the right computes it. *)
Fixpoint insert_by {A} (after : A -> A -> bool) (x : A) (l : list A) : list A :=
  match l with
  | [] => [x]
  | y :: r => if after x y then y :: insert_by after x r else x :: l
  end.

Definition stable_sort {A} (after : A -> A -> bool) (l : list A) : list A :=
  fold_right (insert_by after) [] l.

(** [l.sort(cmp)]: [x] goes after [y] when [cmp(x, y) > 0]; a NaN result
    counts as zero. *)
Definition sort_with {A} (cmp : A -> A -> number) (l : list A) : list A :=
  stable_sort (fun x y => (cmp x y >? Fin 0)%num) l.

Definition is_undefined (v : value) : bool :=
  match v with VUndefined => true | _ => false end.

(** [l.sort()]: undefined elements go last, the others are ordered by the
    code units of their ToString. *)
Definition sort_default (l : list value) : list value :=
  stable_sort (fun x y => String.ltb (ToString y) (ToString x))
              (List.filter (fun v => negb (is_undefined v)) l)
  ++ List.filter is_undefined l.

(** *** JSON.stringify of an array of primitive values *)
Definition hex_char (n : N) : ascii :=
  if (n <? 10)%N then ascii_of_N (48 + n) else ascii_of_N (87 + n).

Definition json_escape_char (c : ascii) : string :=
  let n := Str.code c in
  let bs := String "092"%char EmptyString in
  if (n =? 34)%N then bs +:+ String c EmptyString
  else if (n =? 92)%N then bs +:+ bs
  else if (n =? 8)%N then bs +:+ "b"
  else if (n =? 12)%N then bs +:+ "f"
  else if (n =? 10)%N then bs +:+ "n"
  else if (n =? 13)%N then bs +:+ "r"
  else if (n =? 9)%N then bs +:+ "t"
  else if (n <? 32)%N then
    bs +:+ "u00" +:+ String (hex_char (n / 16)) (String (hex_char (n mod 16)) EmptyString)
  else String c EmptyString.

Fixpoint json_escape (s : string) : string :=
  match s with
  | EmptyString => EmptyString
  | String c r => json_escape_char c +:+ json_escape r
  end.

Definition json_quote (s : string) : string :=
  let q := String "034"%char EmptyString in q +:+ json_escape s +:+ q.

Definition json_element (v : value) : string :=
  match v with
  | VUndefined | VNull => "null"
  | VBool _ => ToString v
  | VNum (Fin _) => ToString v
  | VNum _ => "null"
  | VStr s => json_quote s
  end.

Definition JSON_stringify (l : list value) : string :=
  "[" +:+ Str.join "," (map json_element l) +:+ "]".

(** Number.prototype.toFixed: the nearest multiple of 10^-digits, the larger
    one on a tie, written with exactly [digits] decimals. *)
Definition pad_zeros (width : nat) (m : string) : string :=
  Str.join EmptyString (repeat "0" (width - String.length m)) +:+ m.

Definition toFixed (digits : nat) (x : number) : string :=
  match x with
  | Fin q =>
      if Qle_bool (inject_Z (10 ^ 21)) (Qabs q) then Number_toString x
      else
        let sign := if Num.Qltb q 0 then "-" else EmptyString in
        let n := Qfloor (Qabs q * inject_Z (10 ^ Z.of_nat digits) + (1 # 2)) in
        let m := pad_zeros (S digits) (Str.of_Z n) in
        let k := (String.length m - digits)%nat in
        if (digits =? 0)%nat then sign +:+ m
        else sign +:+ String.substring 0 k m +:+ "." +:+ String.substring k digits m
  | _ => Number_toString x
  end.

End WithHost.
End JS.

(** ** Plain objects used as dictionaries *)

Definition jsobj (A : Type) : Type := list (string * A).

Module Obj.
Section Ops.
Context {A : Type}.

(** [o[k]]: [None] stands for undefined. *)
Fixpoint get (o : jsobj A) (k : string) : option A :=
  match o with
  | [] => None
  | (k', v) :: r => if String.eqb k' k then Some v else get r k
  end.

Definition has (o : jsobj A) (k : string) : bool :=
  match get o k with Some _ => true | None => false end.

(** [o[k] = v]: an existing property keeps its place, a new one is
    appended. *)
Fixpoint set (o : jsobj A) (k : string) (v : A) : jsobj A :=
  match o with
  | [] => [(k, v)]
  | (k', v') :: r =>
      if String.eqb k' k then (k', v) :: r else (k', v') :: set r k v
  end.

(** In-place update of the object stored under [k]. *)
Fixpoint alter (f : A -> A) (k : string) (o : jsobj A) : jsobj A :=
  match o with
  | [] => []
  | (k', v') :: r =>
      if String.eqb k' k then (k', f v') :: r else (k', v') :: alter f k r
  end.

(** A canonical array index: the numeral, without leading zeros, of an
    integer below 2^32 - 1. *)
Definition array_index (k : string) : option N :=
  match k with
  | EmptyString => None
  | String c r =>
      if Str.all_chars Str.is_digit k
         && (negb (Str.code c =? 48)%N || Str.is_empty r)
         && (String.length k <=? 10)%nat
      then
        let n := Z.to_N (Str.digits_value 10 Str.digit_value (list_ascii_of_string k)) in
        if (n <=? 4294967294)%N then Some n else None
      else None
  end.

Definition is_index (kv : string * A) : bool :=
  match array_index kv.1 with Some _ => true | None => false end.

Definition index_of (kv : string * A) : N :=
  match array_index kv.1 with Some n => n | None => 0%N end.

(** Object.entries: array-index keys in ascending numeric order, then the
    other keys in insertion order. *)
Definition entries (o : jsobj A) : list (string * A) :=
  JS.stable_sort (fun x y => (index_of y <? index_of x)%N) (List.filter is_index o)
  ++ List.filter (fun kv => negb (is_index kv)) o.

Definition keys (o : jsobj A) : list string := map fst (entries o).
Definition values (o : jsobj A) : list A := map snd (entries o).

End Ops.
End Obj.

(** ** The data model of the engine *)

Definition row : Type := jsobj value.

Record Dataset : Type := { headers : list string; rows : list row }.

Inductive dtype : Type := TEmpty | TNumber | TString | TBoolean | TDate.

Module TypeInfo.
(** [mixedTypes] is absent from the result for an empty column. *)
Record t : Type := mk {
  type : dtype;
  confidence : number;
  nullable : bool;
  mixedTypes : option bool
}.
End TypeInfo.

Module MissingColumn.
Record t : Type := mk { count : nat; percentage : number; positions : list nat }.
End MissingColumn.

Module MissingRow.
Record t : Type := mk { rowIndex : nat; missingCount : nat; percentage : number }.
End MissingRow.

Module MissingReport.
Record t : Type := mk {
  byColumn : jsobj MissingColumn.t;
  byRow : list MissingRow.t;
  total : nat;
  percentage : number;
  completenessScore : number
}.
End MissingReport.

Module DuplicateEntry.
Record t : Type := mk { originalRow : nat; duplicateRow : nat; data : row }.
End DuplicateEntry.

Module DuplicateReport.
Record t : Type := mk {
  count : nat;
  percentage : number;
  duplicates : list DuplicateEntry.t;
  uniquenessScore : number
}.
End DuplicateReport.

Module Statistics.
Record t : Type := mk {
  count : nat;
  min : number;
  max : number;
  mean : number;
  median : number;
  mode : option number;
  stdDev : number;
  variance : number;
  q1 : number;
  q2 : number;
  q3 : number;
  range : number
}.
End Statistics.

Inductive outlier_kind : Type := Low | High.

Module Outlier.
Record t : Type := mk { index : nat; value : number; type : outlier_kind }.
End Outlier.

Module OutlierReport.
(** The bounds are absent when there are no statistics. *)
Record t : Type := mk {
  outliers : list Outlier.t;
  count : nat;
  percentage : number;
  lowerBound : option number;
  upperBound : option number
}.
End OutlierReport.

Module ColumnStats.
(** [statistics] and [outliers] are only set for a column of type number;
    [statistics] can then still be null. *)
Record t : Type := mk {
  type : TypeInfo.t;
  missing : option MissingColumn.t;
  unique : nat;
  uniquePercentage : number;
  statistics : option (option Statistics.t);
  outliers : option OutlierReport.t
}.
End ColumnStats.

Inductive issue_type : Type := Missing | Duplicate | Inconsistent | Format | OutlierIssue.
Inductive severity_level : Type := SevLow | SevMedium | SevHigh.

Module Issue.
Record t : Type := mk {
  type : issue_type;
  severity : severity_level;
  column : option string;
  description : string;
  count : option nat;
  confidence : option number
}.
End Issue.

Module Scores.
Record t : Type := mk {
  completeness : number;
  uniqueness : number;
  validity : number;
  consistency : number
}.
End Scores.

Module Summary.
Record t : Type := mk {
  totalRows : nat;
  totalColumns : nat;
  totalCells : nat;
  missingCells : nat;
  duplicateRows : nat;
  issueCount : nat
}.
End Summary.

Module QualityAnalysis.
(** The explanations and recommendations, texts that another module derives
    from [issues], are left out. *)
Record t : Type := mk {
  overallScore : number;
  scores : Scores.t;
  missingValues : MissingReport.t;
  duplicates : DuplicateReport.t;
  dataTypes : jsobj TypeInfo.t;
  columnStats : jsobj ColumnStats.t;
  issues : list Issue.t;
  summary : Summary.t
}.
End QualityAnalysis.

Inductive text_format : Type :=
| FNumeric | FLowercase | FUppercase | FLowercasePhrase | FTitlecasePhrase | FMixed.

#[export] Instance text_format_eq_dec : EqDecision text_format.
Proof. solve_decision. Defined.

(** ** The engine *)

(** [forEach((x, i) => ...)] updating captured variables. *)
Fixpoint forEach_indexed {A St : Type} (f : St -> A -> nat -> St) (l : list A) (i : nat) (s : St) : St :=
  match l with
  | [] => s
  | x :: r => forEach_indexed f r (S i) (f s x i)
  end.

(** [l[i]] for a numeric index; NaN stands for the undefined that an index
    out of range or not an integer gives: every reader of the quartiles does
    arithmetic on them. *)
Definition at_index (l : list number) (i : number) : number :=
  match i with
  | Fin q =>
      if Qeq_bool (inject_Z (Qfloor q)) q && Qle_bool 0 q
      then nth (Z.to_nat (Qfloor q)) l NaN
      else NaN
  | _ => NaN
  end.

Section Engine.
Context {host : Host}.
Import JS.

(** [row[header]]. *)
Definition cell (r : row) (header : string) : value :=
  default VUndefined (Obj.get r header).

Definition column (d : Dataset) (header : string) : list value :=
  map (fun r => cell r header) (rows d).

(** [v !== null && v !== undefined && v !== ''] *)
Definition not_blank (v : value) : bool :=
  negb (strict_eq v VNull) && negb (strict_eq v VUndefined)
  && negb (strict_eq v (VStr "")).

(** *** detectDataType *)

Definition boolean_words : list string := ["true"; "false"; "yes"; "no"; "1"; "0"].

Inductive pat : Type := Digit | Lit (c : ascii).

Fixpoint matches (p : list pat) (s : string) : bool :=
  match p, s with
  | [], EmptyString => true
  | Digit :: p', String c r => Str.is_digit c && matches p' r
  | Lit a :: p', String c r => Ascii.eqb a c && matches p' r
  | _, _ => false
  end.

Definition datePatterns : list (list pat) :=
  [ [Digit; Digit; Digit; Digit; Lit "-"; Digit; Digit; Lit "-"; Digit; Digit];
    [Digit; Digit; Lit "/"; Digit; Digit; Lit "/"; Digit; Digit; Digit; Digit];
    [Digit; Digit; Lit "-"; Digit; Digit; Lit "-"; Digit; Digit; Digit; Digit] ].

Definition isValidDate (v : value) : bool :=
  match v with
  | VNum _ => false
  | VStr s => existsb (fun p => matches p s) datePatterns && Date_parse_valid s
  | _ => false
  end.

Definition is_boolean (v : value) : bool :=
  match v with
  | VBool _ => true
  | VStr s => existsb (String.eqb (Str.toLowerCase s)) boolean_words
  | _ => false
  end.

Definition is_number (v : value) : bool :=
  match v with
  | VNum _ => true
  | _ => negb (isNaN v) && negb (Num.isNaN (parseFloat v))
  end.

(** The type one value is counted under: the [if ... else if] chain. *)
Definition classify (v : value) : dtype :=
  if is_boolean v then TBoolean
  else if is_number v then TNumber
  else if isValidDate v then TDate
  else TString.

Record tally : Type := {
  numberCount : nat; stringCount : nat; booleanCount : nat; dateCount : nat
}.

Definition tally_step (t : tally) (v : value) : tally :=
  match classify v with
  | TBoolean => {| numberCount := numberCount t; stringCount := stringCount t;
                   booleanCount := S (booleanCount t); dateCount := dateCount t |}
  | TNumber => {| numberCount := S (numberCount t); stringCount := stringCount t;
                  booleanCount := booleanCount t; dateCount := dateCount t |}
  | TDate => {| numberCount := numberCount t; stringCount := stringCount t;
                booleanCount := booleanCount t; dateCount := S (dateCount t) |}
  | _ => {| numberCount := numberCount t; stringCount := S (stringCount t);
            booleanCount := booleanCount t; dateCount := dateCount t |}
  end.

Record type_entry : Type := {
  te_type : dtype; te_count : nat; te_confidence : number
}.

(** The callback of [types.reduce]: [curr.count > max.count ? curr : max]. *)
Definition pick (max curr : type_entry) : type_entry :=
  if (te_count max <? te_count curr)%nat then curr else max.

Definition type_entries (t : tally) (total : nat) : list type_entry :=
  let entry ty c :=
    {| te_type := ty; te_count := c; te_confidence := (Num.of_nat c / Num.of_nat total)%num |} in
  [ entry TNumber (numberCount t); entry TString (stringCount t);
    entry TBoolean (booleanCount t); entry TDate (dateCount t) ].

(** [l.reduce(f)] without an initial value, on a non-empty array. *)
Definition reduce1 {A} (f : A -> A -> A) (d : A) (l : list A) : A :=
  match l with
  | [] => d
  | x :: r => fold_left f r x
  end.

Definition detectDataType (values : list value) : TypeInfo.t :=
  let nonNullValues := List.filter not_blank values in
  if (length nonNullValues =? 0)%nat then
    TypeInfo.mk TEmpty (Fin 1) true None
  else
    let t := fold_left tally_step nonNullValues
               {| numberCount := 0; stringCount := 0; booleanCount := 0; dateCount := 0 |} in
    let total := length nonNullValues in
    let types := type_entries t total in
    let dominant := reduce1 pick {| te_type := TEmpty; te_count := 0; te_confidence := NaN |} types in
    TypeInfo.mk (te_type dominant) (te_confidence dominant)
      (length nonNullValues <? length values)%nat
      (Some (1 <? length (List.filter (fun e => (0 <? te_count e)%nat) types))%nat).

(** *** findMissingValues *)

Definition isMissing (v : value) : bool :=
  strict_eq v VNull || strict_eq v VUndefined || strict_eq v (VStr "")
  || match v with VStr s => String.eqb (Str.trim s) "" | _ => false end.

Definition missing_init (hs : list string) : jsobj MissingColumn.t :=
  fold_left (fun o header => Obj.set o header (MissingColumn.mk 0 (Fin 0) [])) hs [].

(** [missingByColumn[header].count++] and [.positions.push(rowIndex)].  The
    property is there: [missing_init] sets it for every header
    ([missing_init_has]) and [Obj.alter] keeps the keys ([keys_alter]). *)
Definition record_missing (rowIndex : nat) (c : MissingColumn.t) : MissingColumn.t :=
  MissingColumn.mk (S (MissingColumn.count c)) (MissingColumn.percentage c)
                   (MissingColumn.positions c ++ [rowIndex]).

Definition missing_cell (r : row) (rowIndex : nat)
    (st : jsobj MissingColumn.t * nat) (header : string) : jsobj MissingColumn.t * nat :=
  if isMissing (cell r header)
  then (Obj.alter (record_missing rowIndex) header st.1, S st.2)
  else st.

Definition missing_row (hs : list string)
    (st : jsobj MissingColumn.t * list MissingRow.t) (r : row) (rowIndex : nat)
    : jsobj MissingColumn.t * list MissingRow.t :=
  let '(byCol, missingInRow) := fold_left (missing_cell r rowIndex) hs (st.1, 0%nat) in
  if (0 <? missingInRow)%nat then
    (byCol, st.2 ++ [MissingRow.mk rowIndex missingInRow
                       (Num.of_nat missingInRow / Num.of_nat (length hs) * Fin 100)%num])
  else (byCol, st.2).

Definition set_percentage (nrows : nat) (c : MissingColumn.t) : MissingColumn.t :=
  MissingColumn.mk (MissingColumn.count c)
    (Num.of_nat (MissingColumn.count c) / Num.of_nat nrows * Fin 100)%num
    (MissingColumn.positions c).

Definition findMissingValues (parsedData : Dataset) : MissingReport.t :=
  let hs := headers parsedData in
  let rs := rows parsedData in
  let '(counted, missingByRow) :=
    forEach_indexed (missing_row hs) rs 0%nat (missing_init hs, []) in
  let missingByColumn :=
    fold_left (fun o header => Obj.alter (set_percentage (length rs)) header o) hs counted in
  let totalCells := (length hs * length rs)%nat in
  let totalMissing :=
    fold_left (fun sum col => (sum + MissingColumn.count col)%nat) (Obj.values missingByColumn) 0%nat in
  let columnsWithMissing :=
    length (List.filter (fun col => (0 <? MissingColumn.count col)%nat) (Obj.values missingByColumn)) in
  let percentMissing := (Num.of_nat totalMissing / Num.of_nat totalCells * Fin 100)%num in
  let columnMissingPenalty :=
    (Num.of_nat columnsWithMissing / Num.of_nat (length hs) * Fin 15)%num in
  let strictCompletenessScore :=
    Num.max (Fin 0) (Fin 100 - percentMissing - columnMissingPenalty)%num in
  MissingReport.mk missingByColumn missingByRow totalMissing
    (Num.of_nat totalMissing / Num.of_nat totalCells * Fin 100)%num
    strictCompletenessScore.

(** *** findDuplicates *)

Definition rowHash (hs : list string) (r : row) : string :=
  JSON_stringify (sort_default (map (fun header => cell r header) hs)).

Definition duplicate_step (hs : list string)
    (st : gmap string nat * list DuplicateEntry.t) (r : row) (index : nat)
    : gmap string nat * list DuplicateEntry.t :=
  match st.1 !! rowHash hs r with
  | Some originalIndex => (st.1, st.2 ++ [DuplicateEntry.mk originalIndex index r])
  | None => (<[rowHash hs r := index]> st.1, st.2)
  end.

Definition find_duplicate_rows (parsedData : Dataset) : list DuplicateEntry.t :=
  (forEach_indexed (duplicate_step (headers parsedData)) (rows parsedData) 0%nat (∅, [])).2.

Definition cardinality_penalty (parsedData : Dataset) (totalUniquenessPenalty : number)
    (header : string) : number :=
  let columnValues := List.filter not_blank (column parsedData header) in
  if (0 <? length columnValues)%nat then
    let uniqueValues := Set_size columnValues in
    let uniqueRatio := (Num.of_nat uniqueValues / Num.of_nat (length columnValues))%num in
    if (uniqueRatio <? Fin (4 # 5))%num
    then (totalUniquenessPenalty + (Fin (4 # 5) - uniqueRatio) * Fin 10)%num
    else totalUniquenessPenalty
  else totalUniquenessPenalty.

Definition findDuplicates (parsedData : Dataset) : DuplicateReport.t :=
  let duplicates := find_duplicate_rows parsedData in
  let totalUniquenessPenalty :=
    fold_left (cardinality_penalty parsedData) (headers parsedData) (Fin 0) in
  let nrows := length (rows parsedData) in
  let uniquenessScore :=
    (Fin 100 - (Num.of_nat (length duplicates) / Num.of_nat nrows * Fin 100))%num in
  let uniquenessScore := Num.max (Fin 0) (uniquenessScore - totalUniquenessPenalty)%num in
  DuplicateReport.mk (length duplicates)
    (Num.of_nat (length duplicates) / Num.of_nat nrows * Fin 100)%num
    duplicates uniquenessScore.

(** *** analyzeDataTypes *)

Definition analyzeDataTypes (parsedData : Dataset) : jsobj TypeInfo.t :=
  fold_left (fun typeAnalysis header =>
               Obj.set typeAnalysis header (detectDataType (column parsedData header)))
            (headers parsedData) [].

(** *** calculateStatistics *)

(** [typeof v === 'number' ? v : parseFloat(v)] *)
Definition to_numeric (v : value) : number :=
  match v with
  | VNum n => n
  | _ => parseFloat v
  end.

Definition numeric_values (values : list value) : list number :=
  List.filter (fun v => negb (Num.isNaN v))
    (map to_numeric (List.filter not_blank values)).

Definition mode_step (st : gmap string nat * nat * option number) (val : number)
    : gmap string nat * nat * option number :=
  let '(frequency, maxFreq, mode) := st in
  let key := Number_toString val in
  let f := S (default 0%nat (frequency !! key)) in
  let frequency := <[key := f]> frequency in
  if (maxFreq <? f)%nat then (frequency, f, Some val) else (frequency, maxFreq, mode).

Definition calculateMode (values : list number) : option number :=
  (fold_left mode_step values (∅, 0%nat, None)).2.

Definition calculateStatistics (values : list value) : option Statistics.t :=
  let numericValues := numeric_values values in
  if (length numericValues =? 0)%nat then None
  else
    let sorted := sort_with (fun a b => (a - b)%num) numericValues in
    let sum := fold_left Num.add numericValues (Fin 0) in
    let mean := (sum / Num.of_nat (length numericValues))%num in
    let squaredDiffs := map (fun val => Num.pow (val - mean)%num 2) numericValues in
    let variance :=
      (fold_left Num.add squaredDiffs (Fin 0) / Num.of_nat (length numericValues))%num in
    let stdDev := Math_sqrt variance in
    let q1Index := Num.floor (Num.of_nat (length sorted) * Fin (1 # 4))%num in
    let q2Index := Num.floor (Num.of_nat (length sorted) * Fin (1 # 2))%num in
    let q3Index := Num.floor (Num.of_nat (length sorted) * Fin (3 # 4))%num in
    let last := at_index sorted (Num.of_nat (length sorted) - Fin 1)%num in
    Some (Statistics.mk
            (length numericValues)
            (at_index sorted (Fin 0))
            last
            mean
            (at_index sorted q2Index)
            (calculateMode numericValues)
            stdDev
            variance
            (at_index sorted q1Index)
            (at_index sorted q2Index)
            (at_index sorted q3Index)
            (last - at_index sorted (Fin 0))%num).

(** *** detectOutliers *)

Definition outlier_step (lowerBound upperBound : number)
    (outliers : list Outlier.t) (v : value) (index : nat) : list Outlier.t :=
  let numValue := to_numeric v in
  if negb (Num.isNaN numValue)
     && ((numValue <? lowerBound)%num || (numValue >? upperBound)%num)
  then outliers ++ [Outlier.mk index numValue
                      (if (numValue <? lowerBound)%num then Low else High)]
  else outliers.

Definition detectOutliers (values : list value) : OutlierReport.t :=
  match calculateStatistics values with
  | None => OutlierReport.mk [] 0 (Fin 0) None None
  | Some stats =>
      let iqr := (Statistics.q3 stats - Statistics.q1 stats)%num in
      let lowerBound := (Statistics.q1 stats - Fin (3 # 2) * iqr)%num in
      let upperBound := (Statistics.q3 stats + Fin (3 # 2) * iqr)%num in
      let outliers := forEach_indexed (outlier_step lowerBound upperBound) values 0%nat [] in
      OutlierReport.mk outliers (length outliers)
        (Num.of_nat (length outliers) / Num.of_nat (length values) * Fin 100)%num
        (Some lowerBound) (Some upperBound)
  end.

(** *** analyzeDataQuality *)

(** The object stored in [columnStats[header]]. *)
Definition column_stats_of (parsedData : Dataset) (missingValues : MissingReport.t)
    (header : string) (typeInfo : TypeInfo.t) : ColumnStats.t :=
  let columnValues := column parsedData header in
  let unique := Set_size (List.filter not_blank columnValues) in
  let uniquePercentage :=
    (Num.of_nat (Set_size columnValues) / Num.of_nat (length columnValues) * Fin 100)%num in
  let missing := Obj.get (MissingReport.byColumn missingValues) header in
  match TypeInfo.type typeInfo with
  | TNumber =>
      ColumnStats.mk typeInfo missing unique uniquePercentage
        (Some (calculateStatistics columnValues))
        (Some (detectOutliers columnValues))
  | _ => ColumnStats.mk typeInfo missing unique uniquePercentage None None
  end.

(** One round of the loop over the headers; reading [typeInfo.type] is a
    TypeError when [dataTypes[header]] is undefined. *)
Definition column_stats_step (parsedData : Dataset) (missingValues : MissingReport.t)
    (dataTypes : jsobj TypeInfo.t)
    (acc : option (jsobj ColumnStats.t)) (header : string) : option (jsobj ColumnStats.t) :=
  columnStats ← acc;
  typeInfo ← Obj.get dataTypes header;
  Some (Obj.set columnStats header (column_stats_of parsedData missingValues header typeInfo)).

Definition is_type (ty : dtype) (stats : ColumnStats.t) : bool :=
  match TypeInfo.type (ColumnStats.type stats), ty with
  | TEmpty, TEmpty | TNumber, TNumber | TString, TString
  | TBoolean, TBoolean | TDate, TDate => true
  | _, _ => false
  end.

(** The format a value of a string column is filed under. *)
Definition format_of_string (str : string) : text_format :=
  let letters_or_space c := Str.is_lower c || Str.is_space c in
  let phrase (first : ascii -> bool) :=
    match str with
    | String c r => first c && Str.all_chars letters_or_space r
    | EmptyString => false
    end in
  if negb (Str.is_empty str) && Str.all_chars Str.is_digit str then FNumeric
  else if negb (Str.is_empty str) && Str.all_chars Str.is_lower str then FLowercase
  else if negb (Str.is_empty str) && Str.all_chars Str.is_upper str then FUppercase
  else if phrase Str.is_lower then FLowercasePhrase
  else if phrase Str.is_upper then FTitlecasePhrase
  else FMixed.

Definition format_of (v : value) : option text_format :=
  str ← toString_method v; Some (format_of_string str).

Definition null_variation (v : value) : bool :=
  strict_eq v (VStr "") || strict_eq v (VStr "null") || strict_eq v (VStr "NULL")
  || strict_eq v (VStr "N/A") || strict_eq v (VStr "n/a") || strict_eq v (VStr "-").

Definition validity_step (parsedData : Dataset) (acc : option nat)
    (entry : string * ColumnStats.t) : option nat :=
  validityIssues ← acc;
  let columnValues := List.filter not_blank (column parsedData entry.1) in
  if (length columnValues =? 0)%nat then Some validityIssues
  else
    validityIssues ←
      (if is_type TString entry.2 then
         formats ← mapM format_of columnValues;
         let uniqueFormats := length (remove_dups formats) in
         Some (if (1 <? uniqueFormats)%nat then validityIssues + 2 else validityIssues)%nat
       else Some validityIssues);
    let nullVariations := length (List.filter null_variation columnValues) in
    Some (if (0 <? nullVariations)%nat && (nullVariations <? length columnValues)%nat
          then validityIssues + 1 else validityIssues)%nat.

(** [v.toString()] followed by a test on the characters of the result. *)
Definition string_test (p : string -> bool) (v : value) : option bool :=
  str ← toString_method v; Some (p str).

Definition has_symbol (str : string) : bool :=
  Str.some_char (fun c => existsb (Ascii.eqb c) ["$"; ","; "("; ")"]%char) str.

Definition count_true (l : list bool) : nat := length (List.filter id l).

Definition format_inconsistency_step (parsedData : Dataset) (acc : option nat)
    (entry : string * ColumnStats.t) : option nat :=
  formatInconsistencyPenalty ← acc;
  if is_type TNumber entry.2 then
    let columnValues := List.filter truthy (column parsedData entry.1) in
    flags ← mapM (string_test has_symbol) columnValues;
    let withSymbols := count_true flags in
    let withoutSymbols := (length columnValues - withSymbols)%nat in
    Some (if (0 <? withSymbols)%nat && (0 <? withoutSymbols)%nat
          then formatInconsistencyPenalty + 3 else formatInconsistencyPenalty)%nat
  else Some formatInconsistencyPenalty.

Definition formatted_open (str : string) : bool :=
  Str.includes_char "$" str || Str.includes_char "," str || Str.includes_char "(" str.

Definition formatted (str : string) : bool :=
  Str.includes_char "$" str || Str.includes_char "," str
  || Str.includes_char "(" str || Str.includes_char ")" str.

Definition unformatted (str : string) : bool :=
  negb (Str.includes_char "$" str) && negb (Str.includes_char "," str)
  && negb (Str.includes_char "(" str) && negb (Str.includes_char ")" str).

(** [v && (v.toString()...)]: the method is only called on a truthy value. *)
Definition guarded_test (p : string -> bool) (v : value) : option bool :=
  if truthy v then string_test p v else Some false.

Definition format_issues_step (parsedData : Dataset) (acc : option nat)
    (entry : string * ColumnStats.t) : option nat :=
  formatIssuesPenalty ← acc;
  if is_type TNumber entry.2 then
    let columnValues := column parsedData entry.1 in
    flags ← mapM (guarded_test formatted_open) columnValues;
    let formattedCount := count_true flags in
    Some (if (0 <? formattedCount)%nat && (formattedCount <? length columnValues)%nat
          then formatIssuesPenalty + 5 else formatIssuesPenalty)%nat
  else Some formatIssuesPenalty.

Definition missing_severity (percentage : number) : severity_level :=
  if (percentage >? Fin 50)%num then SevHigh
  else if (percentage >? Fin 25)%num then SevHigh
  else if (percentage >? Fin 10)%num then SevMedium
  else if (percentage >? Fin 0)%num then SevLow
  else SevLow.

Definition missing_issue_step (issues : list Issue.t)
    (entry : string * MissingColumn.t) : list Issue.t :=
  let '(column, data) := entry in
  if (0 <? MissingColumn.count data)%nat then
    issues ++ [Issue.mk Missing (missing_severity (MissingColumn.percentage data)) (Some column)
                 (column +:+ " has " +:+ Str.of_nat (MissingColumn.count data)
                  +:+ " missing values (" +:+ toFixed 1 (MissingColumn.percentage data) +:+ "%)")
                 (Some (MissingColumn.count data)) None]
  else issues.

Definition duplicate_issue_step (issues : list Issue.t) (duplicates : DuplicateReport.t)
    : list Issue.t :=
  if (0 <? DuplicateReport.count duplicates)%nat then
    issues ++ [Issue.mk Duplicate SevHigh None
                 ("Found " +:+ Str.of_nat (DuplicateReport.count duplicates)
                  +:+ " duplicate rows (" +:+ toFixed 1 (DuplicateReport.percentage duplicates) +:+ "%)")
                 (Some (DuplicateReport.count duplicates)) None]
  else issues.

Definition dtype_name (ty : dtype) : string :=
  match ty with
  | TEmpty => "empty" | TNumber => "number" | TString => "string"
  | TBoolean => "boolean" | TDate => "date"
  end.

Definition flag (b : option bool) : bool := default false b.

Definition mixed_issue_step (issues : list Issue.t)
    (entry : string * TypeInfo.t) : list Issue.t :=
  let '(column, type) := entry in
  if flag (TypeInfo.mixedTypes type) then
    let severity := if (TypeInfo.confidence type <? Fin (3 # 4))%num then SevHigh else SevMedium in
    issues ++ [Issue.mk Inconsistent severity (Some column)
                 (column +:+ " has mixed data types ("
                  +:+ toFixed 0 (TypeInfo.confidence type * Fin 100)%num +:+ "% "
                  +:+ dtype_name (TypeInfo.type type) +:+ ")")
                 None (Some (TypeInfo.confidence type))]
  else issues.

Definition format_issue_step (parsedData : Dataset) (acc : option (list Issue.t))
    (entry : string * ColumnStats.t) : option (list Issue.t) :=
  issues ← acc;
  if is_type TNumber entry.2 then
    let columnValues := List.filter truthy (column parsedData entry.1) in
    fs ← mapM (string_test formatted) columnValues;
    us ← mapM (string_test unformatted) columnValues;
    let formattedValues := count_true fs in
    let unformattedValues := count_true us in
    if (0 <? formattedValues)%nat && (0 <? unformattedValues)%nat then
      Some (issues ++ [Issue.mk Format SevLow (Some entry.1)
                         (entry.1 +:+ " has inconsistent number formatting ("
                          +:+ Str.of_nat formattedValues +:+ " formatted, "
                          +:+ Str.of_nat unformattedValues +:+ " unformatted)")
                         (Some (formattedValues + unformattedValues)%nat) None])
    else Some issues
  else Some issues.

Definition outlier_severity (percentage : number) : severity_level :=
  if (percentage >? Fin 5)%num then SevHigh
  else if (percentage >? Fin 2)%num then SevMedium
  else SevLow.

Definition outlier_issue_step (issues : list Issue.t)
    (entry : string * ColumnStats.t) : list Issue.t :=
  let '(column, stats) := entry in
  match ColumnStats.outliers stats with
  | Some o =>
      if (0 <? OutlierReport.count o)%nat then
        issues ++ [Issue.mk OutlierIssue (outlier_severity (OutlierReport.percentage o)) (Some column)
                     (column +:+ " has " +:+ Str.of_nat (OutlierReport.count o)
                      +:+ " outliers (" +:+ toFixed 1 (OutlierReport.percentage o) +:+ "%)")
                     (Some (OutlierReport.count o)) None]
      else issues
  | None => issues
  end.

Definition build_column_stats (parsedData : Dataset) (missingValues : MissingReport.t)
    (dataTypes : jsobj TypeInfo.t) : option (jsobj ColumnStats.t) :=
  fold_left (column_stats_step parsedData missingValues dataTypes) (headers parsedData) (Some []).

Definition generate_issues (parsedData : Dataset) (missingValues : MissingReport.t)
    (duplicates : DuplicateReport.t) (dataTypes : jsobj TypeInfo.t)
    (columnStats : jsobj ColumnStats.t) : option (list Issue.t) :=
  let issues := [] in
  let issues := fold_left missing_issue_step (Obj.entries (MissingReport.byColumn missingValues)) issues in
  let issues := duplicate_issue_step issues duplicates in
  let issues := fold_left mixed_issue_step (Obj.entries dataTypes) issues in
  issues ← fold_left (format_issue_step parsedData) (Obj.entries columnStats) (Some issues);
  Some (fold_left outlier_issue_step (Obj.entries columnStats) issues).

Definition analyzeDataQuality (parsedData : Dataset) : option QualityAnalysis.t :=
  let missingValues := findMissingValues parsedData in
  let duplicates := findDuplicates parsedData in
  let dataTypes := analyzeDataTypes parsedData in
  columnStats ← build_column_stats parsedData missingValues dataTypes;
  let completenessScore := MissingReport.completenessScore missingValues in
  let uniquenessScore := DuplicateReport.uniquenessScore duplicates in
  validityIssues ← fold_left (validity_step parsedData) (Obj.entries columnStats) (Some 0%nat);
  let validityScore := Num.max (Fin 0) (Fin 100 - Num.of_nat validityIssues)%num in
  let mixedTypeColumns :=
    length (List.filter (fun t => flag (TypeInfo.mixedTypes t)) (Obj.values dataTypes)) in
  let mixedTypesPenalty :=
    (Num.of_nat mixedTypeColumns / Num.of_nat (length (headers parsedData)) * Fin 100)%num in
  formatInconsistencyPenalty ←
    fold_left (format_inconsistency_step parsedData) (Obj.entries columnStats) (Some 0%nat);
  let consistencyScore :=
    Num.max (Fin 0) (Fin 100 - mixedTypesPenalty - Num.of_nat formatInconsistencyPenalty)%num in
  let columnsWithMissing :=
    length (List.filter (fun m => (0 <? MissingColumn.count m)%nat)
                        (Obj.values (MissingReport.byColumn missingValues))) in
  let missingColumnsPenalty :=
    (Num.of_nat columnsWithMissing / Num.of_nat (length (headers parsedData)) * Fin 20)%num in
  formatIssuesPenalty ←
    fold_left (format_issues_step parsedData) (Obj.entries columnStats) (Some 0%nat);
  let baseScore :=
    (completenessScore * Fin (40 # 100) + uniquenessScore * Fin (30 # 100)
     + validityScore * Fin (20 # 100) + consistencyScore * Fin (10 # 100))%num in
  let overallScore :=
    Num.max (Fin 0) (baseScore - missingColumnsPenalty - Num.of_nat formatIssuesPenalty)%num in
  issues ← generate_issues parsedData missingValues duplicates dataTypes columnStats;
  Some (QualityAnalysis.mk overallScore
          (Scores.mk completenessScore uniquenessScore validityScore consistencyScore)
          missingValues duplicates dataTypes columnStats issues
          (Summary.mk (length (rows parsedData)) (length (headers parsedData))
             (length (rows parsedData) * length (headers parsedData))
             (MissingReport.total missingValues) (DuplicateReport.count duplicates)
             (length issues))).

End Engine.

(** ** A reference host

    The closed examples below run the engine on one host.  Its numerals are
    the decimal expansion cut after 17 fractional digits, its square root is
    cut after 16 decimals, and its dates follow the common reading of the
    three patterns (month 1 to 12, day 1 to 31, the month first where the
    year comes last).  None of the examples depends on these choices: their
    cells are integers, null or absent. *)

Module RefHost.

Fixpoint fraction_digits (fuel : nat) (n d : Z) : string :=
  match fuel with
  | O => EmptyString
  | S f =>
      if (n =? 0)%Z then EmptyString
      else String (Str.digit_char (Z.to_nat (n * 10 / d)))
                  (fraction_digits f ((n * 10) mod d) d)
  end.

Definition numeral (q : Q) : string :=
  let n := Z.abs (Qnum q) in
  let d := Zpos (Qden q) in
  let sign := if (Qnum q <? 0)%Z then "-" else EmptyString in
  let frac := fraction_digits 17 (n mod d) d in
  sign +:+ Str.of_Z (n / d) +:+ (if Str.is_empty frac then EmptyString else "." +:+ frac).

Definition sqrt (x : number) : number :=
  match x with
  | Fin q =>
      if Qle_bool 0 q
      then Fin (inject_Z (Z.sqrt (Qfloor (q * inject_Z (10 ^ 32)))) / inject_Z (10 ^ 16))
      else NaN
  | PosInf => PosInf
  | _ => NaN
  end.

Definition two_digits (s : string) (from : nat) : Z :=
  Str.digits_value 10 Str.digit_value (list_ascii_of_string (String.substring from 2 s)).

Definition date_valid (s : string) : bool :=
  let ok m d := ((1 <=? m) && (m <=? 12) && (1 <=? d) && (d <=? 31))%Z in
  if Str.is_digit (default "-"%char (String.get 2 s))
  then ok (two_digits s 5) (two_digits s 8)
  else ok (two_digits s 0) (two_digits s 3).

#[export] Instance host : Host := {|
  Number_toString_other := numeral;
  Math_sqrt := sqrt;
  Date_parse_valid := date_valid
|}.

End RefHost.

(** ** Sample datasets *)

Definition num (z : Z) : value := VNum (Fin (inject_Z z)).

(** headers [id, age]; rows {id:1,age:30}, {id:2,age:null}, {id:1,age:30} *)
Definition people : Dataset := {|
  headers := ["id"; "age"];
  rows := [ [("id", num 1); ("age", num 30)];
            [("id", num 2); ("age", VNull)];
            [("id", num 1); ("age", num 30)] ]
|}.

(** One header and no row. *)
Definition no_rows : Dataset := {| headers := ["a"]; rows := [] |}.

(** ** Vocabulary of the statements *)

Definition scores_in_range (r : QualityAnalysis.t) : Prop :=
  Num.in_range 0 100 (QualityAnalysis.overallScore r)
  /\ Num.in_range 0 100 (Scores.completeness (QualityAnalysis.scores r))
  /\ Num.in_range 0 100 (Scores.uniqueness (QualityAnalysis.scores r))
  /\ Num.in_range 0 100 (Scores.validity (QualityAnalysis.scores r))
  /\ Num.in_range 0 100 (Scores.consistency (QualityAnalysis.scores r)).

Definition finite (x : number) : Prop := Num.is_finite x = true.

(** Every percentage of a result is a finite number. *)
Definition percentages_defined (r : QualityAnalysis.t) : Prop :=
  let mv := QualityAnalysis.missingValues r in
  finite (MissingReport.percentage mv)
  /\ Forall (fun kv => finite (MissingColumn.percentage kv.2)) (MissingReport.byColumn mv)
  /\ Forall (fun m => finite (MissingRow.percentage m)) (MissingReport.byRow mv)
  /\ finite (DuplicateReport.percentage (QualityAnalysis.duplicates r))
  /\ Forall (fun kv =>
               finite (ColumnStats.uniquePercentage kv.2)
               /\ (forall c, ColumnStats.missing kv.2 = Some c -> finite (MissingColumn.percentage c))
               /\ (forall o, ColumnStats.outliers kv.2 = Some o -> finite (OutlierReport.percentage o)))
            (QualityAnalysis.columnStats r).

#[export] Instance dtype_eq_dec : EqDecision dtype.
Proof. solve_decision. Defined.

(** The enumeration order of the [types] array of [detectDataType]. *)
Definition type_order : list dtype := [TNumber; TString; TBoolean; TDate].

Definition rank (ty : dtype) : nat :=
  match ty with
  | TNumber => 0 | TString => 1 | TBoolean => 2 | TDate => 3 | TEmpty => 4
  end.

(** How many values of a list are counted under a type. *)
Definition count_type {host : Host} (ty : dtype) (l : list value) : nat :=
  length (List.filter (fun v => bool_decide (classify v = ty)) l).

(** [x <= y] on numbers: [y < x] does not hold.  On numbers other than NaN
    this is the usual order with the two infinities at the ends. *)
Definition num_le (x y : number) : Prop := Num.ltb y x = false.

Definition not_NaN (x : number) : Prop := Num.isNaN x = false.

(** [floor(N * p)] as a position in a list. *)
Definition floor_index (N : nat) (p : Q) : nat :=
  Z.to_nat (Qfloor (inject_Z (Z.of_nat N) * p)).

(** The position of the first row of a list with a given fingerprint. *)
Definition first_with {host : Host} (hs : list string) (rs : list row) (h : string)
    : option nat :=
  fst <$> list_find (fun r => rowHash hs r = h) rs.

(** The duplicate class of the row at position [i], named by the position
    of the first row with the same fingerprint. *)
Definition duplicate_class {host : Host} (d : Dataset) (i : nat) : option nat :=
  r ← rows d !! i; first_with (headers d) (rows d) (rowHash (headers d) r).

(** Two rows hold the same value under every header. *)
Definition value_identical {host : Host} (hs : list string) (r1 r2 : row) : Prop :=
  forall h, In h hs -> cell r1 h = cell r2 h.

(** The values a row holds under the headers, in header order. *)
Definition projection {host : Host} (hs : list string) (r : row) : list value :=
  map (fun header => cell r header) hs.

(** No two different defined values of the list have the same rendering as
    a string. *)
Definition renderings_distinct {host : Host} (l : list value) : Prop :=
  forall x y, In x l -> In y l -> x <> VUndefined -> y <> VUndefined ->
              JS.ToString x = JS.ToString y -> x = y.

(** a = 1 (number), b = "1" (text) in the first row, the other way round in
    the second. *)
Definition swapped : Dataset := {|
  headers := ["a"; "b"];
  rows := [ [("a", num 1); ("b", VStr "1")];
            [("a", VStr "1"); ("b", num 1)] ]
|}.

(** [x] may stand before [y] in an array sorted without a comparator. *)
Definition before {host : Host} (x y : value) : Prop :=
  String.ltb (JS.ToString y) (JS.ToString x) = false.

(** *** The issue sequence as the specification words it *)

Definition issue_key (i : Issue.t) : issue_type * severity_level * option string :=
  (Issue.type i, Issue.severity i, Issue.column i).

Definition missing_severity_spec (percentage : number) : severity_level :=
  if (percentage >? Fin 50)%num || (percentage >? Fin 25)%num then SevHigh
  else if (percentage >? Fin 10)%num then SevMedium
  else SevLow.

Definition mixed_severity_spec (confidence : number) : severity_level :=
  if (confidence <? Fin (3 # 4))%num then SevHigh else SevMedium.

Definition outlier_severity_spec (percentage : number) : severity_level :=
  if (percentage >? Fin 5)%num then SevHigh
  else if (percentage >? Fin 2)%num then SevMedium
  else SevLow.

(** The column holds both a value written with [$], [,], [(] or [)] and a
    value written without. *)
Definition formatting_split {host : Host} (d : Dataset) (header : string) : bool :=
  let vals := List.filter JS.truthy (column d header) in
  existsb (fun v => formatted (JS.ToString v)) vals
  && existsb (fun v => unformatted (JS.ToString v)) vals.

Definition expected_missing (r : QualityAnalysis.t) (header : string)
    : list (issue_type * severity_level * option string) :=
  match Obj.get (MissingReport.byColumn (QualityAnalysis.missingValues r)) header with
  | Some c =>
      if (0 <? MissingColumn.count c)%nat
      then [(Missing, missing_severity_spec (MissingColumn.percentage c), Some header)]
      else []
  | None => []
  end.

Definition expected_duplicate (r : QualityAnalysis.t)
    : list (issue_type * severity_level * option string) :=
  if (0 <? DuplicateReport.count (QualityAnalysis.duplicates r))%nat
  then [(Duplicate, SevHigh, None)] else [].

Definition expected_mixed (r : QualityAnalysis.t) (header : string)
    : list (issue_type * severity_level * option string) :=
  match Obj.get (QualityAnalysis.dataTypes r) header with
  | Some t =>
      if flag (TypeInfo.mixedTypes t)
      then [(Inconsistent, mixed_severity_spec (TypeInfo.confidence t), Some header)]
      else []
  | None => []
  end.

Definition expected_format {host : Host} (d : Dataset) (r : QualityAnalysis.t) (header : string)
    : list (issue_type * severity_level * option string) :=
  match Obj.get (QualityAnalysis.columnStats r) header with
  | Some cs =>
      if is_type TNumber cs && formatting_split d header
      then [(Format, SevLow, Some header)] else []
  | None => []
  end.

Definition expected_outlier (r : QualityAnalysis.t) (header : string)
    : list (issue_type * severity_level * option string) :=
  match Obj.get (QualityAnalysis.columnStats r) header with
  | Some cs =>
      match ColumnStats.outliers cs with
      | Some o =>
          if (0 <? OutlierReport.count o)%nat
          then [(OutlierIssue, outlier_severity_spec (OutlierReport.percentage o), Some header)]
          else []
      | None => []
      end
  | None => []
  end.

(** Missing issues, then the duplicate issue, then mixed-type, formatting
    and outlier issues, each group in header order. *)
Definition expected_issues {host : Host} (d : Dataset) (r : QualityAnalysis.t)
    : list (issue_type * severity_level * option string) :=
  flat_map (expected_missing r) (headers d)
  ++ expected_duplicate r
  ++ flat_map (expected_mixed r) (headers d)
  ++ flat_map (expected_format d r) (headers d)
  ++ flat_map (expected_outlier r) (headers d).

(** The key is not an array index. *)
Definition plain_key (k : string) : Prop := Obj.array_index k = None.

(** A header that is an array index, after one that is not. *)
Definition index_header : Dataset := {|
  headers := ["b"; "1"];
  rows := [ []; [("b", num 1); ("1", num 2)] ]
|}.

(** What the loops of the issue list push for one entry. *)
Definition pushed_missing {host : Host} (e : string * MissingColumn.t) : list Issue.t :=
  missing_issue_step [] e.
Definition pushed_mixed {host : Host} (e : string * TypeInfo.t) : list Issue.t :=
  mixed_issue_step [] e.
Definition pushed_outlier {host : Host} (e : string * ColumnStats.t) : list Issue.t :=
  outlier_issue_step [] e.
Definition pushed_format {host : Host} (d : Dataset) (e : string * ColumnStats.t)
    : list Issue.t :=
  default [] (format_issue_step d (Some []) e).

(** *** More sample data *)

(** The numeric columns [1,1,1,1,100] and [1,2,3,4]. *)
Definition skewed : list value := map num [1; 1; 1; 1; 100]%Z.
Definition quartet : list value := map num [1; 2; 3; 4]%Z.

(** A column whose first cell is null. *)
Definition skewed_after_null : list value := VNull :: skewed.

(** Two headers, a row without any key and a row with a foreign key. *)
Definition ragged : Dataset := {|
  headers := ["a"; "b"];
  rows := [ []; [("c", num 1)] ]
|}.

(** The same two numbers under exchanged columns. *)
Definition crossed : Dataset := {|
  headers := ["a"; "b"];
  rows := [ [("a", num 1); ("b", num 2)];
            [("a", num 2); ("b", num 1)] ]
|}.

(** What a reader sees of an issue. *)
Definition issue_line (i : Issue.t) : issue_type * severity_level * option string * string :=
  (Issue.type i, Issue.severity i, Issue.column i, Issue.description i).

(** A column where the text and the boolean tally are level. *)
Definition level_tally : list value := [VStr "true"; VStr "abc"].

(** ** Vocabulary for the further properties *)

(** The positions, from [i] on, of the rows satisfying [p]. *)
Fixpoint positions_from (p : row -> bool) (rs : list row) (i : nat) : list nat :=
  match rs with
  | [] => []
  | r :: rs' => (if p r then [i] else []) ++ positions_from p rs' (S i)
  end.

(** The rows whose cell under [header] is missing. *)
Definition missing_positions {host : Host} (d : Dataset) (header : string) : list nat :=
  positions_from (fun r => isMissing (cell r header)) (rows d) 0.

(** How many of the headers have a missing cell in the row. *)
Definition missing_in_row {host : Host} (hs : list string) (r : row) : nat :=
  length (List.filter (fun header => isMissing (cell r header)) hs).

(** No cell of the dataset is missing. *)
Definition complete {host : Host} (d : Dataset) : Prop :=
  forall r header, In r (rows d) -> In header (headers d) -> isMissing (cell r header) = false.


(** The number of missing cells of the data set, row by row. *)
Definition missing_cells {host : Host} (d : Dataset) : nat :=
  list_sum (map (missing_in_row (headers d)) (rows d)).

(** The sum of the counts held by the column objects. *)
Definition counted_sum (o : jsobj MissingColumn.t) : nat :=
  list_sum (map (fun kv => MissingColumn.count kv.2) o).

(** How many numbers of a list are filed under a key of the frequency
    object of calculateMode. *)
Definition key_count {host : Host} (k : string) (l : list number) : nat :=
  length (List.filter (fun y => String.eqb (JS.Number_toString y) k) l).

(** NaN, or a number that is not negative (+Infinity included). *)
Definition not_negative (x : number) : Prop := Num.ltb x (Fin 0) = false.

(** What holds of the frequency object, of maxFreq and of mode once the
    values [pre] have been visited. *)
Definition mode_invariant {host : Host} (pre : list number) (st : gmap string nat * nat * option number) : Prop :=
  (forall k, default 0%nat (st.1.1 !! k) = key_count k pre)
  /\ (forall k, (key_count k pre <= st.1.2)%nat)
  /\ match st.2 with
     | Some m => In m pre /\ key_count (JS.Number_toString m) pre = st.1.2
     | None => pre = [] /\ st.1.2 = 0%nat
     end.


(** * The neighbours of the engine

    The functions around the engine that are pure computations on its
    input or on its result: the validation of uploaded data, the texts
    derived from the issue list, the CSV report and the list of recent
    analyses.  The strings 'error', 'warning', 'high', 'missing', ... that
    the code uses as tags are constructors here, as for the issues.
    validateParsedData reads [headerCounts[header]] before anything is
    stored under the header, so for it the members of Object.prototype are
    part of the model. *)

Definition nl : string := String (ascii_of_nat 10) EmptyString.
Definition dq : string := String (ascii_of_nat 34) EmptyString.

(** ** fileProcessing.js: validateParsedData *)

Inductive validation_level : Type := LevelError | LevelWarning.

Module ValidationIssue.
Record t : Type := mk { type : validation_level; message : string }.
End ValidationIssue.

Module Validation.
Record t : Type := mk { isValid : bool; issues : list ValidationIssue.t }.
End Validation.

(** The properties an object literal inherits from Object.prototype:
    [headerCounts[header]] finds them before anything was counted. *)
Definition Object_prototype_keys : list string :=
  [ "constructor"; "toString"; "toLocaleString"; "valueOf"; "hasOwnProperty";
    "isPrototypeOf"; "propertyIsEnumerable"; "__proto__";
    "__defineGetter__"; "__defineSetter__"; "__lookupGetter__"; "__lookupSetter__" ].

Definition inherited (k : string) : bool := existsb (String.eqb k) Object_prototype_keys.

(** What [headerCounts] holds under a key: a count, or the text that [+ 1]
    makes of an inherited function or object (and of such a text again). *)
Inductive header_count : Type := Counted (n : nat) | Text.

(** [headerCounts[header] = (headerCounts[header] || 0) + 1].  An assignment
    of a text to [__proto__] leaves the object as it is. *)
Definition count_header (headerCounts : jsobj header_count) (header : string)
    : jsobj header_count :=
  match Obj.get headerCounts header with
  | Some (Counted n) => Obj.set headerCounts header (Counted (n + 1))
  | Some Text => Obj.set headerCounts header Text
  | None =>
      if inherited header then
        if String.eqb header "__proto__" then headerCounts
        else Obj.set headerCounts header Text
      else Obj.set headerCounts header (Counted 1)
  end.

(** [count > 1]: a text that is not a numeral compares as NaN. *)
Definition more_than_once (c : header_count) : bool :=
  match c with Counted n => (1 <? n)%nat | Text => false end.

Definition duplicate_headers (hs : list string) : list string :=
  map fst (List.filter (fun e => more_than_once e.2)
                       (Obj.entries (fold_left count_header hs []))).

(** [!h || h.trim() === ''] *)
Definition empty_header (h : string) : bool :=
  Str.is_empty h || String.eqb (Str.trim h) "".

Definition inconsistent_row (expectedColumns : nat) (r : row) : bool :=
  negb (length (Obj.keys r) =? expectedColumns)%nat.

Definition is_error (i : ValidationIssue.t) : bool :=
  match ValidationIssue.type i with LevelError => true | LevelWarning => false end.

Definition validateParsedData (parsedData : Dataset) : Validation.t :=
  let issues := [] in
  let issues :=
    if (length (rows parsedData) =? 0)%nat
    then issues ++ [ValidationIssue.mk LevelError "No data rows found in file"]
    else issues in
  let issues :=
    if (length (headers parsedData) =? 0)%nat
    then issues ++ [ValidationIssue.mk LevelError "No column headers found in file"]
    else issues in
  let duplicates := duplicate_headers (headers parsedData) in
  let issues :=
    if (0 <? length duplicates)%nat
    then issues ++ [ValidationIssue.mk LevelWarning
                      ("Duplicate column names found: " +:+ Str.join ", " duplicates)]
    else issues in
  let emptyHeaders := List.filter empty_header (headers parsedData) in
  let issues :=
    if (0 <? length emptyHeaders)%nat
    then issues ++ [ValidationIssue.mk LevelWarning
                      ("Found " +:+ Str.of_nat (length emptyHeaders)
                       +:+ " column(s) with empty names")]
    else issues in
  let issues :=
    if (0 <? length (rows parsedData))%nat then
      let expectedColumns := length (headers parsedData) in
      let inconsistentRows := List.filter (inconsistent_row expectedColumns) (rows parsedData) in
      if (0 <? length inconsistentRows)%nat
      then issues ++ [ValidationIssue.mk LevelWarning
                        (Str.of_nat (length inconsistentRows)
                         +:+ " row(s) have inconsistent column counts")]
      else issues
    else issues in
  Validation.mk (length (List.filter is_error issues) =? 0)%nat issues.

(** ** qualityUtils.js: generateRecommendations *)

Module Recommendation.
Record t : Type := mk { title : string; recommendation : string; sql : string }.
End Recommendation.

(** [${issue.column}] in a template. *)
Definition column_text (issue : Issue.t) : string :=
  default "undefined" (Issue.column issue).

Definition issue_type_eqb (a b : issue_type) : bool :=
  match a, b with
  | Missing, Missing | Duplicate, Duplicate | Inconsistent, Inconsistent
  | Format, Format | OutlierIssue, OutlierIssue => true
  | _, _ => false
  end.

Definition missing_recommendation (col : string) : Recommendation.t :=
  Recommendation.mk
    ("Fill or handle missing values in " +:+ col)
    ("Decide on a strategy: remove rows, fill with a default, or impute values. Example SQL to set NULLs to a default:"
     +:+ nl +:+ nl +:+ "UPDATE dataset_table" +:+ nl
     +:+ "SET " +:+ dq +:+ col +:+ dq +:+ " = 'UNKNOWN'" +:+ nl
     +:+ "WHERE " +:+ dq +:+ col +:+ dq +:+ " IS NULL;")
    ("-- Replace NULLs in " +:+ col +:+ nl +:+ "UPDATE dataset_table" +:+ nl
     +:+ "SET " +:+ dq +:+ col +:+ dq +:+ " = 'UNKNOWN'" +:+ nl
     +:+ "WHERE " +:+ dq +:+ col +:+ dq +:+ " IS NULL;").

Definition duplicate_recommendation : Recommendation.t :=
  Recommendation.mk
    "Remove duplicate rows"
    ("Identify and remove duplicates based on a primary key or by exact-match. Example (Postgres):"
     +:+ nl +:+ nl +:+ "WITH dedup AS (" +:+ nl
     +:+ "  SELECT *, ROW_NUMBER() OVER (PARTITION BY *) AS rn" +:+ nl
     +:+ "  FROM dataset_table" +:+ nl +:+ ")" +:+ nl
     +:+ "DELETE FROM dataset_table" +:+ nl
     +:+ "WHERE ctid IN (SELECT ctid FROM dedup WHERE rn > 1);")
    ("-- Remove exact duplicate rows (example approach, adapt for your DB)" +:+ nl
     +:+ "DELETE FROM dataset_table a" +:+ nl +:+ "USING dataset_table b" +:+ nl
     +:+ "WHERE a.ctid < b.ctid" +:+ nl +:+ "  AND a.col1 = b.col1" +:+ nl
     +:+ "  AND a.col2 = b.col2;").

Definition format_recommendation (col : string) : Recommendation.t :=
  Recommendation.mk
    ("Standardize " +:+ col +:+ " formatting")
    ("Normalize values (remove currency symbols, trim whitespace, unify date formats). Example SQL to strip symbols and cast to numeric:"
     +:+ nl +:+ nl +:+ "UPDATE dataset_table" +:+ nl
     +:+ "SET " +:+ dq +:+ col +:+ dq +:+ " = REPLACE(REPLACE(" +:+ dq +:+ col +:+ dq
     +:+ ", '$', ''), ',', '')::numeric" +:+ nl
     +:+ "WHERE " +:+ dq +:+ col +:+ dq +:+ " IS NOT NULL;")
    ("-- Strip currency symbols and cast to numeric" +:+ nl +:+ "UPDATE dataset_table" +:+ nl
     +:+ "SET " +:+ dq +:+ col +:+ dq +:+ " = CAST(REGEXP_REPLACE(" +:+ dq +:+ col +:+ dq
     +:+ ", '[^0-9.-]', '', 'g') AS NUMERIC)" +:+ nl
     +:+ "WHERE " +:+ dq +:+ col +:+ dq +:+ " IS NOT NULL;").

Definition outlier_recommendation (col : string) : Recommendation.t :=
  Recommendation.mk
    ("Review outliers in " +:+ col)
    ("Inspect and decide to cap, remove, or keep outliers. Example SQL to find extreme values:"
     +:+ nl +:+ nl +:+ "SELECT * FROM dataset_table" +:+ nl
     +:+ "ORDER BY " +:+ dq +:+ col +:+ dq +:+ " DESC" +:+ nl +:+ "LIMIT 50;")
    ("-- Select potential outliers in " +:+ col +:+ nl +:+ "SELECT * FROM dataset_table" +:+ nl
     +:+ "WHERE " +:+ dq +:+ col +:+ dq +:+ " IS NOT NULL" +:+ nl
     +:+ "ORDER BY " +:+ dq +:+ col +:+ dq +:+ " DESC" +:+ nl +:+ "LIMIT 100;").

Definition general_cleanup : Recommendation.t :=
  Recommendation.mk
    "General cleanup"
    "Run a schema validation and normalize formats. Consider using a staging table to transform and validate before inserting into the production table."
    "-- Example: create staging table, load raw data, run transformations, then insert into final table".

(** The callback of [issues.forEach]: four [if]s in a row. *)
Definition recommend_step (recommendations : list Recommendation.t) (issue : Issue.t)
    : list Recommendation.t :=
  let recommendations :=
    if issue_type_eqb (Issue.type issue) Missing
    then recommendations ++ [missing_recommendation (column_text issue)]
    else recommendations in
  let recommendations :=
    if issue_type_eqb (Issue.type issue) Duplicate
    then recommendations ++ [duplicate_recommendation]
    else recommendations in
  let recommendations :=
    if issue_type_eqb (Issue.type issue) Inconsistent || issue_type_eqb (Issue.type issue) Format
    then recommendations ++ [format_recommendation (column_text issue)]
    else recommendations in
  if issue_type_eqb (Issue.type issue) OutlierIssue
  then recommendations ++ [outlier_recommendation (column_text issue)]
  else recommendations.

Definition generateRecommendations (issues : list Issue.t) : list Recommendation.t :=
  let recommendations := fold_left recommend_step issues [] in
  if (length recommendations =? 0)%nat then recommendations ++ [general_cleanup]
  else recommendations.

(** ** aiIntegration.js: the fallbacks *)

Inductive advice_type : Type := Positive | About (t : issue_type).

Module Advice.
Record t : Type := mk {
  title : string;
  description : string;
  priority : severity_level;
  type : option advice_type
}.
End Advice.

(** [issues.some(i => i.type === t)] *)
Definition some_of_type (t : issue_type) (issues : list Issue.t) : bool :=
  existsb (fun i => issue_type_eqb (Issue.type i) t) issues.

Definition getFallbackRecommendations (issues : list Issue.t) : list Advice.t :=
  let recommendations := [] in
  let recommendations :=
    if some_of_type Missing issues
    then recommendations
         ++ [Advice.mk "Handle Missing Values"
               "Consider imputation strategies or removal based on business requirements."
               SevHigh (Some (About Missing))]
    else recommendations in
  let recommendations :=
    if some_of_type Duplicate issues
    then recommendations
         ++ [Advice.mk "Remove Duplicate Records"
               "Identify unique identifiers and remove duplicate entries."
               SevHigh (Some (About Duplicate))]
    else recommendations in
  if some_of_type Inconsistent issues
  then recommendations
       ++ [Advice.mk "Standardize Data Types"
             "Ensure all values in each column conform to the expected data type."
             SevMedium (Some (About Inconsistent))]
  else recommendations.

(** The value the promise of getRecommendations resolves to. *)
Definition getRecommendations (issues : list Issue.t) : list Advice.t :=
  if (length issues =? 0)%nat then
    [Advice.mk "Excellent Data Quality"
       "Your dataset appears to be in good shape with no major issues detected."
       SevLow (Some Positive)]
  else getFallbackRecommendations issues.

Definition severity_eqb (a b : severity_level) : bool :=
  match a, b with
  | SevLow, SevLow | SevMedium, SevMedium | SevHigh, SevHigh => true
  | _, _ => false
  end.

Definition with_severity (s : severity_level) (issues : list Issue.t) : list Issue.t :=
  List.filter (fun i => severity_eqb (Issue.severity i) s) issues.

Module AnalysisContext.
Record t : Type := mk {
  totalIssues : nat;
  criticalIssues : nat;
  mediumIssues : nat;
  lowIssues : nat;
  dataSize : string
}.
End AnalysisContext.

(** The multiplication sign of the data size text, one code unit. *)
Definition times_sign : string := String (ascii_of_nat 215) EmptyString.

Definition buildAnalysisContext (dataAnalysis : QualityAnalysis.t) : AnalysisContext.t :=
  let issues := QualityAnalysis.issues dataAnalysis in
  AnalysisContext.mk
    (length issues)
    (length (with_severity SevHigh issues))
    (length (with_severity SevMedium issues))
    (length (with_severity SevLow issues))
    (Str.of_nat (Summary.totalRows (QualityAnalysis.summary dataAnalysis)) +:+ " rows "
     +:+ times_sign +:+ " "
     +:+ Str.of_nat (Summary.totalColumns (QualityAnalysis.summary dataAnalysis)) +:+ " columns").

Module CriticalIssue.
Record t : Type := mk { issue : string; impact : string; severity : severity_level }.
End CriticalIssue.

Module Readiness.
Record t : Type := mk { ready : bool; reason : string }.
End Readiness.

Module Insights.
Record t : Type := mk {
  summary : string;
  criticalIssues : list CriticalIssue.t;
  recommendations : list Advice.t;
  readiness : Readiness.t;
  generated : string;
  model : string;
  context : AnalysisContext.t
}.
End Insights.

(** [x >= y] on numbers; false as soon as one side is NaN. *)
Definition num_geb (x y : number) : bool :=
  match x, y with
  | NaN, _ | _, NaN => false
  | _, _ => negb (Num.ltb x y)
  end.

(** [getFallbackInsights]; [now] is what [new Date().toISOString()] gives
    at the time of the call. *)
Definition getFallbackInsights {host : Host} (now : string) (dataAnalysis : QualityAnalysis.t)
    : Insights.t :=
  let overallScore := QualityAnalysis.overallScore dataAnalysis in
  let issues := QualityAnalysis.issues dataAnalysis in
  Insights.mk
    ("This dataset has an overall quality score of " +:+ JS.toFixed 0 overallScore +:+ "/100. "
     +:+ (if num_geb overallScore (Fin 90) then "The data appears to be in excellent condition."
          else if num_geb overallScore (Fin 70)
          then "The data quality is acceptable but has some issues to address."
          else "The data quality needs significant improvement before analysis."))
    (map (fun issue =>
            CriticalIssue.mk (Issue.description issue)
              "This may affect the reliability of analysis results."
              (Issue.severity issue))
         (take 3 (with_severity SevHigh issues)))
    [ Advice.mk "Address Missing Values"
        "Review columns with high percentages of missing data and determine appropriate handling strategies."
        SevHigh None;
      Advice.mk "Remove Duplicates"
        "Identify and remove duplicate records to improve data uniqueness."
        SevMedium None;
      Advice.mk "Standardize Data Types"
        "Ensure consistent data types across all columns."
        SevMedium None ]
    (Readiness.mk
       (num_geb overallScore (Fin 70))
       (if num_geb overallScore (Fin 70)
        then "The data quality is sufficient for initial analysis."
        else "Significant data cleaning is recommended before proceeding with analysis."))
    now
    "fallback"
    (buildAnalysisContext dataAnalysis).

(** ** reportGenerator.js *)

Definition getScoreGrade (score : number) : string :=
  if num_geb score (Fin 90) then "Excellent"
  else if num_geb score (Fin 80) then "Good"
  else if num_geb score (Fin 70) then "Fair"
  else if num_geb score (Fin 60) then "Poor"
  else "Critical".

(** [qualityAnalysis.issues.some(i => i.column === header)] *)
Definition has_issues (issues : list Issue.t) (header : string) : bool :=
  existsb (fun i => match Issue.column i with
                    | Some c => String.eqb c header
                    | None => false
                    end) issues.

(** One round of the loop of generateCSVReport; reading a property of
    [columnStats[header]] or of its [missing] part is a TypeError when that
    is undefined. *)
Definition csv_line {host : Host} (qualityAnalysis : QualityAnalysis.t)
    (acc : option string) (header : string) : option string :=
  csv ← acc;
  stats ← Obj.get (QualityAnalysis.columnStats qualityAnalysis) header;
  missing ← ColumnStats.missing stats;
  let hasIssues := has_issues (QualityAnalysis.issues qualityAnalysis) header in
  Some (csv +:+ dq +:+ header +:+ dq +:+ ","
        +:+ dq +:+ dtype_name (TypeInfo.type (ColumnStats.type stats)) +:+ dq +:+ ","
        +:+ JS.toFixed 1 (TypeInfo.confidence (ColumnStats.type stats) * Fin 100)%num +:+ ","
        +:+ Str.of_nat (MissingColumn.count missing) +:+ ","
        +:+ JS.toFixed 1 (MissingColumn.percentage missing) +:+ ","
        +:+ Str.of_nat (ColumnStats.unique stats) +:+ ","
        +:+ JS.toFixed 1 (ColumnStats.uniquePercentage stats) +:+ ","
        +:+ (if hasIssues then "Yes" else "No") +:+ nl).

Definition csv_header : string :=
  "Column,Data Type,Confidence,Missing Count,Missing %,Unique Values,Unique %,Has Issues" +:+ nl.

Definition generateCSVReport {host : Host} (qualityAnalysis : QualityAnalysis.t)
    (parsedData : Dataset) : option string :=
  fold_left (csv_line qualityAnalysis) (headers parsedData) (Some csv_header).

(** ** db.js: the list of recent analyses

    The stored list is passed in and the new one returned; reading and
    writing the file are left to the caller. *)

Module RecentAnalysis.
Record t : Type := mk { fileName : string; score : number; analyzedAt : number }.
End RecentAnalysis.




(** ** Vocabulary for the neighbours *)

(** How often a header occurs among the headers. *)
Definition occurrences (h : string) (hs : list string) : nat :=
  length (List.filter (String.eqb h) hs).

(** The warning about duplicate column names is among the issues. *)
Definition warns_of_duplicates (v : Validation.t) : Prop :=
  exists i, In i (Validation.issues v)
            /\ ValidationIssue.type i = LevelWarning
            /\ String.prefix "Duplicate column names found: " (ValidationIssue.message i) = true.

(** What [headerCounts] holds under a key once the headers [hs] have been
    counted. *)
Definition counted_under (h : string) (hs : list string) : option header_count :=
  if (0 <? occurrences h hs)%nat then
    if inherited h then
      if String.eqb h "__proto__" then None else Some Text
    else Some (Counted (occurrences h hs))
  else None.

(** Two headers named as a property of Object.prototype, and two plain
    ones. *)
Definition inherited_twice : Dataset :=
  {| headers := ["constructor"; "constructor"]; rows := [] |}.
Definition plain_twice : Dataset :=
  {| headers := ["a"; "a"]; rows := [] |}.

(** One column whose only cell is a blank text. *)
Definition blank_text : Dataset :=
  {| headers := ["a"]; rows := [ [("a", VStr " ")] ] |}.

(** Two columns, b before a, each with a gap and with a text among
    numbers. *)
Definition two_gaps : Dataset := {|
  headers := ["b"; "a"];
  rows := [ [("b", VNull); ("a", num 1)];
            [("b", num 2); ("a", VNull)];
            [("b", VStr "x"); ("a", VStr "y")] ]
|}.

(** A text of white space only, then a numeral. *)
Definition blank_and_five : list value := [VStr " "; VStr "5"].
(** * Properties *)

(** ** The built-in operations on sample inputs *)

Example parseFloat_samples :
  map Num.show (map Str.parseFloat ["3.14"; "  -2e3x"; ".5"; "5."; "abc"; "-Infinityx"; "1e"; ""])
  = [Num.vFrac 157 50; Num.vFrac (-2000) 1; Num.vFrac 1 2; Num.vFrac 5 1;
     Num.vNaN; Num.vNegInf; Num.vFrac 1 1; Num.vNaN].
Proof. vm_compute. reflexivity. Qed.

Example toNumber_samples :
  map Num.show (map Str.toNumber ["3.14"; " 12 "; "12px"; ""; "  "; "0x1F"; "-0x1F"; "1e2"; "."; "$5"])
  = [Num.vFrac 157 50; Num.vFrac 12 1; Num.vNaN; Num.vFrac 0 1; Num.vFrac 0 1;
     Num.vFrac 31 1; Num.vNaN; Num.vFrac 100 1; Num.vNaN; Num.vNaN].
Proof. vm_compute. reflexivity. Qed.

Example of_Z_samples : map Str.of_Z [0; 7; 30; -120; 1005]%Z = ["0"; "7"; "30"; "-120"; "1005"].
Proof. vm_compute. reflexivity. Qed.

Example trim_samples : map Str.trim ["  a b  "; "   "; ""; "x"] = ["a b"; ""; ""; "x"].
Proof. vm_compute. reflexivity. Qed.

Example entries_order :
  Obj.keys (Obj.set (Obj.set (Obj.set (Obj.set [] "b" 0%nat) "10" 1%nat) "a" 2%nat) "9" 3%nat)
  = ["9"; "10"; "b"; "a"].
Proof. vm_compute. reflexivity. Qed.

Example array_index_samples :
  map Obj.array_index ["0"; "007"; "2020"; "4294967294"; "4294967295"; "1.5"; ""; "id"]
  = [Some 0%N; None; Some 2020%N; Some 4294967294%N; None; None; None; None].
Proof. vm_compute. reflexivity. Qed.

(** ** Arithmetic of the scores *)

Section Scores.
Context {host : Host}.

Lemma Qltb_true a b : Num.Qltb a b = true <-> a < b.
Proof.
  unfold Num.Qltb. rewrite negb_true_iff. split; intros H.
  - apply Qnot_le_lt. intros Hle. apply Qle_bool_iff in Hle. congruence.
  - destruct (Qle_bool b a) eqn:E; [|done]. apply Qle_bool_iff in E. lra.
Qed.

Lemma Qltb_false a b : Num.Qltb a b = false <-> b <= a.
Proof.
  unfold Num.Qltb. rewrite negb_false_iff. apply Qle_bool_iff.
Qed.

Lemma of_nat_pos_nonzero m : (0 < m)%nat -> Qeq_bool (inject_Z (Z.of_nat m)) 0 = false.
Proof.
  intros Hm. destruct (Qeq_bool _ _) eqn:E; [|done].
  apply Qeq_bool_eq in E. unfold Qeq in E. simpl in E. lia.
Qed.

Lemma of_nat_div n m :
  (0 < m)%nat ->
  (Num.of_nat n / Num.of_nat m)%num = Fin (inject_Z (Z.of_nat n) / inject_Z (Z.of_nat m)).
Proof.
  intros Hm. unfold Num.div, Num.of_nat. by rewrite of_nat_pos_nonzero.
Qed.

Lemma inject_nat_nonneg n : 0 <= inject_Z (Z.of_nat n).
Proof. unfold Qle. simpl. lia. Qed.

Lemma inject_nat_pos n : (0 < n)%nat -> 0 < inject_Z (Z.of_nat n).
Proof. intros. unfold Qlt. simpl. lia. Qed.

Lemma nat_ratio_nonneg n m : (0 < m)%nat -> 0 <= inject_Z (Z.of_nat n) / inject_Z (Z.of_nat m).
Proof.
  intros Hm. apply Qle_shift_div_l; [by apply inject_nat_pos|].
  pose proof (inject_nat_nonneg n). lra.
Qed.

Lemma nonneg_of_nat n : Num.nonneg (Num.of_nat n).
Proof. apply inject_nat_nonneg. Qed.

Lemma nonneg_ratio n m : (0 < m)%nat -> Num.nonneg (Num.of_nat n / Num.of_nat m)%num.
Proof. intros Hm. rewrite of_nat_div by done. by apply nat_ratio_nonneg. Qed.

Lemma nonneg_mul x y : Num.nonneg x -> Num.nonneg y -> Num.nonneg (x * y)%num.
Proof.
  destruct x as [| | |a], y as [| | |b]; simpl; try done.
  intros. by apply Qmult_le_0_compat.
Qed.

Lemma nonneg_add x y : Num.nonneg x -> Num.nonneg y -> Num.nonneg (x + y)%num.
Proof.
  destruct x as [| | |a], y as [| | |b]; simpl; try done. intros. lra.
Qed.

Lemma nonneg_percent n m k :
  (0 < m)%nat -> 0 <= k -> Num.nonneg (Num.of_nat n / Num.of_nat m * Fin k)%num.
Proof. intros. apply nonneg_mul; [by apply nonneg_ratio | done]. Qed.

Lemma max_zero_range z hi :
  z <= hi -> 0 <= hi -> Num.in_range 0 hi (Num.max (Fin 0) (Fin z)).
Proof.
  intros Hz Hhi. unfold Num.max, Num.ltb.
  destruct (Num.Qltb 0 z) eqn:E; simpl.
  - apply Qltb_true in E. lra.
  - lra.
Qed.

(** [Math.max(0, 100 - x - y)] for two penalties that are not negative. *)
Lemma clamp2_range x y :
  Num.nonneg x -> Num.nonneg y ->
  Num.in_range 0 100 (Num.max (Fin 0) (Fin 100 - x - y)%num).
Proof.
  destruct x as [| | |a], y as [| | |b]; simpl; try done.
  intros Ha Hb. apply max_zero_range; lra.
Qed.

Lemma clamp1_range x :
  Num.nonneg x -> Num.in_range 0 100 (Num.max (Fin 0) (Fin 100 - x)%num).
Proof.
  destruct x as [| | |a]; simpl; try done.
  intros Ha. apply max_zero_range; lra.
Qed.

Lemma overall_range c u v s p1 p2 :
  Num.in_range 0 100 c -> Num.in_range 0 100 u ->
  Num.in_range 0 100 v -> Num.in_range 0 100 s ->
  Num.nonneg p1 -> Num.nonneg p2 ->
  Num.in_range 0 100
    (Num.max (Fin 0)
       (c * Fin (40 # 100) + u * Fin (30 # 100) + v * Fin (20 # 100) + s * Fin (10 # 100)
        - p1 - p2)%num).
Proof.
  destruct c as [| | |c], u as [| | |u], v as [| | |v], s as [| | |s]; simpl; try done.
  destruct p1 as [| | |p1], p2 as [| | |p2]; simpl; try done.
  intros [] [] [] [] ? ?. apply max_zero_range; lra.
Qed.

Lemma cardinality_penalty_nonneg d acc header :
  Num.nonneg acc -> Num.nonneg (cardinality_penalty d acc header).
Proof.
  intros Hacc. unfold cardinality_penalty.
  destruct (0 <? _)%nat eqn:Hlen; [|done].
  apply Nat.ltb_lt in Hlen. rewrite of_nat_div by done.
  destruct (_ <? _)%num eqn:Hlt; [|done].
  simpl in Hlt. apply Qltb_true in Hlt.
  destruct acc as [| | |a]; simpl in *; try done. nra.
Qed.

Lemma uniqueness_penalty_nonneg d hs acc :
  Num.nonneg acc -> Num.nonneg (fold_left (cardinality_penalty d) hs acc).
Proof.
  revert acc. induction hs as [|h hs IH]; intros acc Hacc; simpl; [done|].
  apply IH. by apply cardinality_penalty_nonneg.
Qed.

Lemma completenessScore_range d :
  rows d <> [] -> headers d <> [] ->
  Num.in_range 0 100 (MissingReport.completenessScore (findMissingValues d)).
Proof.
  intros Hr Hh. unfold findMissingValues.
  destruct (forEach_indexed _ _ _ _) as [counted byRow].
  cbn [MissingReport.completenessScore].
  assert (0 < length (headers d))%nat by (destruct (headers d); simpl; [done | lia]).
  assert (0 < length (rows d))%nat by (destruct (rows d); simpl; [done | lia]).
  apply clamp2_range; apply nonneg_percent; try done; nia.
Qed.

Lemma uniquenessScore_range d :
  rows d <> [] ->
  Num.in_range 0 100 (DuplicateReport.uniquenessScore (findDuplicates d)).
Proof.
  intros Hr. unfold findDuplicates. cbn [DuplicateReport.uniquenessScore].
  assert (Hn : (0 < length (rows d))%nat) by (destruct (rows d); simpl; [done | lia]).
  pose proof (nonneg_percent (length (find_duplicate_rows d)) _ 100 Hn ltac:(done)) as Hp.
  pose proof (uniqueness_penalty_nonneg d (headers d) (Fin 0) ltac:(simpl; lra)) as Hq.
  destruct (_ / _ * _)%num as [| | |x]; simpl in Hp; try done.
  destruct (fold_left _ _ _) as [| | |y]; simpl in Hq; try done.
  simpl. apply max_zero_range; lra.
Qed.

End Scores.

(** ** Objects built key by key *)

Section Objects.
Context {A : Type}.
Implicit Types (o : jsobj A) (k : string) (v : A).

Lemma get_set o k k' v :
  Obj.get (Obj.set o k v) k' = if String.eqb k k' then Some v else Obj.get o k'.
Proof.
  induction o as [|[a x] o IH]; simpl; [done|].
  destruct (String.eqb_spec a k) as [->|Hak]; simpl.
  - by destruct (String.eqb_spec k k').
  - rewrite IH. destruct (String.eqb_spec a k') as [->|]; [|done].
    by destruct (String.eqb_spec k k').
Qed.

Lemma get_built_other (f : string -> A) (hs : list string) o h :
  ~ In h hs -> Obj.get (fold_left (fun o h => Obj.set o h (f h)) hs o) h = Obj.get o h.
Proof.
  revert o. induction hs as [|h0 hs IH]; intros o Hnin; simpl in *; [done|].
  rewrite IH by tauto. rewrite get_set.
  destruct (String.eqb_spec h0 h); [tauto | done].
Qed.

Lemma get_built (f : string -> A) (hs : list string) o h :
  In h hs -> Obj.get (fold_left (fun o h => Obj.set o h (f h)) hs o) h = Some (f h).
Proof.
  revert o. induction hs as [|h0 hs IH]; intros o Hin; simpl in *; [done|].
  destruct (in_dec string_dec h hs) as [Hin'|Hnin]; [by apply IH|].
  destruct Hin as [->|]; [|done].
  rewrite get_built_other by done. rewrite get_set. by rewrite String.eqb_refl.
Qed.

End Objects.

(** ** The engine returns *)

Section Totality.
Context {host : Host}.
Import JS.

Lemma toString_not_blank v : not_blank v = true -> is_Some (toString_method v).
Proof. destruct v; simpl; try done; eauto. Qed.

Lemma toString_truthy v : truthy v = true -> is_Some (toString_method v).
Proof. destruct v; simpl; try done; eauto. Qed.

Lemma Forall_filter_true {B} (p : B -> bool) (l : list B) :
  Forall (fun x => p x = true) (List.filter p l).
Proof. apply List.Forall_forall. intros x Hx. by apply filter_In in Hx as [_ ?]. Qed.

Lemma mapM_string_test_some (p : string -> bool) (g : value -> bool) (l : list value) :
  (forall v, g v = true -> is_Some (toString_method v)) ->
  is_Some (mapM (string_test p) (List.filter g l)).
Proof.
  intros Hg. apply mapM_is_Some_2.
  eapply Forall_impl; [apply Forall_filter_true|].
  intros v Hv. simpl. unfold string_test.
  destruct (Hg v Hv) as [s ->]. simpl. eauto.
Qed.

Lemma mapM_format_of_some (l : list value) :
  is_Some (mapM format_of (List.filter not_blank l)).
Proof.
  apply mapM_is_Some_2.
  eapply Forall_impl; [apply Forall_filter_true|].
  intros v Hv. simpl. unfold format_of.
  destruct (toString_not_blank v Hv) as [s ->]. simpl. eauto.
Qed.

Lemma mapM_guarded_test_some (p : string -> bool) (l : list value) :
  is_Some (mapM (guarded_test p) l).
Proof.
  apply mapM_is_Some_2, List.Forall_forall. intros v _. simpl. unfold guarded_test.
  destruct (truthy v) eqn:Hv; [|eauto].
  unfold string_test. destruct (toString_truthy v Hv) as [s ->]. simpl. eauto.
Qed.

Lemma validity_step_some d n e : is_Some (validity_step d (Some n) e).
Proof.
  unfold validity_step. simpl.
  destruct (_ =? _)%nat; [eauto|].
  destruct (is_type TString e.2); simpl; [|eauto].
  destruct (mapM_format_of_some (column d e.1)) as [fs ->]. simpl. eauto.
Qed.

Lemma format_inconsistency_step_some d n e :
  is_Some (format_inconsistency_step d (Some n) e).
Proof.
  unfold format_inconsistency_step. simpl.
  destruct (is_type TNumber e.2); [|eauto].
  destruct (mapM_string_test_some has_symbol truthy (column d e.1) toString_truthy) as [fs ->].
  simpl. eauto.
Qed.

Lemma format_issues_step_some d n e : is_Some (format_issues_step d (Some n) e).
Proof.
  unfold format_issues_step. simpl.
  destruct (is_type TNumber e.2); [|eauto].
  destruct (mapM_guarded_test_some formatted_open (column d e.1)) as [fs ->].
  simpl. eauto.
Qed.

Lemma format_issue_step_some d iss e : is_Some (format_issue_step d (Some iss) e).
Proof.
  unfold format_issue_step. simpl.
  destruct (is_type TNumber e.2); [|eauto].
  destruct (mapM_string_test_some formatted truthy (column d e.1) toString_truthy) as [fs ->].
  destruct (mapM_string_test_some unformatted truthy (column d e.1) toString_truthy) as [us ->].
  simpl. destruct (_ && _); eauto.
Qed.

Lemma fold_left_some {S E} (step : option S -> E -> option S) (l : list E) (s : S) :
  (forall s e, is_Some (step (Some s) e)) -> is_Some (fold_left step l (Some s)).
Proof.
  intros Hstep. revert s. induction l as [|e l IH]; intros s; simpl; [eauto|].
  destruct (Hstep s e) as [s' ->]. apply IH.
Qed.

Lemma missing_init_has hs h : In h hs -> is_Some (Obj.get (missing_init hs) h).
Proof.
  intros Hh. unfold missing_init.
  rewrite (get_built (fun _ => MissingColumn.mk 0 (Fin 0) [])) by done. eauto.
Qed.

Lemma dataTypes_get d h :
  In h (headers d) ->
  Obj.get (analyzeDataTypes d) h = Some (detectDataType (column d h)).
Proof. intros Hh. unfold analyzeDataTypes. by apply (get_built (fun h => detectDataType (column d h))). Qed.

Lemma column_stats_fold d mv dt (T : string -> TypeInfo.t) hs o :
  (forall h, In h hs -> Obj.get dt h = Some (T h)) ->
  fold_left (column_stats_step d mv dt) hs (Some o)
  = Some (fold_left (fun o h => Obj.set o h (column_stats_of d mv h (T h))) hs o).
Proof.
  revert o. induction hs as [|h hs IH]; intros o Hdt; simpl; [done|].
  unfold column_stats_step at 1. simpl. rewrite (Hdt h) by (by left). simpl.
  apply IH. intros h' Hh'. apply Hdt. by right.
Qed.

(** The column statistics are one entry per header, whatever the dataset. *)
Lemma build_column_stats_eq d mv :
  build_column_stats d mv (analyzeDataTypes d)
  = Some (fold_left (fun o h =>
                       Obj.set o h (column_stats_of d mv h (detectDataType (column d h))))
                    (headers d) []).
Proof. apply column_stats_fold. intros h Hh. by apply dataTypes_get. Qed.

Lemma generate_issues_some d mv dup dt cs : is_Some (generate_issues d mv dup dt cs).
Proof.
  unfold generate_issues.
  destruct (fold_left_some (format_issue_step d) (Obj.entries cs)
              (fold_left mixed_issue_step (Obj.entries dt)
                 (duplicate_issue_step
                    (fold_left missing_issue_step (Obj.entries (MissingReport.byColumn mv)) []) dup))
              (format_issue_step_some d)) as [iss ->].
  simpl. eauto.
Qed.

Lemma analyzeDataQuality_total d : is_Some (analyzeDataQuality d).
Proof.
  unfold analyzeDataQuality. rewrite build_column_stats_eq. simpl.
  match goal with |- context [Obj.entries ?c] => set (cs := c) end.
  destruct (fold_left_some (validity_step d) (Obj.entries cs) 0%nat (validity_step_some d)) as [vi ->].
  simpl.
  destruct (fold_left_some (format_inconsistency_step d) (Obj.entries cs) 0%nat
              (format_inconsistency_step_some d)) as [fi ->].
  simpl.
  destruct (fold_left_some (format_issues_step d) (Obj.entries cs) 0%nat
              (format_issues_step_some d)) as [fp ->].
  simpl.
  destruct (generate_issues_some d (findMissingValues d) (findDuplicates d)
              (analyzeDataTypes d) cs) as [iss ->].
  simpl. eauto.
Qed.

(** What a result is made of. *)
Lemma analyzeDataQuality_inv d r :
  analyzeDataQuality d = Some r ->
  exists cs vi fi fp iss,
    build_column_stats d (findMissingValues d) (analyzeDataTypes d) = Some cs
    /\ fold_left (validity_step d) (Obj.entries cs) (Some 0%nat) = Some vi
    /\ fold_left (format_inconsistency_step d) (Obj.entries cs) (Some 0%nat) = Some fi
    /\ fold_left (format_issues_step d) (Obj.entries cs) (Some 0%nat) = Some fp
    /\ generate_issues d (findMissingValues d) (findDuplicates d) (analyzeDataTypes d) cs = Some iss
    /\ QualityAnalysis.missingValues r = findMissingValues d
    /\ QualityAnalysis.duplicates r = findDuplicates d
    /\ QualityAnalysis.dataTypes r = analyzeDataTypes d
    /\ QualityAnalysis.columnStats r = cs
    /\ QualityAnalysis.issues r = iss
    /\ Scores.completeness (QualityAnalysis.scores r)
       = MissingReport.completenessScore (findMissingValues d)
    /\ Scores.uniqueness (QualityAnalysis.scores r)
       = DuplicateReport.uniquenessScore (findDuplicates d)
    /\ Scores.validity (QualityAnalysis.scores r)
       = Num.max (Fin 0) (Fin 100 - Num.of_nat vi)%num
    /\ Scores.consistency (QualityAnalysis.scores r)
       = Num.max (Fin 0)
           (Fin 100
            - Num.of_nat (length (List.filter (fun t => flag (TypeInfo.mixedTypes t))
                                              (Obj.values (analyzeDataTypes d))))
              / Num.of_nat (length (headers d)) * Fin 100
            - Num.of_nat fi)%num
    /\ QualityAnalysis.overallScore r
       = Num.max (Fin 0)
           (Scores.completeness (QualityAnalysis.scores r) * Fin (40 # 100)
            + Scores.uniqueness (QualityAnalysis.scores r) * Fin (30 # 100)
            + Scores.validity (QualityAnalysis.scores r) * Fin (20 # 100)
            + Scores.consistency (QualityAnalysis.scores r) * Fin (10 # 100)
            - Num.of_nat
                (length (List.filter (fun m => (0 <? MissingColumn.count m)%nat)
                           (Obj.values (MissingReport.byColumn (findMissingValues d)))))
              / Num.of_nat (length (headers d)) * Fin 20
            - Num.of_nat fp)%num.
Proof.
  unfold analyzeDataQuality. intros H.
  destruct (build_column_stats _ _ _) as [cs|] eqn:E1; simpl in H; [|done].
  destruct (fold_left (validity_step d) _ _) as [vi|] eqn:E2; simpl in H; [|done].
  destruct (fold_left (format_inconsistency_step d) _ _) as [fi|] eqn:E3; simpl in H; [|done].
  destruct (fold_left (format_issues_step d) _ _) as [fp|] eqn:E4; simpl in H; [|done].
  destruct (generate_issues _ _ _ _ _) as [iss|] eqn:E5; simpl in H; [|done].
  injection H as <-. exists cs, vi, fi, fp, iss. repeat split; done.
Qed.

(** Away from the empty dataset every score is a number between 0 and 100. *)
Lemma scores_in_range_of_result d r :
  rows d <> [] -> headers d <> [] ->
  analyzeDataQuality d = Some r -> scores_in_range r.
Proof.
  intros Hr Hh Hres.
  destruct (analyzeDataQuality_inv d r Hres)
    as (cs & vi & fi & fp & iss & _ & _ & _ & _ & _ & _ & _ & _ & _ & _ & Hc & Hu & Hv & Hs & Ho).
  assert (Hn : (0 < length (headers d))%nat) by (destruct (headers d); simpl; [done | lia]).
  assert (Rc : Num.in_range 0 100 (Scores.completeness (QualityAnalysis.scores r)))
    by (rewrite Hc; by apply completenessScore_range).
  assert (Ru : Num.in_range 0 100 (Scores.uniqueness (QualityAnalysis.scores r)))
    by (rewrite Hu; by apply uniquenessScore_range).
  assert (Rv : Num.in_range 0 100 (Scores.validity (QualityAnalysis.scores r)))
    by (rewrite Hv; apply clamp1_range, nonneg_of_nat).
  assert (Rs : Num.in_range 0 100 (Scores.consistency (QualityAnalysis.scores r))).
  { rewrite Hs. apply clamp2_range; [|apply nonneg_of_nat].
    apply nonneg_percent; done. }
  unfold scores_in_range. repeat split_and; try done.
  rewrite Ho. apply overall_range; try done; [|apply nonneg_of_nat].
  by apply nonneg_percent.
Qed.

End Totality.

(** ** Percentages *)

Section Percentages.
Context {host : Host}.

Lemma fold_left_invariant {S E} (Inv : S -> Prop) (f : S -> E -> S) (l : list E) (s : S) :
  (forall s e, Inv s -> Inv (f s e)) -> Inv s -> Inv (fold_left f l s).
Proof.
  intros Hf. revert s. induction l as [|e l IH]; intros s Hs; simpl; [done|].
  apply IH, Hf, Hs.
Qed.

Lemma forEach_indexed_invariant {S E} (Inv : S -> Prop) (f : S -> E -> nat -> S)
    (l : list E) (i : nat) (s : S) :
  (forall s e i, Inv s -> Inv (f s e i)) -> Inv s -> Inv (forEach_indexed f l i s).
Proof.
  intros Hf. revert i s. induction l as [|e l IH]; intros i s Hs; simpl; [done|].
  apply IH, Hf, Hs.
Qed.

Lemma Forall_set {A} (P : A -> Prop) (o : jsobj A) k v :
  Forall (fun kv => P kv.2) o -> P v -> Forall (fun kv => P kv.2) (Obj.set o k v).
Proof.
  intros Ho Hv. induction Ho as [|[a x] o Hx Ho IH]; simpl.
  - by constructor.
  - destruct (String.eqb a k); constructor; done.
Qed.

Lemma Forall_alter {A} (P : A -> Prop) (f : A -> A) (o : jsobj A) k :
  (forall v, P v -> P (f v)) ->
  Forall (fun kv => P kv.2) o -> Forall (fun kv => P kv.2) (Obj.alter f k o).
Proof.
  intros Hf Ho. induction Ho as [|[a x] o Hx Ho IH]; simpl; [done|].
  destruct (String.eqb a k); constructor; simpl in *; auto.
Qed.

Lemma Forall_get {A} (P : A -> Prop) (o : jsobj A) k v :
  Forall (fun kv => P kv.2) o -> Obj.get o k = Some v -> P v.
Proof.
  intros Ho. induction Ho as [|[a x] o Hx Ho IH]; simpl; [done|].
  destruct (String.eqb a k); [|done]. by intros [= <-].
Qed.

Lemma nonneg_finite x : Num.nonneg x -> finite x.
Proof. by destruct x. Qed.

Lemma percent_finite n m k :
  (0 < m)%nat -> finite (Num.of_nat n / Num.of_nat m * Fin k)%num.
Proof. intros Hm. rewrite of_nat_div by done. done. Qed.

Lemma nonempty_length {A} (l : list A) : l <> [] -> (0 < length l)%nat.
Proof. destruct l; simpl; [done | lia]. Qed.

Lemma missing_cells_invariant (P : MissingColumn.t -> Prop) r i hs st :
  (forall c, P c -> P (record_missing i c)) ->
  Forall (fun kv => P kv.2) st.1 ->
  Forall (fun kv => P kv.2) (fold_left (missing_cell r i) hs st).1.
Proof.
  intros Hrec. apply (fold_left_invariant (fun st => Forall (fun kv => P kv.2) st.1)).
  intros [o n] h Ho. unfold missing_cell. destruct (isMissing _); [|done].
  simpl in *. by apply (Forall_alter P).
Qed.

Lemma missing_percentages_finite d :
  rows d <> [] -> headers d <> [] ->
  let mv := findMissingValues d in
  finite (MissingReport.percentage mv)
  /\ Forall (fun kv => finite (MissingColumn.percentage kv.2)) (MissingReport.byColumn mv)
  /\ Forall (fun m => finite (MissingRow.percentage m)) (MissingReport.byRow mv).
Proof.
  intros Hr Hh. apply nonempty_length in Hr, Hh. unfold findMissingValues.
  pose proof (forEach_indexed_invariant
    (fun st : jsobj MissingColumn.t * list MissingRow.t =>
       Forall (fun kv => finite (MissingColumn.percentage kv.2)) st.1
       /\ Forall (fun m => finite (MissingRow.percentage m)) st.2)
    (missing_row (headers d)) (rows d) 0%nat (missing_init (headers d), [])) as Hinv.
  destruct (forEach_indexed _ _ _ _) as [counted byRow]. simpl in Hinv.
  destruct Hinv as [Hcols Hrows].
  - intros [o l] r i [Ho Hl]. unfold missing_row. simpl.
    pose proof (missing_cells_invariant (fun c => finite (MissingColumn.percentage c))
                  r i (headers d) (o, 0%nat) ltac:(done) Ho) as Hcells.
    destruct (fold_left _ _ _) as [o' n]. simpl in Hcells.
    destruct (0 <? n)%nat; simpl; split; try done.
    apply Forall_app. split; [done|]. constructor; [|done]. by apply percent_finite.
  - split; [|done]. unfold missing_init.
    apply (fold_left_invariant (fun o : jsobj MissingColumn.t =>
             Forall (fun kv => finite (MissingColumn.percentage kv.2)) o)); [|done].
    intros o h Ho. by apply (Forall_set (fun c => finite (MissingColumn.percentage c))).
  - cbn [MissingReport.percentage MissingReport.byColumn MissingReport.byRow].
    split_and!; [apply percent_finite; nia | | done].
    apply (fold_left_invariant (fun o : jsobj MissingColumn.t =>
             Forall (fun kv => finite (MissingColumn.percentage kv.2)) o)); [|done].
    intros o h Ho. apply (Forall_alter (fun c => finite (MissingColumn.percentage c))); [|done].
    intros c _. by apply percent_finite.
Qed.

Lemma length_column d h : length (column d h) = length (rows d).
Proof. unfold column. apply length_map. Qed.

Lemma detectOutliers_percentage_finite values :
  values <> [] -> finite (OutlierReport.percentage (detectOutliers values)).
Proof.
  intros Hv. apply nonempty_length in Hv. unfold detectOutliers.
  destruct (calculateStatistics values); [|done].
  by apply percent_finite.
Qed.

Lemma column_stats_percentages d h ti :
  rows d <> [] -> headers d <> [] ->
  let cs := column_stats_of d (findMissingValues d) h ti in
  finite (ColumnStats.uniquePercentage cs)
  /\ (forall c, ColumnStats.missing cs = Some c -> finite (MissingColumn.percentage c))
  /\ (forall o, ColumnStats.outliers cs = Some o -> finite (OutlierReport.percentage o)).
Proof.
  intros Hr Hh cs.
  assert (Hlen : (0 < length (column d h))%nat)
    by (rewrite length_column; by apply nonempty_length).
  assert (Hcol : column d h <> []) by (intros E; rewrite E in Hlen; simpl in Hlen; lia).
  destruct (missing_percentages_finite d Hr Hh) as (_ & Hcols & _).
  subst cs. unfold column_stats_of.
  destruct (TypeInfo.type ti); simpl; split_and!;
    try (by apply percent_finite); try done;
    try (intros c Hc; by apply (Forall_get (fun c => finite (MissingColumn.percentage c)) _ _ _ Hcols Hc)).
  intros o [= <-]. by apply detectOutliers_percentage_finite.
Qed.

Lemma percentages_defined_of_result d r :
  rows d <> [] -> headers d <> [] ->
  analyzeDataQuality d = Some r -> percentages_defined r.
Proof.
  intros Hr Hh Hres.
  destruct (analyzeDataQuality_inv d r Hres)
    as (cs & vi & fi & fp & iss & Hcs & _ & _ & _ & _ & Hmv & Hdup & _ & Hcols & _).
  destruct (missing_percentages_finite d Hr Hh) as (Hp & Hbc & Hbr).
  unfold percentages_defined. rewrite Hmv, Hdup, Hcols. split_and!; try done.
  - unfold findDuplicates. simpl. apply percent_finite. by apply nonempty_length.
  - rewrite build_column_stats_eq in Hcs. injection Hcs as <-.
    apply (fold_left_invariant (fun o : jsobj ColumnStats.t =>
      Forall (fun kv =>
        finite (ColumnStats.uniquePercentage kv.2)
        /\ (forall c, ColumnStats.missing kv.2 = Some c -> finite (MissingColumn.percentage c))
        /\ (forall o, ColumnStats.outliers kv.2 = Some o -> finite (OutlierReport.percentage o))) o));
      [|done].
    intros o h Ho.
    apply (Forall_set (fun v =>
        finite (ColumnStats.uniquePercentage v)
        /\ (forall c, ColumnStats.missing v = Some c -> finite (MissingColumn.percentage c))
        /\ (forall o, ColumnStats.outliers v = Some o -> finite (OutlierReport.percentage o))));
      [done|].
    by apply column_stats_percentages.
Qed.

End Percentages.

(** ** Outlier entries *)

Section Outliers.
Context {host : Host}.

(** An entry is pushed for the value at position [k] exactly when its
    numeric reading is not NaN and lies strictly outside the bounds. *)
Lemma outlier_loop lo hi values i0 acc o :
  In o (forEach_indexed (outlier_step lo hi) values i0 acc) <->
  In o acc
  \/ exists k v,
       values !! k = Some v
       /\ Outlier.index o = (i0 + k)%nat
       /\ Outlier.value o = to_numeric v
       /\ Num.isNaN (to_numeric v) = false
       /\ ((to_numeric v <? lo)%num || (to_numeric v >? hi)%num) = true
       /\ Outlier.type o = if (to_numeric v <? lo)%num then Low else High.
Proof.
  revert i0 acc. induction values as [|v values IH]; intros i0 acc; simpl.
  - split; [tauto|]. intros [?|(k & v & Hk & _)]; [done|]. by destruct k.
  - rewrite IH. unfold outlier_step.
    destruct (negb (Num.isNaN (to_numeric v)) && _) eqn:Hflag.
    + apply andb_true_iff in Hflag as [Hnan Hout]. apply negb_true_iff in Hnan.
      rewrite in_app_iff. simpl. split.
      * intros [[?|[<-|[]]]|(k & w & Hk & Hi & Hrest)].
        -- by left.
        -- right. exists 0%nat, v. simpl. rewrite Nat.add_0_r. done.
        -- right. exists (S k), w. simpl. split; [done|]. split; [lia | done].
      * intros [?|(k & w & Hk & Hi & Hv & Hn & Ho & Ht)]; [tauto|].
        destruct k as [|k]; simpl in Hk.
        -- injection Hk as <-. left. right. left.
           destruct o as [oi ov ot]. simpl in *. rewrite Nat.add_0_r in Hi. by subst.
        -- right. exists k, w. split; [done|]. split; [lia | done].
    + split.
      * intros [?|(k & w & Hk & Hi & Hrest)]; [by left|].
        right. exists (S k), w. simpl. split; [done|]. split; [lia | done].
      * intros [?|(k & w & Hk & Hi & Hv & Hn & Ho & Ht)]; [by left|].
        destruct k as [|k]; simpl in Hk.
        -- injection Hk as <-. rewrite Hn, Ho in Hflag. done.
        -- right. exists k, w. split; [done|]. split; [lia | done].
Qed.

Lemma detectOutliers_entry values o :
  In o (OutlierReport.outliers (detectOutliers values)) ->
  exists v lo hi,
    values !! Outlier.index o = Some v
    /\ Outlier.value o = to_numeric v
    /\ Num.isNaN (to_numeric v) = false
    /\ OutlierReport.lowerBound (detectOutliers values) = Some lo
    /\ OutlierReport.upperBound (detectOutliers values) = Some hi
    /\ ((to_numeric v <? lo)%num || (to_numeric v >? hi)%num) = true
    /\ Outlier.type o = if (to_numeric v <? lo)%num then Low else High.
Proof.
  unfold detectOutliers. destruct (calculateStatistics values) as [stats|]; [|done].
  cbn [OutlierReport.outliers OutlierReport.lowerBound OutlierReport.upperBound].
  intros Ho. apply outlier_loop in Ho as [[]|(k & v & Hk & Hi & Hv & Hn & Hout & Ht)].
  simpl in Hi. subst k. eauto 10.
Qed.

End Outliers.

(** ** The dominant type *)

Section DominantType.
Context {host : Host}.
Import JS.

Lemma classify_not_empty v : classify v <> TEmpty.
Proof. unfold classify. repeat case_match; done. Qed.

Lemma tally_counts l t :
  let t' := fold_left tally_step l t in
  numberCount t' = (numberCount t + count_type TNumber l)%nat
  /\ stringCount t' = (stringCount t + count_type TString l)%nat
  /\ booleanCount t' = (booleanCount t + count_type TBoolean l)%nat
  /\ dateCount t' = (dateCount t + count_type TDate l)%nat.
Proof.
  revert t. induction l as [|v l IH]; intros t; simpl.
  - unfold count_type. simpl. lia.
  - specialize (IH (tally_step t v)). simpl in IH.
    destruct IH as (Hn & Hs & Hb & Hd). rewrite Hn, Hs, Hb, Hd.
    unfold tally_step, count_type. simpl.
    pose proof (classify_not_empty v).
    destruct (classify v); simpl; try done; lia.
Qed.

Lemma count_type_empty l : count_type TEmpty l = 0%nat.
Proof.
  unfold count_type. induction l as [|v l IH]; simpl; [done|].
  pose proof (classify_not_empty v). by rewrite bool_decide_eq_false_2.
Qed.

Lemma dominant_type_spec values :
  List.filter not_blank values <> [] ->
  let nonNull := List.filter not_blank values in
  let info := detectDataType values in
  In (TypeInfo.type info) type_order
  /\ (forall ty, (count_type ty nonNull <= count_type (TypeInfo.type info) nonNull)%nat)
  /\ (forall ty, (rank ty < rank (TypeInfo.type info))%nat ->
                 (count_type ty nonNull < count_type (TypeInfo.type info) nonNull)%nat)
  /\ TypeInfo.confidence info
     = (Num.of_nat (count_type (TypeInfo.type info) nonNull) / Num.of_nat (length nonNull))%num.
Proof.
  intros Hne nonNull info. subst info. unfold detectDataType. fold nonNull.
  destruct (length nonNull =? 0)%nat eqn:Hlen.
  { apply Nat.eqb_eq, length_zero_iff_nil in Hlen. by destruct Hne. }
  cbn [TypeInfo.type TypeInfo.confidence].
  destruct (tally_counts nonNull
              {| numberCount := 0; stringCount := 0; booleanCount := 0; dateCount := 0 |})
    as (Hn & Hs & Hb & Hd).
  simpl in Hn, Hs, Hb, Hd.
  unfold type_entries, reduce1. simpl. rewrite Hn, Hs, Hb, Hd.
  pose proof (count_type_empty nonNull) as He.
  unfold pick. cbn [fold_left te_count te_type te_confidence].
  repeat (match goal with
          | |- context [(count_type ?x nonNull <? count_type ?y nonNull)%nat] =>
              destruct (Nat.ltb_spec (count_type x nonNull) (count_type y nonNull));
              cbn [te_count te_type te_confidence]
          end);
    (split_and!; [simpl; tauto | intros []; lia | intros []; simpl; lia | reflexivity]).
Qed.

End DominantType.

(** ** Sorting *)

Section StableSort.
Context {A : Type} (after : A -> A -> bool) (R : A -> A -> Prop) (P : A -> Prop).
Hypothesis after_true : forall x y, P x -> P y -> after x y = true -> R y x.
Hypothesis after_false : forall x y, P x -> P y -> after x y = false -> R x y.
Hypothesis R_trans : forall x y z, P x -> P y -> P z -> R x y -> R y z -> R x z.

Lemma insert_by_perm x l : Permutation (JS.insert_by after x l) (x :: l).
Proof.
  induction l as [|y l IH]; simpl; [done|].
  destruct (after x y); [|done].
  rewrite IH. apply perm_swap.
Qed.

Lemma stable_sort_perm l : Permutation (JS.stable_sort after l) l.
Proof.
  induction l as [|x l IH]; simpl; [done|].
  rewrite insert_by_perm. by constructor.
Qed.

Lemma insert_by_sorted x l :
  P x -> Forall P l -> StronglySorted R l -> StronglySorted R (JS.insert_by after x l).
Proof.
  intros Hx Hl Hs. induction Hs as [|y l Hs IH Hy]; simpl.
  - repeat constructor.
  - apply Forall_cons_1 in Hl as [Py Pl].
    destruct (after x y) eqn:E.
    + constructor; [by apply IH|].
      rewrite insert_by_perm. constructor; [by apply after_true | done].
    + pose proof (after_false x y Hx Py E) as Hxy.
      constructor; [by constructor|].
      constructor; [done|].
      rewrite List.Forall_forall in Hy, Pl. apply List.Forall_forall.
      intros z Hz. apply (R_trans x y z); auto.
Qed.

Lemma stable_sort_sorted l : Forall P l -> StronglySorted R (JS.stable_sort after l).
Proof.
  induction 1 as [|x l Hx Hl IH]; simpl; [constructor|].
  apply insert_by_sorted; [done| |done].
  by rewrite stable_sort_perm.
Qed.

End StableSort.

Section NumericSort.

Lemma sub_positive x y :
  not_NaN x -> not_NaN y -> ((x - y) >? Fin 0)%num = (y <? x)%num.
Proof.
  unfold not_NaN. destruct x as [| | |a], y as [| | |b]; simpl; try done.
  intros _ _. unfold Num.gtb. simpl.
  destruct (Num.Qltb b a) eqn:E.
  - apply Qltb_true in E. apply Qltb_true. lra.
  - apply Qltb_false in E. apply Qltb_false. lra.
Qed.

Lemma num_lt_le x y : (x <? y)%num = true -> num_le x y.
Proof.
  unfold num_le. destruct x as [| | |a], y as [| | |b]; simpl; try done.
  intros E. apply Qltb_true in E. apply Qltb_false. lra.
Qed.

Lemma num_le_trans x y z :
  not_NaN x -> not_NaN y -> not_NaN z -> num_le x y -> num_le y z -> num_le x z.
Proof.
  unfold num_le, not_NaN. destruct x as [| | |a], y as [| | |b], z as [| | |c]; simpl; try done.
  intros _ _ _ H1 H2. apply Qltb_false in H1, H2. apply Qltb_false. lra.
Qed.

Lemma insert_by_ext {A} (f g : A -> A -> bool) (x : A) (l : list A) :
  Forall (fun y => f x y = g x y) l -> JS.insert_by f x l = JS.insert_by g x l.
Proof.
  induction 1 as [|y l Hy Hl IH]; simpl; [done|]. by rewrite Hy, IH.
Qed.

Lemma stable_sort_cons {A} (f : A -> A -> bool) (x : A) (l : list A) :
  JS.stable_sort f (x :: l) = JS.insert_by f x (JS.stable_sort f l).
Proof. reflexivity. Qed.

Lemma sort_with_sub_alt l :
  Forall not_NaN l ->
  JS.sort_with (fun a b => (a - b)%num) l = JS.stable_sort (fun x y => (y <? x)%num) l.
Proof.
  unfold JS.sort_with. induction 1 as [|x l Hx Hl IH]; [done|].
  rewrite !stable_sort_cons, IH. apply insert_by_ext.
  assert (Hs : Forall not_NaN (JS.stable_sort (fun x y => (y <? x)%num) l))
    by (by rewrite stable_sort_perm).
  eapply Forall_impl; [exact Hs|]. intros y Hy. simpl. by apply sub_positive.
Qed.

Lemma sort_with_sub_sorted l :
  Forall not_NaN l -> StronglySorted num_le (JS.sort_with (fun a b => (a - b)%num) l).
Proof.
  intros Hl. rewrite sort_with_sub_alt by done.
  apply (stable_sort_sorted _ num_le not_NaN); [| |apply num_le_trans|done].
  - intros x y _ _. apply num_lt_le.
  - by intros x y _ _.
Qed.

Lemma sort_with_perm {A} (cmp : A -> A -> number) (l : list A) :
  Permutation (JS.sort_with cmp l) l.
Proof. apply stable_sort_perm. Qed.

Lemma floor_index_lt N p : (0 < N)%nat -> 0 <= p -> p < 1 -> (floor_index N p < N)%nat.
Proof.
  intros HN Hp0 Hp1. unfold floor_index.
  set (x := inject_Z (Z.of_nat N) * p).
  pose proof (inject_nat_pos N HN) as Hpos.
  assert (Hlo : (0 <= Qfloor x)%Z).
  { change 0%Z with (Qfloor 0). apply Qfloor_resp_le. subst x. nra. }
  assert (Hhi : (Qfloor x < Z.of_nat N)%Z).
  { rewrite Zlt_Qlt. apply Qle_lt_trans with x; [apply Qfloor_le|]. subst x. nra. }
  lia.
Qed.

Lemma at_index_floor (l : list number) N p :
  0 <= p ->
  at_index l (Num.floor (Num.of_nat N * Fin p)%num) = nth (floor_index N p) l NaN.
Proof.
  intros Hp. unfold Num.of_nat, Num.mul, Num.floor, at_index, floor_index.
  set (x := inject_Z (Z.of_nat N) * p).
  rewrite Qfloor_Z.
  assert (Hlo : (0 <= Qfloor x)%Z).
  { change 0%Z with (Qfloor 0). apply Qfloor_resp_le. subst x.
    pose proof (inject_nat_nonneg N). nra. }
  assert (E1 : Qeq_bool (inject_Z (Qfloor x)) (inject_Z (Qfloor x)) = true)
    by (apply Qeq_bool_iff; reflexivity).
  assert (E2 : Qle_bool 0 (inject_Z (Qfloor x)) = true).
  { apply Qle_bool_iff. change 0 with (inject_Z 0). by rewrite <- Zle_Qle. }
  by rewrite E1, E2.
Qed.

End NumericSort.

(** ** Quartiles and outlier bounds *)

Section Quartiles.
Context {host : Host}.

Lemma numeric_values_not_NaN values : Forall not_NaN (numeric_values values).
Proof.
  unfold numeric_values. apply List.Forall_forall. intros x Hx.
  apply filter_In in Hx as [_ Hx]. by apply negb_true_iff in Hx.
Qed.

Lemma lookup_nth_default (l : list number) i :
  (i < length l)%nat -> l !! i = Some (nth i l NaN).
Proof.
  intros Hi. destruct (lookup_lt_is_Some_2 l i Hi) as [x Hx].
  by rewrite (nth_lookup_Some l i NaN x Hx).
Qed.

(** The quartiles are the elements at positions [floor(N * 0.25)],
    [floor(N * 0.5)] and [floor(N * 0.75)] of the ascending arrangement. *)
Lemma calculateStatistics_quartiles values :
  numeric_values values <> [] ->
  exists stats sorted,
    calculateStatistics values = Some stats
    /\ Permutation sorted (numeric_values values)
    /\ StronglySorted num_le sorted
    /\ sorted !! floor_index (length sorted) (1 # 4) = Some (Statistics.q1 stats)
    /\ sorted !! floor_index (length sorted) (1 # 2) = Some (Statistics.q2 stats)
    /\ sorted !! floor_index (length sorted) (3 # 4) = Some (Statistics.q3 stats).
Proof.
  intros Hne. unfold calculateStatistics.
  destruct (length (numeric_values values) =? 0)%nat eqn:Hlen.
  { apply Nat.eqb_eq, length_zero_iff_nil in Hlen. done. }
  set (sorted := JS.sort_with (fun a b => (a - b)%num) (numeric_values values)).
  eexists _, sorted. split; [reflexivity|].
  cbn [Statistics.q1 Statistics.q2 Statistics.q3].
  assert (Hperm : Permutation sorted (numeric_values values)) by apply sort_with_perm.
  assert (HN : (0 < length sorted)%nat).
  { rewrite (Permutation_length Hperm). by apply nonempty_length. }
  split_and!; [done | apply sort_with_sub_sorted, numeric_values_not_NaN | | | ].
  all: rewrite at_index_floor by done; apply lookup_nth_default, floor_index_lt; done.
Qed.

Lemma StronglySorted_lookup {A} (R : A -> A -> Prop) (l : list A) i j x y :
  StronglySorted R l -> (i < j)%nat -> l !! i = Some x -> l !! j = Some y -> R x y.
Proof.
  intros Hs. revert i j. induction Hs as [|z l Hs IH Hz]; intros i j Hij Hi Hj; [done|].
  destruct j as [|j]; [lia|]. simpl in Hj.
  destruct i as [|i]; simpl in Hi.
  - injection Hi as <-. rewrite List.Forall_forall in Hz. apply Hz.
    apply list_elem_of_In. by eapply list_elem_of_lookup_2.
  - apply (IH i j); [lia | done | done].
Qed.

Lemma num_le_refl x : not_NaN x -> num_le x x.
Proof.
  unfold num_le, not_NaN. destruct x as [| | |a]; simpl; try done.
  intros _. apply Qltb_false. lra.
Qed.

Lemma floor_index_mono N p q : p <= q -> 0 <= p -> (floor_index N p <= floor_index N q)%nat.
Proof.
  intros Hpq Hp. unfold floor_index. apply Z2Nat.inj_le.
  - change 0%Z with (Qfloor 0). apply Qfloor_resp_le.
    pose proof (inject_nat_nonneg N). nra.
  - change 0%Z with (Qfloor 0). apply Qfloor_resp_le.
    pose proof (inject_nat_nonneg N). nra.
  - apply Qfloor_resp_le. pose proof (inject_nat_nonneg N). nra.
Qed.

Lemma quartiles_ordered values stats :
  calculateStatistics values = Some stats ->
  not_NaN (Statistics.q1 stats) /\ not_NaN (Statistics.q3 stats)
  /\ num_le (Statistics.q1 stats) (Statistics.q3 stats).
Proof.
  intros Hstats.
  assert (Hne : numeric_values values <> []).
  { intros E. unfold calculateStatistics in Hstats. by rewrite E in Hstats. }
  destruct (calculateStatistics_quartiles values Hne)
    as (stats' & sorted & Hs' & Hperm & Hsorted & H1 & _ & H3).
  rewrite Hstats in Hs'. injection Hs' as <-.
  assert (Hnn : Forall not_NaN sorted).
  { rewrite Hperm. apply numeric_values_not_NaN. }
  rewrite List.Forall_forall in Hnn.
  assert (N1 : not_NaN (Statistics.q1 stats)).
  { apply Hnn, list_elem_of_In. by eapply list_elem_of_lookup_2. }
  assert (N3 : not_NaN (Statistics.q3 stats)).
  { apply Hnn, list_elem_of_In. by eapply list_elem_of_lookup_2. }
  split_and!; try done.
  pose proof (floor_index_mono (length sorted) (1 # 4) (3 # 4) ltac:(done) ltac:(done)) as Hle.
  destruct (decide (floor_index (length sorted) (1 # 4) = floor_index (length sorted) (3 # 4)))
    as [E|E].
  - rewrite E, H3 in H1. injection H1 as <-. by apply num_le_refl.
  - eapply (StronglySorted_lookup num_le sorted); [done| |done|done]. lia.
Qed.

(** A value equal to one of the bounds [q1 - 1.5 IQR], [q3 + 1.5 IQR] is
    not strictly outside them. *)
Lemma bounds_exclusive q1 q3 x :
  not_NaN q1 -> not_NaN q3 -> num_le q1 q3 ->
  let iqr := (q3 - q1)%num in
  let lo := (q1 - Fin (3 # 2) * iqr)%num in
  let hi := (q3 + Fin (3 # 2) * iqr)%num in
  Num.eqb x lo || Num.eqb x hi = true ->
  (x <? lo)%num || (x >? hi)%num = false.
Proof.
  unfold not_NaN, num_le.
  destruct q1 as [| | |a], q3 as [| | |b]; try done;
    destruct x as [| | |c]; simpl; try done.
  intros _ _ Hab H. apply Qltb_false in Hab.
  unfold Num.gtb. simpl.
  apply orb_true_iff in H. apply orb_false_iff.
  split; apply Qltb_false; destruct H as [H|H]; apply Qeq_bool_iff in H; lra.
Qed.

Lemma detectOutliers_bounds values lo hi :
  OutlierReport.lowerBound (detectOutliers values) = Some lo ->
  OutlierReport.upperBound (detectOutliers values) = Some hi ->
  exists stats,
    calculateStatistics values = Some stats
    /\ lo = (Statistics.q1 stats - Fin (3 # 2) * (Statistics.q3 stats - Statistics.q1 stats))%num
    /\ hi = (Statistics.q3 stats + Fin (3 # 2) * (Statistics.q3 stats - Statistics.q1 stats))%num.
Proof.
  unfold detectOutliers. destruct (calculateStatistics values) as [stats|]; [|done].
  simpl. intros [= <-] [= <-]. eauto.
Qed.

Lemma equal_to_bound_not_flagged values lo hi i v :
  OutlierReport.lowerBound (detectOutliers values) = Some lo ->
  OutlierReport.upperBound (detectOutliers values) = Some hi ->
  values !! i = Some v ->
  Num.eqb (to_numeric v) lo || Num.eqb (to_numeric v) hi = true ->
  ~ exists o, In o (OutlierReport.outliers (detectOutliers values)) /\ Outlier.index o = i.
Proof.
  intros Hlo Hhi Hi Heq (o & Ho & Hidx).
  destruct (detectOutliers_bounds values lo hi Hlo Hhi) as (stats & Hstats & -> & ->).
  destruct (quartiles_ordered values stats Hstats) as (N1 & N3 & Hle).
  destruct (detectOutliers_entry values o Ho)
    as (v' & lo' & hi' & Hv' & _ & _ & Hlo' & Hhi' & Hout & _).
  rewrite Hlo in Hlo'. rewrite Hhi in Hhi'. injection Hlo' as <-. injection Hhi' as <-.
  rewrite Hidx, Hi in Hv'. injection Hv' as <-.
  pose proof (bounds_exclusive _ _ (to_numeric v) N1 N3 Hle Heq) as Hin.
  simpl in Hin. congruence.
Qed.

End Quartiles.

(** ** Duplicate rows *)

Section Duplicates.
Context {host : Host}.

Lemma first_with_lt hs rs h i : first_with hs rs h = Some i -> (i < length rs)%nat.
Proof.
  unfold first_with. intros ([i' r] & Hf & [= <-])%fmap_Some.
  apply list_find_Some in Hf as (Hr & _). by eapply lookup_lt_Some.
Qed.

Lemma first_with_snoc hs pre r h :
  first_with hs (pre ++ [r]) h
  = match first_with hs pre h with
    | Some i => Some i
    | None => if decide (rowHash hs r = h) then Some (length pre) else None
    end.
Proof.
  unfold first_with.
  destruct (list_find _ pre) as [[i x]|] eqn:E; simpl.
  - by rewrite (list_find_app_l _ _ _ _ _ E).
  - rewrite list_find_app_r by done. simpl. by case_decide.
Qed.

Lemma first_with_app_l hs pre rest h i :
  first_with hs pre h = Some i -> first_with hs (pre ++ rest) h = Some i.
Proof.
  unfold first_with. intros ([i' r] & Hf & [= <-])%fmap_Some.
  by rewrite (list_find_app_l _ _ _ _ _ Hf).
Qed.

Lemma first_with_app_r hs pre r rest h :
  first_with hs pre h = None -> rowHash hs r = h ->
  first_with hs (pre ++ r :: rest) h = Some (length pre).
Proof.
  unfold first_with. intros Hnone Hh.
  destruct (list_find _ pre) eqn:E; [done|].
  rewrite list_find_app_r by done. simpl. by rewrite decide_True.
Qed.

Lemma duplicate_loop hs rest pre (seen : gmap string nat) acc :
  (forall h, seen !! h = first_with hs pre h) ->
  forall e,
    In e (forEach_indexed (duplicate_step hs) rest (length pre) (seen, acc)).2 <->
    In e acc
    \/ exists k r,
         rest !! k = Some r
         /\ DuplicateEntry.duplicateRow e = (length pre + k)%nat
         /\ DuplicateEntry.data e = r
         /\ first_with hs (pre ++ rest) (rowHash hs r) = Some (DuplicateEntry.originalRow e)
         /\ (DuplicateEntry.originalRow e < length pre + k)%nat.
Proof.
  revert pre seen acc. induction rest as [|r rest IH]; intros pre seen acc Hseen e.
  - simpl. split; [tauto|]. intros [?|(k & r & Hk & _)]; [done|]. by destruct k.
  - cbn [forEach_indexed]. unfold duplicate_step at 2. cbn [fst snd].
    assert (Hlen : S (length pre) = length (pre ++ [r]))
      by (rewrite length_app; simpl; lia).
    assert (Happ : forall l : list row, (pre ++ [r]) ++ l = pre ++ r :: l)
      by (intros l; by rewrite <- app_assoc).
    destruct (seen !! rowHash hs r) as [orig|] eqn:Hlook.
    + rewrite Hlen, IH.
      2:{ intros h. rewrite first_with_snoc, <- Hseen.
          destruct (seen !! h) eqn:E; [done|]. case_decide; [congruence | done]. }
      rewrite Happ, in_app_iff, <- Hlen.
      rewrite Hseen in Hlook. pose proof (first_with_lt _ _ _ _ Hlook) as Hlt.
      split.
      * intros [[?|[<-|[]]]|(k & r' & Hk & Hd & Hdata & Hf & Ho)].
        -- by left.
        -- right. exists 0%nat, r. simpl. rewrite Nat.add_0_r.
           split_and!; try done. by apply first_with_app_l.
        -- right. exists (S k), r'. simpl. split_and!; try done; lia.
      * intros [?|(k & r' & Hk & Hd & Hdata & Hf & Ho)]; [tauto|].
        destruct k as [|k]; simpl in Hk.
        -- injection Hk as <-. left. right. left.
           rewrite (first_with_app_l _ _ (r :: rest) _ _ Hlook) in Hf. injection Hf as Hf.
           destruct e as [eo ed er]. simpl in *. rewrite Nat.add_0_r in Hd. by subst.
        -- right. exists k, r'. split_and!; try done; lia.
    + rewrite Hlen, IH.
      2:{ intros h. rewrite first_with_snoc, <- Hseen. rewrite Hseen in Hlook.
          destruct (decide (rowHash hs r = h)) as [Hh|Hh].
          - subst h. rewrite lookup_insert_eq. by rewrite Hseen, Hlook.
          - rewrite lookup_insert_ne by done. by destruct (seen !! h). }
      rewrite Happ, <- Hlen. rewrite Hseen in Hlook.
      split.
      * intros [?|(k & r' & Hk & Hd & Hdata & Hf & Ho)]; [by left|].
        right. exists (S k), r'. simpl. split_and!; try done; lia.
      * intros [?|(k & r' & Hk & Hd & Hdata & Hf & Ho)]; [by left|].
        destruct k as [|k]; simpl in Hk.
        -- injection Hk as <-.
           rewrite (first_with_app_r _ _ _ rest _ Hlook eq_refl) in Hf.
           injection Hf as Hf. lia.
        -- right. exists k, r'. split_and!; try done; lia.
Qed.

(** The list of duplicates: one entry for each row that is not the first
    of its fingerprint, pointing at that first row. *)
Lemma find_duplicate_rows_spec d e :
  In e (find_duplicate_rows d) <->
  exists r,
    rows d !! DuplicateEntry.duplicateRow e = Some r
    /\ DuplicateEntry.data e = r
    /\ first_with (headers d) (rows d) (rowHash (headers d) r)
       = Some (DuplicateEntry.originalRow e)
    /\ (DuplicateEntry.originalRow e < DuplicateEntry.duplicateRow e)%nat.
Proof.
  unfold find_duplicate_rows.
  rewrite (duplicate_loop (headers d) (rows d) [] ∅ []).
  2:{ intros h. by rewrite lookup_empty. }
  simpl. split.
  - intros [[]|(k & r & Hk & -> & Hd & Hf & Ho)]. eauto.
  - intros (r & Hk & Hd & Hf & Ho). right. eauto 10.
Qed.

Lemma rowHash_value_identical hs r1 r2 :
  value_identical hs r1 r2 -> rowHash hs r1 = rowHash hs r2.
Proof.
  intros Hv. unfold rowHash. do 2 f_equal. apply map_ext_in. exact Hv.
Qed.

Lemma first_with_minimal hs rs h i :
  first_with hs rs h = Some i ->
  (exists r, rs !! i = Some r /\ rowHash hs r = h)
  /\ forall k r, (k < i)%nat -> rs !! k = Some r -> rowHash hs r <> h.
Proof.
  unfold first_with. intros ([i' r] & Hf & [= <-])%fmap_Some.
  apply list_find_Some in Hf as (Hr & Hh & Hmin). split; [eauto|].
  intros k r' Hk Hr'. by apply (Hmin k r').
Qed.

Lemma first_with_is_Some hs rs i r :
  rs !! i = Some r ->
  exists o, first_with hs rs (rowHash hs r) = Some o /\ (o <= i)%nat.
Proof.
  intros Hi. unfold first_with.
  destruct (list_find (fun r' => rowHash hs r' = rowHash hs r) rs) as [[o x]|] eqn:E.
  - exists o. split; [done|]. apply list_find_Some in E as (_ & _ & Hmin).
    destruct (decide (o <= i)%nat); [done|]. exfalso. apply (Hmin i r); [done | lia | done].
  - apply list_find_None in E. rewrite List.Forall_forall in E.
    exfalso. apply (E r); [|done]. apply list_elem_of_In. by eapply list_elem_of_lookup_2.
Qed.

End Duplicates.

(** ** The fingerprint of a row *)

Section Fingerprint.
Context {host : Host}.
Import JS.

Lemma string_ltb_lt a b : String.ltb a b = true <-> String_as_OT.lt a b.
Proof.
  unfold String.ltb. rewrite <- String_as_OT.cmp_lt. unfold String_as_OT.cmp.
  destruct (String.compare a b); split; congruence.
Qed.

Lemma string_trichotomy a b : String_as_OT.lt a b \/ a = b \/ String_as_OT.lt b a.
Proof.
  destruct (String.compare a b) eqn:E.
  - right. left. by apply String.compare_eq_iff.
  - left. by apply String_as_OT.cmp_lt.
  - right. right. apply String_as_OT.cmp_lt. unfold String_as_OT.cmp.
    rewrite String.compare_antisym, E. done.
Qed.

Lemma string_lt_irrefl a : ~ String_as_OT.lt a a.
Proof. intros H. by apply String_as_OT.lt_not_eq in H. Qed.

Lemma before_iff x y : before x y <-> ~ String_as_OT.lt (ToString y) (ToString x).
Proof.
  unfold before. rewrite <- string_ltb_lt. by destruct (String.ltb _ _).
Qed.

Lemma before_of_after x y : String.ltb (ToString y) (ToString x) = true -> before y x.
Proof.
  rewrite string_ltb_lt, before_iff. intros H1 H2.
  apply (string_lt_irrefl (ToString x)). by eapply String_as_OT.lt_trans.
Qed.

Lemma before_trans x y z : before x y -> before y z -> before x z.
Proof.
  rewrite !before_iff. intros Hxy Hyz Hzx.
  destruct (string_trichotomy (ToString x) (ToString y)) as [H|[H|H]]; [| |done].
  - apply Hyz. by eapply String_as_OT.lt_trans.
  - apply Hyz. by rewrite <- H.
Qed.

Lemma before_antisym x y : before x y -> before y x -> ToString x = ToString y.
Proof.
  rewrite !before_iff. intros Hxy Hyx.
  by destruct (string_trichotomy (ToString x) (ToString y)) as [H|[H|H]].
Qed.

Lemma sorted_perm_unique {A} (R : A -> A -> Prop) (l1 l2 : list A) :
  StronglySorted R l1 -> StronglySorted R l2 -> Permutation l1 l2 ->
  (forall x y, In x l1 -> In y l1 -> R x y -> R y x -> x = y) ->
  l1 = l2.
Proof.
  intros Hs1. revert l2. induction Hs1 as [|x l1 Hs1 IH Hx]; intros l2 Hs2 Hp Hanti.
  - by apply Permutation_nil in Hp.
  - destruct Hs2 as [|y l2 Hs2 Hy].
    { symmetry in Hp. by apply Permutation_nil in Hp. }
    assert (x = y) as <-.
    { destruct (Permutation_in x Hp ltac:(by left)) as [->|Hx2]; [done|].
      symmetry in Hp.
      destruct (Permutation_in y Hp ltac:(by left)) as [->|Hy1]; [done|].
      rewrite List.Forall_forall in Hx, Hy.
      apply Hanti; [by left | by right | by apply Hx | by apply Hy]. }
    f_equal. apply IH; [done | by eapply Permutation_cons_inv |].
    intros a b Ha Hb. apply Hanti; by right.
Qed.

Lemma filter_perm {A} (f : A -> bool) (l1 l2 : list A) :
  Permutation l1 l2 -> Permutation (List.filter f l1) (List.filter f l2).
Proof.
  induction 1 as [|x l1 l2 Hp IH|x y l|l1 l2 l3 H1 IH1 H2 IH2]; simpl.
  - done.
  - destruct (f x); [by constructor | done].
  - destruct (f x), (f y); try done. apply perm_swap.
  - by etrans.
Qed.

Lemma undefined_part l1 l2 :
  Permutation l1 l2 -> List.filter is_undefined l1 = List.filter is_undefined l2.
Proof.
  intros Hp. apply (filter_perm is_undefined) in Hp.
  assert (Hall : forall l, Forall (fun v => v = VUndefined) (List.filter is_undefined l)).
  { intros l. apply List.Forall_forall. intros v Hv.
    apply filter_In in Hv as [_ Hv]. by destruct v. }
  pose proof (Hall l1) as H1. pose proof (Hall l2) as H2.
  revert H1 H2 Hp. generalize (List.filter is_undefined l1), (List.filter is_undefined l2).
  intros k1. induction k1 as [|a k1 IH]; intros k2 H1 H2 Hp.
  - by apply Permutation_nil in Hp.
  - destruct k2 as [|b k2].
    { symmetry in Hp. by apply Permutation_nil in Hp. }
    apply Forall_cons_1 in H1 as [-> H1]. apply Forall_cons_1 in H2 as [-> H2].
    f_equal. apply IH; [done | done | by eapply Permutation_cons_inv].
Qed.

(** Rows with the same values up to their columns sort to the same array
    when the renderings of the values tell them apart. *)
Lemma sort_default_perm l1 l2 :
  Permutation l1 l2 -> renderings_distinct l1 -> sort_default l1 = sort_default l2.
Proof.
  intros Hp Hinj. unfold sort_default. f_equal; [|by apply undefined_part].
  set (defined := fun v => negb (is_undefined v)).
  set (after := fun x y => String.ltb (ToString y) (ToString x)).
  assert (Hsort : forall l, StronglySorted before (stable_sort after l)).
  { intros l. apply (stable_sort_sorted after before (fun _ => True)).
    - intros x y _ _. apply before_of_after.
    - by intros x y _ _.
    - intros x y z _ _ _. apply before_trans.
    - by apply List.Forall_forall. }
  apply (sorted_perm_unique before); [apply Hsort | apply Hsort | |].
  - rewrite !stable_sort_perm. by apply filter_perm.
  - intros x y Hx Hy Hxy Hyx.
    assert (Hin : forall v, In v (stable_sort after (List.filter defined l1)) ->
                            In v l1 /\ v <> VUndefined).
    { intros v Hv. eapply Permutation_in in Hv; [|apply stable_sort_perm].
      apply filter_In in Hv as [Hv Hd]. split; [done|]. by destruct v. }
    destruct (Hin x Hx), (Hin y Hy).
    apply Hinj; try done. by apply before_antisym.
Qed.

Lemma rowHash_perm hs r1 r2 :
  Permutation (projection hs r1) (projection hs r2) ->
  renderings_distinct (projection hs r1) ->
  rowHash hs r1 = rowHash hs r2.
Proof.
  intros Hp Hinj. unfold rowHash. f_equal. by apply sort_default_perm.
Qed.

End Fingerprint.

(** ** The order of the issues *)

Section ObjectOrder.
Context {A : Type}.
Implicit Types (o : jsobj A) (k : string) (v : A).

Lemma entries_plain o : Forall plain_key (map fst o) -> Obj.entries o = o.
Proof.
  intros Hk. unfold Obj.entries.
  assert (Hn : forall kv, In kv o -> Obj.is_index kv = false).
  { intros kv Hkv. rewrite List.Forall_forall in Hk. unfold Obj.is_index.
    rewrite (Hk kv.1); [done|]. by apply in_map. }
  assert (E1 : List.filter Obj.is_index o = []).
  { clear Hk. induction o as [|kv o IH]; simpl; [done|].
    rewrite (Hn kv) by (by left). apply IH. intros kv' ?. apply Hn. by right. }
  assert (E2 : List.filter (fun kv => negb (Obj.is_index kv)) o = o).
  { clear Hk E1. induction o as [|kv o IH]; simpl; [done|].
    rewrite (Hn kv) by (by left). simpl. f_equal. apply IH. intros kv' ?. apply Hn. by right. }
  by rewrite E1, E2.
Qed.

Lemma keys_alter (f : A -> A) k o : map fst (Obj.alter f k o) = map fst o.
Proof.
  induction o as [|[a x] o IH]; simpl; [done|].
  destruct (String.eqb a k); simpl; by rewrite ?IH.
Qed.

Lemma set_fresh o k v : ~ In k (map fst o) -> Obj.set o k v = o ++ [(k, v)].
Proof.
  induction o as [|[a x] o IH]; simpl; intros Hk; [done|].
  destruct (String.eqb_spec a k) as [->|]; [tauto|]. rewrite IH by tauto. done.
Qed.

Lemma built_from (f : string -> A) (hs : list string) o :
  NoDup (map fst o ++ hs) ->
  fold_left (fun o h => Obj.set o h (f h)) hs o = o ++ map (fun h => (h, f h)) hs.
Proof.
  revert o. induction hs as [|h hs IH]; intros o Hnd; simpl.
  - by rewrite app_nil_r.
  - rewrite set_fresh.
    2:{ apply NoDup_app in Hnd as (_ & Hdis & _). intros Hin.
        apply (Hdis h); [by apply list_elem_of_In | left]. }
    rewrite IH.
    + by rewrite <- app_assoc.
    + rewrite map_app. simpl. by rewrite <- app_assoc.
Qed.

Lemma built_keys (f : string -> A) (hs : list string) :
  NoDup hs -> map fst (fold_left (fun o h => Obj.set o h (f h)) hs []) = hs.
Proof.
  intros Hnd. rewrite built_from by done. simpl.
  rewrite map_map. simpl. apply map_id.
Qed.

Lemma get_in o k v : NoDup (map fst o) -> In (k, v) o -> Obj.get o k = Some v.
Proof.
  induction o as [|[a x] o IH]; simpl; intros Hnd Hin; [done|].
  apply NoDup_cons in Hnd as [Ha Hnd].
  destruct Hin as [[= -> ->]|Hin].
  - by rewrite String.eqb_refl.
  - destruct (String.eqb_spec a k) as [->|]; [|by apply IH].
    exfalso. apply Ha. apply list_elem_of_In. by apply (in_map fst _ (k, v)).
Qed.

Lemma flat_map_lookup {B} (g : string -> A -> list B) o (l : list (string * A)) :
  (forall kv, In kv l -> Obj.get o kv.1 = Some kv.2) ->
  flat_map (fun kv => g kv.1 kv.2) l
  = flat_map (fun h => match Obj.get o h with Some v => g h v | None => [] end) (map fst l).
Proof.
  induction l as [|[k v] l IH]; intros Hall; simpl; [done|].
  pose proof (Hall (k, v) (or_introl eq_refl)) as Hk. simpl in Hk.
  rewrite Hk. f_equal. apply IH.
  intros kv ?. apply Hall. by right.
Qed.

(** Going through the properties of an object whose keys are the headers
    is going through the headers and reading the property of each. *)
Lemma flat_map_keyed {B} (g : string -> A -> list B) o :
  NoDup (map fst o) ->
  flat_map (fun kv => g kv.1 kv.2) o
  = flat_map (fun h => match Obj.get o h with Some v => g h v | None => [] end) (map fst o).
Proof.
  intros Hnd. apply flat_map_lookup. intros [k v] Hkv. by apply get_in.
Qed.

Lemma flat_map_entries {B} (g : string * A -> list B) o :
  NoDup (map fst o) ->
  flat_map g o
  = flat_map (fun h => match Obj.get o h with Some v => g (h, v) | None => [] end) (map fst o).
Proof.
  intros Hnd. rewrite <- (flat_map_keyed (fun k v => g (k, v))) by done.
  apply flat_map_ext. by intros [k v].
Qed.

Lemma fold_left_push {B E} (g : E -> list B) (l : list E) (acc : list B) :
  fold_left (fun acc e => acc ++ g e) l acc = acc ++ flat_map g l.
Proof.
  revert acc. induction l as [|e l IH]; intros acc; simpl.
  - by rewrite app_nil_r.
  - by rewrite IH, <- app_assoc.
Qed.

Lemma fold_left_push_option {B E} (step : option (list B) -> E -> option (list B))
    (g : E -> list B) (l : list E) (acc : list B) :
  (forall acc e, step (Some acc) e = Some (acc ++ g e)) ->
  fold_left step l (Some acc) = Some (acc ++ flat_map g l).
Proof.
  intros Hstep. revert acc. induction l as [|e l IH]; intros acc; simpl.
  - by rewrite app_nil_r.
  - by rewrite Hstep, IH, <- app_assoc.
Qed.

End ObjectOrder.

Section IssueOrder.
Context {host : Host}.
Import JS.

Lemma fold_left_ext_push {B E} (step : list B -> E -> list B) (g : E -> list B)
    (l : list E) (acc : list B) :
  (forall acc e, step acc e = acc ++ g e) ->
  fold_left step l acc = acc ++ flat_map g l.
Proof.
  intros Hstep. revert acc. induction l as [|e l IH]; intros acc; simpl.
  - by rewrite app_nil_r.
  - by rewrite Hstep, IH, <- app_assoc.
Qed.

Lemma map_flat_map {B C E} (f : B -> C) (g : E -> list B) (l : list E) :
  map f (flat_map g l) = flat_map (fun e => map f (g e)) l.
Proof.
  induction l as [|e l IH]; simpl; [done|]. by rewrite map_app, IH.
Qed.

Lemma missing_keys d :
  NoDup (headers d) -> map fst (MissingReport.byColumn (findMissingValues d)) = headers d.
Proof.
  intros Hnd. unfold findMissingValues.
  pose proof (forEach_indexed_invariant
    (fun st : jsobj MissingColumn.t * list MissingRow.t => map fst st.1 = headers d)
    (missing_row (headers d)) (rows d) 0%nat (missing_init (headers d), [])) as Hinv.
  destruct (forEach_indexed _ _ _ _) as [counted byRow]. simpl in Hinv.
  cbn [MissingReport.byColumn].
  apply (fold_left_invariant (fun o : jsobj MissingColumn.t => map fst o = headers d)).
  { intros o h Ho. by rewrite keys_alter. }
  apply Hinv.
  - intros [o l] r i Ho. unfold missing_row. simpl in *.
    pose proof (fold_left_invariant
      (fun st : jsobj MissingColumn.t * nat => map fst st.1 = headers d)
      (missing_cell r i) (headers d) (o, 0%nat)) as Hcells.
    destruct (fold_left _ _ _) as [o' n]. simpl in Hcells.
    assert (map fst o' = headers d) as Ho'.
    { apply Hcells; [|done]. intros [o1 n1] h Ho1. unfold missing_cell.
      destruct (isMissing _); [|done]. simpl in *. by rewrite keys_alter. }
    by destruct (0 <? n)%nat.
  - unfold missing_init. by apply (built_keys (fun _ => MissingColumn.mk 0 (Fin 0) [])).
Qed.

Lemma dataTypes_keys d : NoDup (headers d) -> map fst (analyzeDataTypes d) = headers d.
Proof. intros Hnd. unfold analyzeDataTypes. by apply (built_keys (fun h => detectDataType (column d h))). Qed.

Lemma columnStats_keys d mv cs :
  NoDup (headers d) ->
  build_column_stats d mv (analyzeDataTypes d) = Some cs -> map fst cs = headers d.
Proof.
  intros Hnd. rewrite build_column_stats_eq. intros [= <-].
  by apply (built_keys (fun h => column_stats_of d mv h (detectDataType (column d h)))).
Qed.

Lemma missing_severity_eq p : missing_severity p = missing_severity_spec p.
Proof.
  unfold missing_severity, missing_severity_spec.
  by destruct (p >? Fin 50)%num, (p >? Fin 25)%num, (p >? Fin 10)%num, (p >? Fin 0)%num.
Qed.

Lemma mapM_string_test (p : string -> bool) (l : list value) :
  Forall (fun v => truthy v = true) l ->
  mapM (string_test p) l = Some (map (fun v => p (ToString v)) l).
Proof.
  intros Hl. apply mapM_Some_2. induction Hl as [|v l Hv Hl IH]; simpl; constructor; [|done].
  unfold string_test. by destruct v.
Qed.

Lemma count_true_pos {B} (f : B -> bool) (l : list B) :
  (0 <? count_true (map f l))%nat = existsb f l.
Proof.
  unfold count_true. induction l as [|x l IH]; simpl; [done|].
  destruct (f x); simpl; [done | exact IH].
Qed.

Lemma missing_issue_push acc e : missing_issue_step acc e = acc ++ pushed_missing e.
Proof.
  unfold pushed_missing, missing_issue_step. destruct e as [c data].
  destruct (0 <? _)%nat; simpl; [done | by rewrite app_nil_r].
Qed.

Lemma mixed_issue_push acc e : mixed_issue_step acc e = acc ++ pushed_mixed e.
Proof.
  unfold pushed_mixed, mixed_issue_step. destruct e as [c t].
  destruct (flag _); simpl; [done | by rewrite app_nil_r].
Qed.

Lemma outlier_issue_push acc e : outlier_issue_step acc e = acc ++ pushed_outlier e.
Proof.
  unfold pushed_outlier, outlier_issue_step. destruct e as [c stats].
  destruct (ColumnStats.outliers stats) as [o|]; [|by rewrite app_nil_r].
  destruct (0 <? _)%nat; simpl; [done | by rewrite app_nil_r].
Qed.

Lemma format_issue_push d acc e :
  format_issue_step d (Some acc) e = Some (acc ++ pushed_format d e).
Proof.
  unfold pushed_format, format_issue_step. simpl.
  destruct (is_type TNumber e.2); [|by rewrite app_nil_r].
  rewrite !mapM_string_test by apply Forall_filter_true. simpl.
  destruct (_ && _); simpl; [done | by rewrite app_nil_r].
Qed.

Lemma pushed_format_key d k cs :
  map issue_key (pushed_format d (k, cs))
  = if is_type TNumber cs && formatting_split d k then [(Format, SevLow, Some k)] else [].
Proof.
  unfold pushed_format, format_issue_step, formatting_split. simpl.
  destruct (is_type TNumber cs); [|done].
  rewrite !mapM_string_test by apply Forall_filter_true. simpl.
  rewrite !count_true_pos. by destruct (_ && _).
Qed.

Lemma generate_issues_eq d mv dup dt cs :
  generate_issues d mv dup dt cs
  = Some (flat_map pushed_missing (Obj.entries (MissingReport.byColumn mv))
          ++ duplicate_issue_step [] dup
          ++ flat_map pushed_mixed (Obj.entries dt)
          ++ flat_map (pushed_format d) (Obj.entries cs)
          ++ flat_map pushed_outlier (Obj.entries cs)).
Proof.
  unfold generate_issues.
  rewrite (fold_left_ext_push missing_issue_step pushed_missing) by apply missing_issue_push.
  rewrite (fold_left_ext_push mixed_issue_step pushed_mixed) by apply mixed_issue_push.
  rewrite (fold_left_push_option (format_issue_step d) (pushed_format d))
    by apply format_issue_push.
  simpl.
  rewrite (fold_left_ext_push outlier_issue_step pushed_outlier) by apply outlier_issue_push.
  f_equal. unfold duplicate_issue_step.
  destruct (0 <? _)%nat; simpl; rewrite ?app_nil_r, <- ?app_assoc; done.
Qed.

Lemma issues_in_header_order d r :
  NoDup (headers d) -> Forall plain_key (headers d) ->
  analyzeDataQuality d = Some r ->
  map issue_key (QualityAnalysis.issues r) = expected_issues d r.
Proof.
  intros Hnd Hplain Hres.
  destruct (analyzeDataQuality_inv d r Hres)
    as (cs & vi & fi & fp & iss & Hcs & _ & _ & _ & Hiss & Hmv & Hdup & Hdt & Hcols & Hi & _).
  rewrite generate_issues_eq in Hiss. injection Hiss as Hiss.
  pose proof (missing_keys d Hnd) as Kmv.
  pose proof (dataTypes_keys d Hnd) as Kdt.
  pose proof (columnStats_keys d _ cs Hnd Hcs) as Kcs.
  rewrite !entries_plain in Hiss by (by rewrite ?Kmv, ?Kdt, ?Kcs).
  rewrite Hi, <- Hiss. unfold expected_issues.
  rewrite !map_app, !map_flat_map.
  rewrite (flat_map_entries (fun e => map issue_key (pushed_missing e)))
    by (by rewrite Kmv).
  rewrite (flat_map_entries (fun e => map issue_key (pushed_mixed e)))
    by (by rewrite Kdt).
  rewrite (flat_map_entries (fun e => map issue_key (pushed_format d e)))
    by (by rewrite Kcs).
  rewrite (flat_map_entries (fun e => map issue_key (pushed_outlier e)))
    by (by rewrite Kcs).
  rewrite Kmv, Kdt, Kcs.
  f_equal; [|f_equal; [|f_equal; [|f_equal]]].
  - apply flat_map_ext. intros h. unfold expected_missing. rewrite Hmv.
    destruct (Obj.get _ h) as [c|]; [|done].
    unfold pushed_missing, missing_issue_step.
    destruct (0 <? _)%nat; [|done]. simpl. unfold issue_key. simpl.
    by rewrite missing_severity_eq.
  - unfold expected_duplicate, duplicate_issue_step. rewrite Hdup.
    by destruct (0 <? _)%nat.
  - apply flat_map_ext. intros h. unfold expected_mixed. rewrite Hdt.
    destruct (Obj.get _ h) as [t|]; [|done].
    unfold pushed_mixed, mixed_issue_step. by destruct (flag _).
  - apply flat_map_ext. intros h. unfold expected_format. rewrite Hcols.
    destruct (Obj.get _ h) as [s|]; [|done]. apply pushed_format_key.
  - apply flat_map_ext. intros h. unfold expected_outlier. rewrite Hcols.
    destruct (Obj.get _ h) as [s|]; [|done].
    unfold pushed_outlier, outlier_issue_step.
    destruct (ColumnStats.outliers s) as [o|]; [|done]. by destruct (0 <? _)%nat.
Qed.

End IssueOrder.

(** * Main results *)

Section Claims.
Context {host : Host}.

(** C1.  For every dataset with at least one row and at least
    one header the engine returns, and the overall score and the four
    dimension scores (completeness, uniqueness, validity, consistency) all
    lie between 0 and 100. *)
Theorem scores_between_0_and_100 d :
  rows d <> [] -> headers d <> [] ->
  exists r, analyzeDataQuality d = Some r /\ scores_in_range r.
Proof.
  intros Hr Hh. destruct (analyzeDataQuality_total d) as [r Hres].
  exists r. split; [done|]. by apply (scores_in_range_of_result d).
Qed.

(** C2.  For every dataset with at least one row and at least
    one header (all-missing columns, columns without a numeric value and
    rows whose keys do not match the headers included) the engine returns
    without a TypeError, and every percentage of the result is a finite
    number: the overall, per-column and per-row missing percentages, the
    duplicate percentage, the unique percentage and the outlier percentage
    of every column. *)
Theorem engine_returns_defined_percentages d :
  rows d <> [] -> headers d <> [] ->
  exists r, analyzeDataQuality d = Some r /\ percentages_defined r.
Proof.
  intros Hr Hh. destruct (analyzeDataQuality_total d) as [r Hres].
  exists r. split; [done|]. by apply (percentages_defined_of_result d).
Qed.

(** C3.  On headers [id, age] and rows {id:1,age:30},
    {id:2,age:null}, {id:1,age:30} the analysis gives
    missingValues.byColumn.age with count 1, a percentage between 33.3 and
    33.4 that reads 33.3 to one decimal, and position 1, one duplicate with
    row 0 as original and row 2 as duplicate, and exactly two issues in
    this order: a missing issue on age of severity high, whose description
    shows 33.3%, then a duplicate issue of severity high. *)
Theorem people_report :
  exists r,
    analyzeDataQuality people = Some r
    /\ (exists c,
          Obj.get (MissingReport.byColumn (QualityAnalysis.missingValues r)) "age" = Some c
          /\ MissingColumn.count c = 1%nat
          /\ Num.in_range (333 # 10) (334 # 10) (MissingColumn.percentage c)
          /\ JS.toFixed 1 (MissingColumn.percentage c) = "33.3"
          /\ MissingColumn.positions c = [1%nat])
    /\ DuplicateReport.count (QualityAnalysis.duplicates r) = 1%nat
    /\ map (fun e => (DuplicateEntry.originalRow e, DuplicateEntry.duplicateRow e))
           (DuplicateReport.duplicates (QualityAnalysis.duplicates r)) = [(0%nat, 2%nat)]
    /\ map issue_line (QualityAnalysis.issues r)
       = [ (Missing, SevHigh, Some "age", "age has 1 missing values (33.3%)");
           (Duplicate, SevHigh, None, "Found 1 duplicate rows (33.3%)") ].
Proof.
  destruct (analyzeDataQuality_total people) as [r Hres]. exists r. split; [done|].
  assert (H : option_map
                (fun r =>
                   (Obj.get (MissingReport.byColumn (QualityAnalysis.missingValues r)) "age",
                    DuplicateReport.count (QualityAnalysis.duplicates r),
                    map (fun e => (DuplicateEntry.originalRow e, DuplicateEntry.duplicateRow e))
                        (DuplicateReport.duplicates (QualityAnalysis.duplicates r)),
                    map issue_line (QualityAnalysis.issues r)))
                (analyzeDataQuality people)
              = Some (Some (MissingColumn.mk 1 (Fin (100 # 3)) [1%nat]), 1%nat, [(0%nat, 2%nat)],
                      [ (Missing, SevHigh, Some "age", "age has 1 missing values (33.3%)");
                        (Duplicate, SevHigh, None, "Found 1 duplicate rows (33.3%)") ]))
    by (vm_compute; reflexivity).
  rewrite Hres in H. simpl in H. injection H as H1 H2 H3 H4.
  split_and!; try done. eexists. split; [exact H1|].
  split_and!; [reflexivity | | vm_compute; reflexivity | reflexivity].
  simpl. unfold Qle. simpl. lia.
Qed.

(** C4.  For the numeric column [1,1,1,1,100] the mean is
    104/5 = 20.8, q1 = 1 and q3 = 1, both outlier bounds are 1, and the
    only outlier is 100 (position 4), flagged high.  In general the bounds
    are exclusive: a value whose numeric reading equals the lower or the
    upper bound is not among the outliers. *)
Theorem skewed_column_and_exclusive_bounds :
  option_map (fun s => (Num.show (Statistics.mean s), Statistics.q1 s, Statistics.q3 s))
             (calculateStatistics skewed)
  = Some (Num.vFrac 104 5, Fin 1, Fin 1)
  /\ (option_map Num.show (OutlierReport.lowerBound (detectOutliers skewed)),
      option_map Num.show (OutlierReport.upperBound (detectOutliers skewed)),
      OutlierReport.outliers (detectOutliers skewed))
     = (Some (Num.vFrac 1 1), Some (Num.vFrac 1 1), [Outlier.mk 4 (Fin 100) High])
  /\ forall values lo hi i v,
       OutlierReport.lowerBound (detectOutliers values) = Some lo ->
       OutlierReport.upperBound (detectOutliers values) = Some hi ->
       values !! i = Some v ->
       Num.eqb (to_numeric v) lo || Num.eqb (to_numeric v) hi = true ->
       ~ exists o, In o (OutlierReport.outliers (detectOutliers values)) /\ Outlier.index o = i.
Proof.
  split_and!; [vm_compute; reflexivity | vm_compute; reflexivity |].
  apply equal_to_bound_not_flagged.
Qed.

(** C5.  For every column with at least one value that reads as a number,
    the statistics exist and the quartiles are the elements at positions
    floor(N * 0.25), floor(N * 0.5) and floor(N * 0.75) of the numeric
    values sorted in ascending order, N being their number; for
    [1,2,3,4] this gives q1 = 2, q2 = 3, q3 = 4. *)
Theorem quartiles_at_floor_positions :
  (forall values,
     numeric_values values <> [] ->
     exists stats sorted,
       calculateStatistics values = Some stats
       /\ Permutation sorted (numeric_values values)
       /\ StronglySorted num_le sorted
       /\ sorted !! floor_index (length sorted) (1 # 4) = Some (Statistics.q1 stats)
       /\ sorted !! floor_index (length sorted) (1 # 2) = Some (Statistics.q2 stats)
       /\ sorted !! floor_index (length sorted) (3 # 4) = Some (Statistics.q3 stats))
  /\ option_map (fun s => (Statistics.q1 s, Statistics.q2 s, Statistics.q3 s))
                (calculateStatistics quartet)
     = Some (Fin 2, Fin 3, Fin 4).
Proof.
  split; [apply calculateStatistics_quartiles | vm_compute; reflexivity].
Qed.

(** C6.  Every entry of the duplicates list has originalRow < duplicateRow,
    both rows are in the class named by originalRow, which is the first row
    with that fingerprint; and two rows that hold the same value under every
    header are in the same class wherever they stand, the later one being
    listed as a duplicate of an original at or before the earlier one. *)
Theorem duplicates_point_back_to_first d :
  (forall e,
     In e (DuplicateReport.duplicates (findDuplicates d)) ->
     (DuplicateEntry.originalRow e < DuplicateEntry.duplicateRow e)%nat
     /\ duplicate_class d (DuplicateEntry.duplicateRow e) = Some (DuplicateEntry.originalRow e)
     /\ duplicate_class d (DuplicateEntry.originalRow e) = Some (DuplicateEntry.originalRow e))
  /\ (forall i j ri rj,
        rows d !! i = Some ri -> rows d !! j = Some rj ->
        value_identical (headers d) ri rj ->
        duplicate_class d i = duplicate_class d j
        /\ ((i < j)%nat ->
            exists e, In e (DuplicateReport.duplicates (findDuplicates d))
                      /\ DuplicateEntry.duplicateRow e = j
                      /\ (DuplicateEntry.originalRow e <= i)%nat)).
Proof.
  split.
  - intros e He. unfold findDuplicates in He. cbn [DuplicateReport.duplicates] in He.
    apply find_duplicate_rows_spec in He as (r & Hk & _ & Hf & Hlt).
    split; [done|]. unfold duplicate_class. rewrite Hk. simpl. split; [done|].
    destruct (first_with_minimal _ _ _ _ Hf) as [(r0 & Hr0 & Hh) _].
    rewrite Hr0. simpl. by rewrite Hh.
  - intros i j ri rj Hi Hj Hsame.
    pose proof (rowHash_value_identical _ _ _ Hsame) as Hh.
    split.
    + unfold duplicate_class. rewrite Hi, Hj. simpl. by rewrite Hh.
    + intros Hij. destruct (first_with_is_Some (headers d) _ _ _ Hi) as (o & Ho & Hle).
      exists (DuplicateEntry.mk o j rj). split; [|done].
      unfold findDuplicates. cbn [DuplicateReport.duplicates].
      apply find_duplicate_rows_spec. exists rj. simpl.
      split_and!; [done | done | by rewrite <- Hh | lia].
Qed.

(** C7.  Two rows of a dataset whose values across the headers
    form the same multiset get the same fingerprint, and so fall in one
    duplicate class, when no two different defined values of the row have
    the same rendering as a string. *)
Theorem permuted_rows_share_fingerprint d i j ri rj :
  rows d !! i = Some ri -> rows d !! j = Some rj ->
  Permutation (projection (headers d) ri) (projection (headers d) rj) ->
  renderings_distinct (projection (headers d) ri) ->
  rowHash (headers d) ri = rowHash (headers d) rj
  /\ duplicate_class d i = duplicate_class d j.
Proof.
  intros Hi Hj Hp Hinj.
  pose proof (rowHash_perm _ _ _ Hp Hinj) as Hh. split; [done|].
  unfold duplicate_class. rewrite Hi, Hj. simpl. by rewrite Hh.
Qed.

(** C8.  When the headers are pairwise distinct and none of them
    is an array index or the name __proto__, the issues (type, severity,
    column) are: the missing
    issues in header order (high above 50 or above 25, medium above 10,
    else low), then one duplicate issue of severity high when there is a
    duplicate, then the mixed-type issues in header order (high when the
    confidence is below 0.75, else medium), then the formatting issues in
    header order (low), then the outlier issues in header order (high above
    5, medium above 2, else low). *)
Theorem issues_follow_header_order d r :
  NoDup (headers d) -> Forall plain_key (headers d) -> ~ In "__proto__" (headers d) ->
  analyzeDataQuality d = Some r ->
  map issue_key (QualityAnalysis.issues r) = expected_issues d r.
Proof. intros Hnd Hplain _. by apply issues_in_header_order. Qed.

(** C9.  For every column with at least one value that is not null,
    undefined or the empty string, the reported type is one of number,
    string, boolean, date; no type is counted more often; every type
    before it in that order is counted strictly less often; and the
    confidence is its count divided by the number of such values. *)
Theorem dominant_type_is_first_maximum values :
  List.filter not_blank values <> [] ->
  let nonNull := List.filter not_blank values in
  let info := detectDataType values in
  In (TypeInfo.type info) type_order
  /\ (forall ty, (count_type ty nonNull <= count_type (TypeInfo.type info) nonNull)%nat)
  /\ (forall ty, (rank ty < rank (TypeInfo.type info))%nat ->
                 (count_type ty nonNull < count_type (TypeInfo.type info) nonNull)%nat)
  /\ TypeInfo.confidence info
     = (Num.of_nat (count_type (TypeInfo.type info) nonNull) / Num.of_nat (length nonNull))%num.
Proof. apply dominant_type_spec. Qed.

Lemma map_lookup {A B} (f : A -> B) (l : list A) i y :
  map f l !! i = Some y -> exists x, l !! i = Some x /\ y = f x.
Proof.
  revert i. induction l as [|x l IH]; intros i; [done|].
  destruct i as [|i]; simpl.
  - intros [= <-]. eauto.
  - apply IH.
Qed.

(** C10.  The index of an outlier entry is the position of the value in the
    sequence given to [detectOutliers], cells that are missing or not
    numeric counted; in a result of the engine it is the position of the
    row the value comes from. *)
Theorem outlier_index_is_row_index :
  (forall values o,
     In o (OutlierReport.outliers (detectOutliers values)) ->
     exists v, values !! Outlier.index o = Some v /\ Outlier.value o = to_numeric v)
  /\ (forall d r h cs rep o,
        analyzeDataQuality d = Some r ->
        Obj.get (QualityAnalysis.columnStats r) h = Some cs ->
        ColumnStats.outliers cs = Some rep ->
        In o (OutlierReport.outliers rep) ->
        exists row, rows d !! Outlier.index o = Some row
                    /\ Outlier.value o = to_numeric (cell row h)).
Proof.
  split.
  - intros values o Ho.
    destruct (detectOutliers_entry values o Ho) as (v & lo & hi & Hv & Hval & _). eauto.
  - intros d r h cs rep o Hres Hget Hrep Ho.
    destruct (analyzeDataQuality_inv d r Hres)
      as (cs' & vi & fi & fp & iss & Hcs & _ & _ & _ & _ & _ & _ & _ & Hcols & _).
    rewrite build_column_stats_eq in Hcs. injection Hcs as Hcs.
    rewrite Hcols, <- Hcs in Hget.
    destruct (in_dec string_dec h (headers d)) as [Hin|Hnin].
    2:{ by rewrite (get_built_other
             (fun h => column_stats_of d (findMissingValues d) h (detectDataType (column d h))))
          in Hget. }
    rewrite (get_built
               (fun h => column_stats_of d (findMissingValues d) h (detectDataType (column d h))))
      in Hget by done.
    injection Hget as <-. unfold column_stats_of in Hrep.
    destruct (TypeInfo.type _); simpl in Hrep; try done.
    injection Hrep as <-.
    destruct (detectOutliers_entry _ o Ho) as (v & lo & hi & Hv & Hval & _).
    unfold column in Hv. apply map_lookup in Hv as (row & Hrow & ->). eauto.
Qed.

End Claims.

(** * Sample data on the reference host *)

Section OnReferenceHost.
#[local] Existing Instance RefHost.host.

(** With no row the completeness, uniqueness and overall scores are NaN. *)
Lemma no_rows_scores_not_numbers :
  exists r,
    analyzeDataQuality no_rows = Some r
    /\ QualityAnalysis.overallScore r = NaN
    /\ Scores.completeness (QualityAnalysis.scores r) = NaN
    /\ Scores.uniqueness (QualityAnalysis.scores r) = NaN
    /\ ~ scores_in_range r.
Proof.
  eexists. split; [vm_compute; reflexivity|].
  split_and!; try reflexivity. intros (H & _). exact H.
Qed.

Lemma scores_between_0_and_100_witness :
  rows people <> [] /\ headers people <> []
  /\ exists r, analyzeDataQuality people = Some r /\ scores_in_range r.
Proof.
  assert (H1 : rows people <> []) by discriminate.
  assert (H2 : headers people <> []) by discriminate.
  exact (conj H1 (conj H2 (scores_between_0_and_100 people H1 H2))).
Defined.

(** With no row the missing and duplicate percentages are NaN. *)
Lemma no_rows_percentages_not_numbers :
  exists r,
    analyzeDataQuality no_rows = Some r
    /\ MissingReport.percentage (QualityAnalysis.missingValues r) = NaN
    /\ DuplicateReport.percentage (QualityAnalysis.duplicates r) = NaN
    /\ ~ percentages_defined r.
Proof.
  eexists. split; [vm_compute; reflexivity|].
  split_and!; try reflexivity. intros (H & _). discriminate H.
Qed.

Lemma engine_returns_defined_percentages_witness :
  rows ragged <> [] /\ headers ragged <> []
  /\ exists r, analyzeDataQuality ragged = Some r /\ percentages_defined r.
Proof.
  assert (H1 : rows ragged <> []) by discriminate.
  assert (H2 : headers ragged <> []) by discriminate.
  exact (conj H1 (conj H2 (engine_returns_defined_percentages ragged H1 H2))).
Defined.

(** The missing issue on age is of severity high, not low: a third of the
    column is missing, which is above 25. *)
Lemma people_missing_issue_not_low :
  exists r,
    analyzeDataQuality people = Some r
    /\ ~ In (Missing, SevLow, Some "age") (map issue_key (QualityAnalysis.issues r))
    /\ In (Missing, SevHigh, Some "age") (map issue_key (QualityAnalysis.issues r)).
Proof.
  eexists. split; [vm_compute; reflexivity|]. split.
  - intros H. vm_compute in H. destruct H as [H|[H|[]]]; discriminate H.
  - vm_compute. by left.
Qed.

(** The mean of [1,1,1,1,100] is 20.8, not 20.6. *)
Lemma skewed_mean_not_20_6 :
  exists stats,
    calculateStatistics skewed = Some stats
    /\ Num.eqb (Statistics.mean stats) (Fin (206 # 10)) = false
    /\ Num.eqb (Statistics.mean stats) (Fin (208 # 10)) = true.
Proof.
  eexists. split; [vm_compute; reflexivity|]. split; vm_compute; reflexivity.
Qed.

Lemma skewed_column_and_exclusive_bounds_witness :
  OutlierReport.lowerBound (detectOutliers skewed) = Some (Fin (2 # 2))
  /\ OutlierReport.upperBound (detectOutliers skewed) = Some (Fin (2 # 2))
  /\ skewed !! 0%nat = Some (num 1)
  /\ Num.eqb (to_numeric (num 1)) (Fin (2 # 2)) || Num.eqb (to_numeric (num 1)) (Fin (2 # 2)) = true
  /\ ~ exists o, In o (OutlierReport.outliers (detectOutliers skewed)) /\ Outlier.index o = 0%nat.
Proof.
  assert (H1 : OutlierReport.lowerBound (detectOutliers skewed) = Some (Fin (2 # 2)))
    by (vm_compute; reflexivity).
  assert (H2 : OutlierReport.upperBound (detectOutliers skewed) = Some (Fin (2 # 2)))
    by (vm_compute; reflexivity).
  assert (H3 : skewed !! 0%nat = Some (num 1)) by reflexivity.
  assert (H4 : Num.eqb (to_numeric (num 1)) (Fin (2 # 2))
               || Num.eqb (to_numeric (num 1)) (Fin (2 # 2)) = true)
    by (vm_compute; reflexivity).
  exact (conj H1 (conj H2 (conj H3 (conj H4
           (proj2 (proj2 skewed_column_and_exclusive_bounds) skewed _ _ 0%nat (num 1) H1 H2 H3 H4))))).
Defined.

Lemma quartiles_at_floor_positions_witness :
  numeric_values quartet <> []
  /\ exists stats sorted,
       calculateStatistics quartet = Some stats
       /\ Permutation sorted (numeric_values quartet)
       /\ StronglySorted num_le sorted
       /\ sorted !! floor_index (length sorted) (1 # 4) = Some (Statistics.q1 stats)
       /\ sorted !! floor_index (length sorted) (1 # 2) = Some (Statistics.q2 stats)
       /\ sorted !! floor_index (length sorted) (3 # 4) = Some (Statistics.q3 stats).
Proof.
  assert (H : numeric_values quartet <> []) by (intros E; vm_compute in E; discriminate E).
  exact (conj H (proj1 quartiles_at_floor_positions quartet H)).
Defined.

Lemma people_value_identical :
  value_identical (headers people)
    [("id", num 1); ("age", num 30)] [("id", num 1); ("age", num 30)].
Proof. by intros h _. Qed.

Lemma duplicates_point_back_to_first_witness :
  rows people !! 0%nat = Some [("id", num 1); ("age", num 30)]
  /\ rows people !! 2%nat = Some [("id", num 1); ("age", num 30)]
  /\ duplicate_class people 0 = duplicate_class people 2
  /\ exists e, In e (DuplicateReport.duplicates (findDuplicates people))
               /\ DuplicateEntry.duplicateRow e = 2%nat
               /\ (DuplicateEntry.originalRow e <= 0)%nat.
Proof.
  assert (H0 : rows people !! 0%nat = Some [("id", num 1); ("age", num 30)]) by reflexivity.
  assert (H2 : rows people !! 2%nat = Some [("id", num 1); ("age", num 30)]) by reflexivity.
  pose proof (proj2 (duplicates_point_back_to_first people) 0%nat 2%nat _ _ H0 H2
                people_value_identical) as [Hc He].
  exact (conj H0 (conj H2 (conj Hc (He ltac:(lia))))).
Defined.

(** The number 1 and the text "1" under exchanged columns: the same
    multiset of values, two fingerprints, no duplicate. *)
Lemma swapped_rows_differ :
  exists r1 r2,
    rows swapped = [r1; r2]
    /\ Permutation (projection (headers swapped) r1) (projection (headers swapped) r2)
    /\ rowHash (headers swapped) r1 <> rowHash (headers swapped) r2
    /\ find_duplicate_rows swapped = []
    /\ duplicate_class swapped 0 <> duplicate_class swapped 1.
Proof.
  eexists _, _. split; [reflexivity|]. split_and!.
  - vm_compute. apply perm_swap.
  - intros H. vm_compute in H. discriminate H.
  - vm_compute. reflexivity.
  - intros H. vm_compute in H. discriminate H.
Qed.

Lemma crossed_renderings_distinct :
  renderings_distinct (projection (headers crossed) [("a", num 1); ("b", num 2)]).
Proof.
  intros x y Hx Hy _ _ Hs. simpl in Hx, Hy.
  destruct Hx as [<-|[<-|[]]], Hy as [<-|[<-|[]]]; try reflexivity;
    vm_compute in Hs; discriminate Hs.
Qed.

Lemma permuted_rows_share_fingerprint_witness :
  rowHash (headers crossed) [("a", num 1); ("b", num 2)]
  = rowHash (headers crossed) [("a", num 2); ("b", num 1)]
  /\ duplicate_class crossed 0 = duplicate_class crossed 1.
Proof.
  apply (permuted_rows_share_fingerprint crossed 0 1);
    [reflexivity | reflexivity | vm_compute; apply perm_swap | apply crossed_renderings_distinct].
Defined.

(** The header "1" is an array index: its issue comes before that of "b",
    against the header order. *)
Lemma index_header_issues_out_of_order :
  exists r,
    analyzeDataQuality index_header = Some r
    /\ map issue_key (QualityAnalysis.issues r)
       = [(Missing, SevHigh, Some "1"); (Missing, SevHigh, Some "b")]
    /\ expected_issues index_header r
       = [(Missing, SevHigh, Some "b"); (Missing, SevHigh, Some "1")]
    /\ map issue_key (QualityAnalysis.issues r) <> expected_issues index_header r.
Proof.
  eexists. split; [vm_compute; reflexivity|]. split_and!.
  - vm_compute. reflexivity.
  - vm_compute. reflexivity.
  - intros H. vm_compute in H. discriminate H.
Qed.

Lemma people_headers_plain : NoDup (headers people) /\ Forall plain_key (headers people).
Proof.
  split.
  - apply NoDup_cons. split; [|apply NoDup_singleton].
    intros H. apply list_elem_of_In in H. destruct H as [H|[]]. discriminate H.
  - repeat constructor.
Qed.

Lemma two_gaps_headers :
  NoDup (headers two_gaps) /\ Forall plain_key (headers two_gaps)
  /\ ~ In "__proto__" (headers two_gaps).
Proof.
  split_and!.
  - apply NoDup_cons. split; [|apply NoDup_singleton].
    intros H. apply list_elem_of_In in H. destruct H as [H|[]]. discriminate H.
  - repeat constructor.
  - intros [H | [H | []]]; discriminate H.
Qed.

(** Two missing issues and two mixed-type issues, each pair in the order
    of the headers b, a. *)
Lemma issues_follow_header_order_witness :
  NoDup (headers two_gaps) /\ Forall plain_key (headers two_gaps)
  /\ ~ In "__proto__" (headers two_gaps)
  /\ exists r,
       analyzeDataQuality two_gaps = Some r
       /\ map issue_key (QualityAnalysis.issues r) = expected_issues two_gaps r
       /\ map (fun i => (Issue.type i, Issue.column i)) (QualityAnalysis.issues r)
          = [ (Missing, Some "b"); (Missing, Some "a");
              (Inconsistent, Some "b"); (Inconsistent, Some "a") ].
Proof.
  destruct two_gaps_headers as (H1 & H2 & H3).
  destruct (analyzeDataQuality two_gaps) as [r|] eqn:Hres; [|vm_compute in Hres; discriminate Hres].
  refine (conj H1 (conj H2 (conj H3 (ex_intro _ r (conj eq_refl
            (conj (issues_follow_header_order two_gaps r H1 H2 H3 Hres) _)))))).
  vm_compute in Hres. injection Hres as <-. vm_compute. reflexivity.
Defined.

(** A text of white space only is missing for the missing-value report but
    is counted by detectDataType: of " " and "5" it makes one string and one
    number, and reports number with confidence 1/2, not 1. *)
Lemma blank_text_counts_in_confidence :
  List.filter (fun v => negb (isMissing v)) blank_and_five = [VStr "5"]
  /\ List.filter not_blank blank_and_five = blank_and_five
  /\ TypeInfo.type (detectDataType blank_and_five) = TNumber
  /\ Num.eqb (TypeInfo.confidence (detectDataType blank_and_five)) (Fin (1 # 2)) = true
  /\ Num.eqb (TypeInfo.confidence (detectDataType blank_and_five)) (Fin 1) = false.
Proof. split_and!; vm_compute; reflexivity. Qed.

Lemma dominant_type_is_first_maximum_witness :
  List.filter not_blank level_tally <> []
  /\ TypeInfo.type (detectDataType level_tally) = TString
  /\ In (TypeInfo.type (detectDataType level_tally)) type_order
  /\ TypeInfo.confidence (detectDataType level_tally)
     = (Num.of_nat (count_type (TypeInfo.type (detectDataType level_tally))
                               (List.filter not_blank level_tally))
        / Num.of_nat (length (List.filter not_blank level_tally)))%num.
Proof.
  assert (H : List.filter not_blank level_tally <> []) by discriminate.
  pose proof (dominant_type_is_first_maximum level_tally H) as (Hin & _ & _ & Hconf).
  exact (conj H (conj eq_refl (conj Hin Hconf))).
Defined.

Lemma outlier_index_is_row_index_witness :
  exists o v,
    In o (OutlierReport.outliers (detectOutliers skewed_after_null))
    /\ Outlier.index o = 5%nat
    /\ skewed_after_null !! Outlier.index o = Some v
    /\ Outlier.value o = to_numeric v.
Proof.
  assert (Ho : In (Outlier.mk 5 (Fin 100) High)
                  (OutlierReport.outliers (detectOutliers skewed_after_null)))
    by (vm_compute; by left).
  destruct (proj1 outlier_index_is_row_index skewed_after_null _ Ho) as (v & Hv & Hval).
  exists (Outlier.mk 5 (Fin 100) High), v. done.
Defined.

End OnReferenceHost.

(** * Further properties of the engine *)

(** ** Missing values *)

Section MissingValues.
Context {host : Host}.

Lemma get_alter {A} (f : A -> A) k k' (o : jsobj A) :
  Obj.get (Obj.alter f k o) k' = if String.eqb k k' then f <$> Obj.get o k' else Obj.get o k'.
Proof.
  induction o as [|[a x] o IH]; simpl; [by destruct (String.eqb k k')|].
  destruct (String.eqb_spec a k) as [->|Hak]; simpl.
  - destruct (String.eqb_spec k k'); [done|done].
  - rewrite IH. destruct (String.eqb_spec a k') as [->|]; [|done].
    by destruct (String.eqb_spec k k').
Qed.

Lemma positions_from_spec p rs i k :
  In k (positions_from p rs i) <->
  exists j r, rs !! j = Some r /\ k = (i + j)%nat /\ p r = true.
Proof.
  revert i. induction rs as [|r rs IH]; intros i; simpl.
  - split; [done|]. intros (j & r & Hj & _). by destruct j.
  - rewrite in_app_iff, IH. split.
    + intros [Hk|(j & r' & Hj & -> & Hp)].
      * destruct (p r) eqn:Hp; [|done]. destruct Hk as [<-|[]].
        exists 0%nat, r. split_and!; [done | lia | done].
      * exists (S j), r'. split_and!; [done | lia | done].
    + intros ([|j] & r' & Hj & -> & Hp); simpl in Hj.
      * injection Hj as <-. left. rewrite Hp. left. lia.
      * right. exists j, r'. split_and!; [done | lia | done].
Qed.

Lemma positions_from_sorted p rs i :
  StronglySorted lt (positions_from p rs i)
  /\ Forall (fun k => i <= k < i + length rs)%nat (positions_from p rs i).
Proof.
  revert i. induction rs as [|r rs IH]; intros i; simpl; [split; constructor|].
  destruct (IH (S i)) as [Hs Hb].
  assert (Hb' : Forall (fun k => (i <= k < i + S (length rs))%nat) (positions_from p rs (S i))).
  { eapply Forall_impl; [exact Hb|]. simpl. intros; lia. }
  destruct (p r); simpl; [|done]. split.
  - constructor; [done|]. eapply Forall_impl; [exact Hb|]. simpl. intros; lia.
  - constructor; [lia | done].
Qed.

(** One row, distinct headers: the column objects of the missing cells are
    updated once each, the others are left alone. *)
Lemma missing_cells_get r i hs o n h :
  NoDup hs ->
  Obj.get (fold_left (missing_cell r i) hs (o, n)).1 h
  = (if bool_decide (h ∈ hs) && isMissing (cell r h)
     then record_missing i <$> Obj.get o h else Obj.get o h).
Proof.
  intros Hnd. revert o n. induction hs as [|h0 hs IH]; intros o n; cbn [fold_left].
  - rewrite bool_decide_eq_false_2; [done|]. apply not_elem_of_nil.
  - apply NoDup_cons in Hnd as [Hh0 Hnd].
    unfold missing_cell at 2. cbn [fst snd].
    destruct (decide (h0 = h)) as [->|Hne].
    + rewrite (bool_decide_eq_true_2 (h ∈ h :: hs)) by apply list_elem_of_here.
      destruct (isMissing (cell r h)) eqn:Hm; rewrite IH by done;
        rewrite (bool_decide_eq_false_2 (h ∈ hs)) by done; cbn [andb]; [|done].
      rewrite get_alter. by rewrite String.eqb_refl.
    + rewrite (bool_decide_ext (h ∈ h0 :: hs) (h ∈ hs))
        by (rewrite elem_of_cons; split; [intros [?|?]; [congruence | done] | by right]).
      destruct (isMissing (cell r h0)); rewrite IH by done; [|done].
      rewrite get_alter. destruct (String.eqb_spec h0 h); [done|done].
Qed.

Lemma missing_cells_count r i hs o n :
  (fold_left (missing_cell r i) hs (o, n)).2 = (n + missing_in_row hs r)%nat.
Proof.
  unfold missing_in_row. revert o n. induction hs as [|h hs IH]; intros o n; simpl; [lia|].
  unfold missing_cell at 2. destruct (isMissing (cell r h)); simpl; rewrite IH; lia.
Qed.

(** All rows: the positions of the missing cells are appended in row order. *)
Lemma missing_rows_get hs rs i o l h :
  NoDup hs -> In h hs ->
  let P := positions_from (fun r => isMissing (cell r h)) rs i in
  Obj.get (forEach_indexed (missing_row hs) rs i (o, l)).1 h
  = (fun c => MissingColumn.mk (MissingColumn.count c + length P) (MissingColumn.percentage c)
                               (MissingColumn.positions c ++ P))
    <$> Obj.get o h.
Proof.
  intros Hnd Hh. revert i o l. induction rs as [|r rs IH]; intros i o l; simpl.
  - destruct (Obj.get o h) as [[c p ps]|]; simpl; [|done].
    by rewrite Nat.add_0_r, app_nil_r.
  - unfold missing_row at 2. simpl.
    pose proof (missing_cells_get r i hs o 0%nat h Hnd) as Hget. simpl in Hget.
    destruct (fold_left (missing_cell r i) hs (o, 0%nat)) as [o' m]. simpl in Hget.
    rewrite bool_decide_eq_true_2 in Hget by (by apply list_elem_of_In). simpl in Hget.
    assert (Hstep : forall l', Obj.get (forEach_indexed (missing_row hs) rs (S i) (o', l')).1 h
                    = (fun c => MissingColumn.mk
                         (MissingColumn.count c
                          + length (positions_from (fun r => isMissing (cell r h)) rs (S i)))
                         (MissingColumn.percentage c)
                         (MissingColumn.positions c
                          ++ positions_from (fun r => isMissing (cell r h)) rs (S i)))
                      <$> Obj.get o' h) by (intros; apply IH).
    destruct (0 <? m)%nat; simpl; rewrite Hstep, Hget;
      destruct (isMissing (cell r h)), (Obj.get o h) as [[c p ps]|]; simpl; try done.
    all: f_equal; f_equal; rewrite ?length_app; simpl; rewrite <- ?app_assoc; simpl; try done; lia.
Qed.

Lemma set_percentages_get n hs o h :
  In h hs ->
  Obj.get (fold_left (fun o header => Obj.alter (set_percentage n) header o) hs o) h
  = set_percentage n <$> Obj.get o h.
Proof.
  intros Hh.
  assert (Hidem : forall c, set_percentage n (set_percentage n c) = set_percentage n c) by done.
  assert (Hkeep : forall hs o,
            Obj.get o h = set_percentage n <$> Obj.get o h ->
            Obj.get (fold_left (fun o header => Obj.alter (set_percentage n) header o) hs o) h
            = Obj.get o h).
  { clear hs o Hh. intros hs. induction hs as [|h0 hs IH]; intros o Ho; simpl; [done|].
    assert (E : Obj.get (Obj.alter (set_percentage n) h0 o) h = Obj.get o h).
    { rewrite get_alter. destruct (String.eqb h0 h); [by rewrite <- Ho | done]. }
    rewrite IH; [exact E | by rewrite E]. }
  revert o. induction hs as [|h0 hs IH]; intros o; simpl; [done|].
  destruct (decide (h0 = h)) as [->|Hne].
  - rewrite Hkeep; rewrite get_alter, String.eqb_refl; [done|].
    by destruct (Obj.get o h).
  - destruct Hh as [?|Hh]; [done|]. rewrite IH by done. rewrite get_alter.
    by destruct (String.eqb_spec h0 h).
Qed.

Lemma missing_column_get d h :
  NoDup (headers d) -> In h (headers d) ->
  Obj.get (MissingReport.byColumn (findMissingValues d)) h
  = Some (MissingColumn.mk
            (length (missing_positions d h))
            (Num.of_nat (length (missing_positions d h)) / Num.of_nat (length (rows d)) * Fin 100)%num
            (missing_positions d h)).
Proof.
  intros Hnd Hh. unfold findMissingValues.
  pose proof (missing_rows_get (headers d) (rows d) 0 (missing_init (headers d)) [] h Hnd Hh)
    as Hget.
  destruct (forEach_indexed _ _ _ _) as [counted byRow]. simpl in Hget.
  cbn [MissingReport.byColumn]. rewrite set_percentages_get by done. rewrite Hget.
  unfold missing_init. rewrite (get_built (fun _ => MissingColumn.mk 0 (Fin 0) [])) by done.
  reflexivity.
Qed.

End MissingValues.

Section MissingTotals.
Context {host : Host}.

Lemma partition_perm {A} (f : A -> bool) (l : list A) :
  Permutation (List.filter f l ++ List.filter (fun x => negb (f x)) l) l.
Proof.
  induction l as [|x l IH]; simpl; [done|].
  destruct (f x); simpl.
  - by constructor.
  - rewrite <- Permutation_middle. by constructor.
Qed.

Lemma entries_perm {A} (o : jsobj A) : Permutation (Obj.entries o) o.
Proof.
  unfold Obj.entries. rewrite stable_sort_perm. apply partition_perm.
Qed.

Lemma list_sum_perm (l1 l2 : list nat) : Permutation l1 l2 -> list_sum l1 = list_sum l2.
Proof. induction 1; simpl; lia. Qed.

Lemma fold_count_sum (l : list MissingColumn.t) (a : nat) :
  fold_left (fun sum col => (sum + MissingColumn.count col)%nat) l a
  = (a + list_sum (map MissingColumn.count l))%nat.
Proof. revert a. induction l as [|c l IH]; intros a; simpl; [lia|]. rewrite IH. lia. Qed.

Lemma counted_values (o : jsobj MissingColumn.t) :
  list_sum (map MissingColumn.count (Obj.values o)) = counted_sum o.
Proof.
  unfold Obj.values, counted_sum. rewrite map_map.
  apply list_sum_perm, Permutation_map, entries_perm.
Qed.

Lemma counted_alter_same (f : MissingColumn.t -> MissingColumn.t) k (o : jsobj MissingColumn.t) :
  (forall c, MissingColumn.count (f c) = MissingColumn.count c) ->
  counted_sum (Obj.alter f k o) = counted_sum o.
Proof.
  intros Hf. unfold counted_sum. induction o as [|[a x] o IH]; simpl; [done|].
  destruct (String.eqb a k); simpl; [by rewrite Hf | by rewrite IH].
Qed.

Lemma counted_record i k (o : jsobj MissingColumn.t) :
  In k (map fst o) -> counted_sum (Obj.alter (record_missing i) k o) = S (counted_sum o).
Proof.
  unfold counted_sum. induction o as [|[a x] o IH]; simpl; [done|]. intros Hk.
  destruct (String.eqb_spec a k) as [->|Hne]; simpl; [done|].
  rewrite IH; [lia|]. by destruct Hk.
Qed.

Lemma missing_cells_counted r i hs (o : jsobj MissingColumn.t) n :
  (forall h, In h hs -> In h (map fst o)) ->
  counted_sum (fold_left (missing_cell r i) hs (o, n)).1 = (counted_sum o + missing_in_row hs r)%nat
  /\ map fst (fold_left (missing_cell r i) hs (o, n)).1 = map fst o.
Proof.
  unfold missing_in_row. revert o n.
  induction hs as [|h hs IH]; intros o n Hkeys; cbn [fold_left]; [simpl; split; [lia | done]|].
  assert (E : missing_cell r i (o, n) h
              = if isMissing (cell r h) then (Obj.alter (record_missing i) h o, S n) else (o, n))
    by done.
  rewrite E. clear E. cbn [List.filter].
  destruct (isMissing (cell r h)); cbn [length].
  - destruct (IH (Obj.alter (record_missing i) h o) (S n)) as [Hc Hk].
    { intros h' Hh'. rewrite keys_alter. apply Hkeys. by right. }
    split.
    + etrans; [exact Hc|]. rewrite counted_record by (apply Hkeys; by left). lia.
    + etrans; [exact Hk|]. apply keys_alter.
  - apply IH. intros h' Hh'. apply Hkeys. by right.
Qed.

Lemma missing_rows_counted hs rs i (o : jsobj MissingColumn.t) l :
  (forall h, In h hs -> In h (map fst o)) ->
  counted_sum (forEach_indexed (missing_row hs) rs i (o, l)).1
  = (counted_sum o + list_sum (map (missing_in_row hs) rs))%nat.
Proof.
  revert i o l. induction rs as [|r rs IH]; intros i o l Hkeys;
    cbn [forEach_indexed map list_sum]; [simpl; lia|].
  destruct (missing_cells_counted r i hs o 0%nat Hkeys) as [Hc Hk].
  assert (E : exists l', missing_row hs (o, l) r i
                         = ((fold_left (missing_cell r i) hs (o, 0%nat)).1, l')).
  { unfold missing_row. cbn [fst snd].
    destruct (fold_left (missing_cell r i) hs (o, 0%nat)) as [o' m].
    destruct (0 <? m)%nat; by eexists. }
  destruct E as [l' ->].
  etrans; [apply IH; intros h Hh; rewrite Hk; by apply Hkeys|].
  rewrite Hc. simpl. lia.
Qed.

Lemma get_in_keys {A} (o : jsobj A) k : is_Some (Obj.get o k) -> In k (map fst o).
Proof.
  induction o as [|[a x] o IH]; simpl; [by intros [? ?]|].
  destruct (String.eqb_spec a k) as [->|]; [by left | right; by apply IH].
Qed.

Lemma missing_init_counted hs : counted_sum (missing_init hs) = 0%nat.
Proof.
  assert (H : Forall (fun kv : string * MissingColumn.t => MissingColumn.count kv.2 = 0%nat)
                     (missing_init hs)).
  { unfold missing_init.
    apply (fold_left_invariant (fun o : jsobj MissingColumn.t =>
             Forall (fun kv => MissingColumn.count kv.2 = 0%nat) o)); [|done].
    intros o h Ho. by apply (Forall_set (fun c => MissingColumn.count c = 0%nat)). }
  unfold counted_sum. induction H as [|kv o Hkv Ho IH]; simpl; [done|]. by rewrite Hkv, IH.
Qed.

Lemma missing_counted d :
  counted_sum (MissingReport.byColumn (findMissingValues d))
  = missing_cells d.
Proof.
  unfold findMissingValues, missing_cells.
  pose proof (missing_rows_counted (headers d) (rows d) 0 (missing_init (headers d)) []) as Hc.
  destruct (forEach_indexed _ _ _ _) as [counted' byRow]. simpl in Hc.
  cbn [MissingReport.byColumn].
  transitivity (counted_sum counted').
  - apply (fold_left_invariant
             (fun o : jsobj MissingColumn.t => counted_sum o = counted_sum counted')); [|done].
    intros o h Ho. by rewrite counted_alter_same.
  - rewrite Hc, missing_init_counted; [done|].
    intros h Hh. by apply get_in_keys, missing_init_has.
Qed.

Lemma missing_total d :
  MissingReport.total (findMissingValues d) = missing_cells d.
Proof.
  rewrite <- missing_counted, <- counted_values.
  unfold findMissingValues. destruct (forEach_indexed _ _ _ _) as [c b].
  cbn [MissingReport.total MissingReport.byColumn]. by rewrite fold_count_sum.
Qed.

Lemma list_sum_zero (l : list nat) : list_sum l = 0%nat <-> Forall (fun n => n = 0%nat) l.
Proof.
  induction l as [|n l IH]; simpl; [split; [constructor | done]|].
  rewrite Forall_cons, <- IH. lia.
Qed.

Lemma total_zero_complete d :
  MissingReport.total (findMissingValues d) = 0%nat <-> complete d.
Proof.
  rewrite missing_total. unfold missing_cells.
  rewrite list_sum_zero, List.Forall_forall. unfold complete, missing_in_row.
  split.
  - intros H r h Hr Hh. specialize (H _ (in_map _ _ _ Hr)).
    apply length_zero_iff_nil in H.
    destruct (isMissing (cell r h)) eqn:E; [|done].
    assert (Hin : In h (List.filter (fun header => isMissing (cell r header)) (headers d)))
      by (apply filter_In; done).
    by rewrite H in Hin.
  - intros H n Hn. apply in_map_iff in Hn as (r & <- & Hr).
    apply length_zero_iff_nil.
    destruct (List.filter _ _) as [|h l] eqn:E; [done|].
    assert (Hin : In h (List.filter (fun header => isMissing (cell r header)) (headers d)))
      by (rewrite E; by left).
    apply filter_In in Hin as [Hh Hm]. by rewrite (H r h Hr Hh) in Hm.
Qed.

Lemma columns_with_missing_zero (l : list MissingColumn.t) :
  list_sum (map MissingColumn.count l) = 0%nat ->
  List.filter (fun col => (0 <? MissingColumn.count col)%nat) l = [].
Proof.
  induction l as [|c l IH]; simpl; [done|]. intros H.
  destruct (Nat.ltb_spec 0 (MissingColumn.count c)); [lia|]. apply IH. lia.
Qed.

Lemma completeness_100_iff d :
  rows d <> [] -> headers d <> [] ->
  Num.eqb (MissingReport.completenessScore (findMissingValues d)) (Fin 100) = true
  <-> complete d.
Proof.
  intros Hr Hh. rewrite <- total_zero_complete.
  apply nonempty_length in Hr, Hh.
  unfold findMissingValues. destruct (forEach_indexed _ _ _ _) as [c b].
  cbn [MissingReport.completenessScore MissingReport.total].
  set (vals := Obj.values _). rewrite fold_count_sum. simpl (0 + _)%nat.
  set (t := list_sum (map MissingColumn.count vals)).
  set (w := length (List.filter _ vals)).
  assert (Hcells : (0 < length (headers d) * length (rows d))%nat) by nia.
  rewrite !of_nat_div by done. simpl.
  pose proof (inject_nat_pos _ Hcells) as Hc. pose proof (inject_nat_pos _ Hh) as Hhp.
  pose proof (inject_nat_nonneg t) as Ht. pose proof (inject_nat_nonneg w) as Hw.
  set (x := inject_Z (Z.of_nat t) / inject_Z (Z.of_nat (length (headers d) * length (rows d)))).
  set (y := inject_Z (Z.of_nat w) / inject_Z (Z.of_nat (length (headers d)))).
  assert (Hy : 0 <= y) by (apply Qle_shift_div_l; [done | lra]).
  assert (Hx : 0 <= x) by (apply Qle_shift_div_l; [done | lra]).
  split.
  - intros E. destruct (decide (t = 0%nat)) as [|Hne]; [done|]. exfalso.
    assert (0 < x).
    { apply Qlt_shift_div_l; [done|]. assert (0 < inject_Z (Z.of_nat t)) by (apply inject_nat_pos; lia). lra. }
    unfold Num.max, Num.ltb in E. destruct (Num.Qltb _ _) eqn:E'; simpl in E;
      apply Qeq_bool_iff in E.
    + lra.
    + lra.
  - intros E. subst x y.
    assert (w = 0%nat) as ->.
    { subst w. by rewrite columns_with_missing_zero. }
    rewrite E. unfold Num.max, Num.ltb. destruct (Num.Qltb _ _) eqn:E'; simpl; apply Qeq_bool_iff.
    + unfold Qdiv. change (inject_Z (Z.of_nat 0)) with 0. lra.
    + apply Qltb_false in E'. revert E'. unfold Qdiv. change (inject_Z (Z.of_nat 0)) with 0. lra.
Qed.

End MissingTotals.

Section MissingRows.
Context {host : Host}.

Lemma missing_row_eq hs (o : jsobj MissingColumn.t) l r i :
  missing_row hs (o, l) r i
  = ((fold_left (missing_cell r i) hs (o, 0%nat)).1,
     l ++ (if (0 <? missing_in_row hs r)%nat
           then [MissingRow.mk i (missing_in_row hs r)
                   (Num.of_nat (missing_in_row hs r) / Num.of_nat (length hs) * Fin 100)%num]
           else [])).
Proof.
  unfold missing_row. cbn [fst snd].
  pose proof (missing_cells_count r i hs o 0%nat) as Hm.
  destruct (fold_left (missing_cell r i) hs (o, 0%nat)) as [o' m].
  simpl in Hm. subst m. cbn [fst].
  destruct (0 <? missing_in_row hs r)%nat; [done | by rewrite app_nil_r].
Qed.

Lemma missing_rows_listed hs rs i (o : jsobj MissingColumn.t) l e :
  In e (forEach_indexed (missing_row hs) rs i (o, l)).2
  <-> In e l
      \/ exists j r, rs !! j = Some r /\ (0 < missing_in_row hs r)%nat
           /\ e = MissingRow.mk (i + j) (missing_in_row hs r)
                    (Num.of_nat (missing_in_row hs r) / Num.of_nat (length hs) * Fin 100)%num.
Proof.
  revert i o l. induction rs as [|r rs IH]; intros i o l; cbn [forEach_indexed].
  - simpl. split; [by left | intros [H | (j & r & H & _)]; [done | by destruct j]].
  - rewrite missing_row_eq, IH, in_app_iff. split.
    + intros [[H | H] | (j & r' & Hj & Hpos & ->)].
      * by left.
      * right. exists 0%nat, r. destruct (Nat.ltb_spec 0 (missing_in_row hs r)); [|done].
        destruct H as [<- | []]. rewrite Nat.add_0_r. done.
      * right. exists (S j), r'. split_and!; [done | done |]. f_equal. lia.
    + intros [H | (j & r' & Hj & Hpos & ->)]; [by left; left|].
      destruct j as [|j]; simpl in Hj.
      * injection Hj as ->. left. right.
        destruct (Nat.ltb_spec 0 (missing_in_row hs r')); [|lia].
        left. by rewrite Nat.add_0_r.
      * right. exists j, r'. split_and!; [done | done |]. f_equal. lia.
Qed.

Lemma missing_rows_indices hs rs i (o : jsobj MissingColumn.t) l :
  map MissingRow.rowIndex (forEach_indexed (missing_row hs) rs i (o, l)).2
  = map MissingRow.rowIndex l
    ++ positions_from (fun r => (0 <? missing_in_row hs r)%nat) rs i.
Proof.
  revert i o l. induction rs as [|r rs IH]; intros i o l; cbn [forEach_indexed positions_from].
  - by rewrite app_nil_r.
  - rewrite missing_row_eq, IH, map_app, <- app_assoc. do 2 f_equal.
    by destruct (0 <? missing_in_row hs r)%nat.
Qed.

Lemma findMissingValues_byRow d :
  MissingReport.byRow (findMissingValues d)
  = (forEach_indexed (missing_row (headers d)) (rows d) 0%nat (missing_init (headers d), [])).2.
Proof.
  unfold findMissingValues. by destruct (forEach_indexed _ _ _ _).
Qed.

End MissingRows.

Section DuplicateOrder.
Context {host : Host}.

Lemma sorted_snoc (l : list nat) i :
  StronglySorted lt l -> Forall (fun k => k < i)%nat l -> StronglySorted lt (l ++ [i]).
Proof.
  induction 1 as [|x l Hl IH Hx]; intros Hb; simpl.
  - repeat constructor.
  - apply Forall_cons in Hb as [Hxi Hb]. constructor; [by apply IH|].
    apply Forall_app. split; [done | by repeat constructor].
Qed.

Lemma sorted_bounded_length (l : list nat) a b :
  StronglySorted lt l -> Forall (fun k => a <= k < b)%nat l -> (length l <= b - a)%nat.
Proof.
  intros Hs. revert a. induction Hs as [|x l Hl IH Hx]; intros a Hb; simpl; [lia|].
  apply Forall_cons in Hb as [Hxa Hb].
  assert (Hb' : Forall (fun k => S x <= k < b)%nat l).
  { rewrite List.Forall_forall in *. intros k Hk. specialize (Hx k Hk). specialize (Hb k Hk). lia. }
  specialize (IH (S x) Hb'). lia.
Qed.

Lemma duplicate_loop_sorted hs rest i (seen : gmap string nat) acc :
  StronglySorted lt (map DuplicateEntry.duplicateRow acc) ->
  Forall (fun k => k < i)%nat (map DuplicateEntry.duplicateRow acc) ->
  StronglySorted lt
    (map DuplicateEntry.duplicateRow (forEach_indexed (duplicate_step hs) rest i (seen, acc)).2)
  /\ Forall (fun k => k < i + length rest)%nat
       (map DuplicateEntry.duplicateRow (forEach_indexed (duplicate_step hs) rest i (seen, acc)).2).
Proof.
  revert i seen acc. induction rest as [|r rest IH]; intros i seen acc Hs Hb; cbn [forEach_indexed].
  - simpl. split; [done|]. eapply Forall_impl; [exact Hb|]. simpl. intros; lia.
  - assert (Hweak : forall l : list nat, Forall (fun k => k < i)%nat l -> Forall (fun k => k < S i)%nat l).
    { intros l Hl. eapply Forall_impl; [exact Hl|]. simpl. intros; lia. }
    replace (i + length (r :: rest))%nat with (S i + length rest)%nat by (simpl; lia).
    unfold duplicate_step at 2 4. cbn [fst snd].
    destruct (seen !! rowHash hs r) as [orig|].
    + apply IH; rewrite map_app; simpl.
      * by apply sorted_snoc.
      * apply Forall_app. split; [by apply Hweak | repeat constructor].
    + apply IH; [done | by apply Hweak].
Qed.

Lemma duplicate_rows_sorted d :
  StronglySorted lt (map DuplicateEntry.duplicateRow (find_duplicate_rows d)).
Proof.
  unfold find_duplicate_rows. apply duplicate_loop_sorted; constructor.
Qed.

Lemma first_with_same hs rs i r :
  rs !! i = Some r ->
  exists o r0, first_with hs rs (rowHash hs r) = Some o /\ (o <= i)%nat
               /\ rs !! o = Some r0 /\ rowHash hs r0 = rowHash hs r.
Proof.
  intros Hi. destruct (first_with_is_Some hs _ _ _ Hi) as (o & Ho & Hle).
  destruct (first_with_minimal _ _ _ _ Ho) as [(r0 & Hr0 & Hh) _]. eauto 10.
Qed.

(** A row is listed exactly when an earlier row has its fingerprint. *)
Lemma duplicate_rows_listed d j :
  In j (map DuplicateEntry.duplicateRow (find_duplicate_rows d))
  <-> exists i ri rj, (i < j)%nat /\ rows d !! i = Some ri /\ rows d !! j = Some rj
                      /\ rowHash (headers d) ri = rowHash (headers d) rj.
Proof.
  rewrite in_map_iff. split.
  - intros (e & <- & He). apply find_duplicate_rows_spec in He as (r & Hk & _ & Hf & Hlt).
    destruct (first_with_minimal _ _ _ _ Hf) as [(r0 & Hr0 & Hh) _]. eauto 10.
  - intros (i & ri & rj & Hij & Hi & Hj & Hh).
    destruct (first_with_same (headers d) _ _ _ Hi) as (o & r0 & Ho & Hle & _).
    exists (DuplicateEntry.mk o j rj). split; [done|].
    apply find_duplicate_rows_spec. exists rj. simpl.
    split_and!; [done | done | by rewrite <- Hh | lia].
Qed.

Lemma duplicate_rows_none d :
  find_duplicate_rows d = [] <-> NoDup (map (rowHash (headers d)) (rows d)).
Proof.
  rewrite NoDup_alt. split.
  - intros Hnil i j h Hi Hj.
    apply list_lookup_fmap_Some in Hi as (ri & Hhi & Hi).
    apply list_lookup_fmap_Some in Hj as (rj & Hhj & Hj).
    destruct (Nat.lt_trichotomy i j) as [Hlt | [-> | Hlt]]; [|done|]; exfalso.
    + assert (Hin : In j (map DuplicateEntry.duplicateRow (find_duplicate_rows d))).
      { apply duplicate_rows_listed. exists i, ri, rj. split_and!; [done | done | done | congruence]. }
      by rewrite Hnil in Hin.
    + assert (Hin : In i (map DuplicateEntry.duplicateRow (find_duplicate_rows d))).
      { apply duplicate_rows_listed. exists j, rj, ri. split_and!; [done | done | done | congruence]. }
      by rewrite Hnil in Hin.
  - intros Hnd. destruct (find_duplicate_rows d) as [|e l] eqn:E; [done|]. exfalso.
    assert (Hin : In (DuplicateEntry.duplicateRow e)
                     (map DuplicateEntry.duplicateRow (find_duplicate_rows d)))
      by (rewrite E; by left).
    apply duplicate_rows_listed in Hin as (i & ri & rj & Hij & Hi & Hj & Hh).
    assert (i = DuplicateEntry.duplicateRow e); [|lia].
    apply (Hnd i (DuplicateEntry.duplicateRow e) (rowHash (headers d) ri)).
    + by rewrite list_lookup_fmap, Hi.
    + by rewrite list_lookup_fmap, Hj, Hh.
Qed.

Lemma duplicate_rows_bound d :
  rows d <> [] -> (length (find_duplicate_rows d) < length (rows d))%nat.
Proof.
  intros Hne%nonempty_length.
  assert (Hb : Forall (fun k => 1 <= k < length (rows d))%nat
                      (map DuplicateEntry.duplicateRow (find_duplicate_rows d))).
  { apply List.Forall_forall. intros j Hj.
    apply duplicate_rows_listed in Hj as (i & ri & rj & Hij & Hi & Hj & _).
    apply lookup_lt_Some in Hj. lia. }
  pose proof (sorted_bounded_length _ _ _ (duplicate_rows_sorted d) Hb) as Hlen.
  rewrite length_map in Hlen. lia.
Qed.

End DuplicateOrder.

Section TypeDetection.
Context {host : Host}.

Lemma count_type_total l :
  (count_type TNumber l + count_type TString l + count_type TBoolean l + count_type TDate l
   = length l)%nat.
Proof.
  unfold count_type. induction l as [|v l IH]; simpl; [done|].
  pose proof (classify_not_empty v).
  destruct (classify v); simpl; try done; lia.
Qed.

Lemma count_type_pos ty l :
  (0 < count_type ty l)%nat <-> exists v, In v l /\ classify v = ty.
Proof.
  unfold count_type. split.
  - intros Hpos. destruct (List.filter _ l) as [|v l'] eqn:E; [simpl in Hpos; lia|].
    assert (Hin : In v (List.filter (fun v => bool_decide (classify v = ty)) l))
      by (rewrite E; by left).
    apply filter_In in Hin as [Hv Hc]. apply bool_decide_eq_true in Hc. eauto.
  - intros (v & Hv & Hc).
    assert (Hin : In v (List.filter (fun v => bool_decide (classify v = ty)) l)).
    { apply filter_In. split; [done|]. by apply bool_decide_eq_true. }
    destruct (List.filter _ l); [done | simpl; lia].
Qed.

Lemma count_type_le ty l : (count_type ty l <= length l)%nat.
Proof. unfold count_type. apply filter_length_le. Qed.

Lemma detectDataType_empty values :
  List.filter not_blank values = [] ->
  detectDataType values = TypeInfo.mk TEmpty (Fin 1) true None.
Proof. intros E. unfold detectDataType. by rewrite E. Qed.

Lemma detectDataType_mixed values :
  List.filter not_blank values <> [] ->
  TypeInfo.mixedTypes (detectDataType values)
  = Some (1 <? length (List.filter (fun n => (0 <? n)%nat)
                         [count_type TNumber (List.filter not_blank values);
                          count_type TString (List.filter not_blank values);
                          count_type TBoolean (List.filter not_blank values);
                          count_type TDate (List.filter not_blank values)]))%nat.
Proof.
  intros Hne. unfold detectDataType.
  destruct (length (List.filter not_blank values) =? 0)%nat eqn:Hlen.
  { apply Nat.eqb_eq, length_zero_iff_nil in Hlen. done. }
  cbn [TypeInfo.mixedTypes].
  destruct (tally_counts (List.filter not_blank values)
              {| numberCount := 0; stringCount := 0; booleanCount := 0; dateCount := 0 |})
    as (Hn & Hs & Hb & Hd).
  simpl in Hn, Hs, Hb, Hd.
  unfold type_entries. cbn [List.filter te_count]. rewrite Hn, Hs, Hb, Hd.
  by repeat (destruct (0 <? _)%nat).
Qed.

Lemma two_types_mixed (l : list value) :
  (1 <? length (List.filter (fun n => (0 <? n)%nat)
                  [count_type TNumber l; count_type TString l;
                   count_type TBoolean l; count_type TDate l]))%nat = true
  <-> exists v w, In v l /\ In w l /\ classify v <> classify w.
Proof.
  split.
  - intros H. cbn [List.filter] in H.
    destruct (Nat.ltb_spec 0 (count_type TNumber l)) as [Hn|Hn];
    destruct (Nat.ltb_spec 0 (count_type TString l)) as [Hs|Hs];
    destruct (Nat.ltb_spec 0 (count_type TBoolean l)) as [Hb|Hb];
    destruct (Nat.ltb_spec 0 (count_type TDate l)) as [Hd|Hd];
    simpl in H; try discriminate H;
    repeat match goal with
           | Hp : (0 < count_type _ l)%nat |- _ =>
               apply count_type_pos in Hp as (? & ? & ?)
           end;
    match goal with
    | H1 : classify ?v = ?t1, H2 : classify ?w = ?t2 |- _ =>
        exists v, w; split_and!; [done | done | congruence]
    end.
  - intros (v & w & Hv & Hw & Hne).
    assert (H1 : (0 < count_type (classify v) l)%nat) by (apply count_type_pos; eauto).
    assert (H2 : (0 < count_type (classify w) l)%nat) by (apply count_type_pos; eauto).
    pose proof (classify_not_empty v). pose proof (classify_not_empty w).
    cbn [List.filter].
    destruct (classify v), (classify w); try done;
      repeat match goal with
             | Hp : (0 < ?n)%nat |- context [(0 <? ?n)%nat] =>
                 rewrite (proj2 (Nat.ltb_lt 0 n) Hp)
             end;
      repeat (destruct (0 <? _)%nat); reflexivity.
Qed.

Lemma confidence_ratio values :
  List.filter not_blank values <> [] ->
  exists c n : nat,
    TypeInfo.confidence (detectDataType values)
    = Fin (inject_Z (Z.of_nat c) / inject_Z (Z.of_nat n))
    /\ c = count_type (TypeInfo.type (detectDataType values)) (List.filter not_blank values)
    /\ n = length (List.filter not_blank values)
    /\ (0 < n)%nat /\ (c <= n)%nat /\ (n <= 4 * c)%nat.
Proof.
  intros Hne. destruct (dominant_type_spec values Hne) as (_ & Hmax & _ & Hconf).
  simpl in Hmax, Hconf.
  exists (count_type (TypeInfo.type (detectDataType values)) (List.filter not_blank values)),
         (length (List.filter not_blank values)).
  pose proof (nonempty_length _ Hne) as Hpos.
  split_and!; try done.
  - etrans; [exact Hconf|]. by apply of_nat_div.
  - apply count_type_le.
  - pose proof (count_type_total (List.filter not_blank values)).
    pose proof (Hmax TNumber). pose proof (Hmax TString).
    pose proof (Hmax TBoolean). pose proof (Hmax TDate). lia.
Qed.

Lemma confidence_bounds values :
  List.filter not_blank values <> [] ->
  exists q, TypeInfo.confidence (detectDataType values) = Fin q /\ 1 # 4 <= q /\ q <= 1.
Proof.
  intros Hne. destruct (confidence_ratio values Hne) as (c & n & Hconf & _ & _ & Hn & Hcn & Hnc).
  eexists. split; [exact Hconf|].
  pose proof (inject_nat_pos _ Hn) as Hpos.
  assert (H4 : inject_Z (Z.of_nat n) <= 4 * inject_Z (Z.of_nat c)).
  { change 4 with (inject_Z 4). rewrite <- inject_Z_mult, <- Zle_Qle. lia. }
  assert (H1 : inject_Z (Z.of_nat c) <= inject_Z (Z.of_nat n)) by (rewrite <- Zle_Qle; lia).
  split.
  - apply Qle_shift_div_l; [done | lra].
  - apply Qle_shift_div_r; [done | lra].
Qed.

Lemma confidence_one_iff values :
  List.filter not_blank values <> [] ->
  Num.eqb (TypeInfo.confidence (detectDataType values)) (Fin 1) = true
  <-> TypeInfo.mixedTypes (detectDataType values) = Some false.
Proof.
  intros Hne. destruct (confidence_ratio values Hne) as (c & n & Hconf & Hc & Hlen & Hn & Hcn & Hnc).
  rewrite Hconf, detectDataType_mixed by done. simpl Num.eqb.
  pose proof (inject_nat_pos _ Hn) as Hpos.
  set (l := List.filter not_blank values) in *.
  pose proof (count_type_total l) as Htot. rewrite <- Hlen in Htot.
  destruct (dominant_type_spec values Hne) as (Hin & _). simpl in Hin. fold l in Hc.
  assert (Heq : Qeq_bool (inject_Z (Z.of_nat c) / inject_Z (Z.of_nat n)) 1 = true <-> c = n).
  { rewrite Qeq_bool_iff. split.
    - intros E. assert (E' : inject_Z (Z.of_nat c) == inject_Z (Z.of_nat n)).
      { rewrite <- (Qmult_div_r (inject_Z (Z.of_nat c)) (inject_Z (Z.of_nat n))) by lra.
        unfold Qdiv in E. unfold Qdiv. rewrite E. ring. }
      rewrite inject_Z_injective in E'. lia.
    - intros ->. field. lra. }
  rewrite Heq. cbn [List.filter].
  destruct (TypeInfo.type (detectDataType values));
    try solve [exfalso; simpl in Hin; intuition discriminate];
    destruct (Nat.ltb_spec 0 (count_type TNumber l));
    destruct (Nat.ltb_spec 0 (count_type TString l));
    destruct (Nat.ltb_spec 0 (count_type TBoolean l));
    destruct (Nat.ltb_spec 0 (count_type TDate l)); simpl;
    (split; [intros ?; first [reflexivity | exfalso; lia] | intros ?; first [lia | discriminate]]).
Qed.

Lemma filter_length_lt {B} (p : B -> bool) (l : list B) :
  (length (List.filter p l) <? length l)%nat = true <-> exists x, In x l /\ p x = false.
Proof.
  rewrite Nat.ltb_lt. induction l as [|x l IH]; simpl.
  - split; [lia | by intros (? & [] & _)].
  - pose proof (filter_length_le p l) as Hle. destruct (p x) eqn:E; simpl.
    + rewrite <- Nat.succ_lt_mono, IH. split.
      * intros (y & Hy & Hp). eauto.
      * intros (y & [-> | Hy] & Hp); [congruence | eauto].
    + split; [eauto | lia].
Qed.

Lemma detectDataType_type_empty values :
  TypeInfo.type (detectDataType values) = TEmpty <-> List.filter not_blank values = [].
Proof.
  split.
  - intros E. destruct (List.filter not_blank values) as [|v l] eqn:Hl; [done|]. exfalso.
    assert (Hne : List.filter not_blank values <> []) by (by rewrite Hl).
    destruct (dominant_type_spec values Hne) as (Hin & _). simpl in Hin.
    rewrite E in Hin. simpl in Hin. intuition discriminate.
  - intros E. by rewrite detectDataType_empty.
Qed.

Lemma detectDataType_nullable values :
  TypeInfo.nullable (detectDataType values) = true
  <-> values = [] \/ exists v, In v values /\ not_blank v = false.
Proof.
  unfold detectDataType.
  destruct (length (List.filter not_blank values) =? 0)%nat eqn:Hlen;
    cbn [TypeInfo.nullable].
  - apply Nat.eqb_eq, length_zero_iff_nil in Hlen. split; [intros _ | done].
    destruct values as [|v l]; [by left | right].
    exists v. split; [by left|]. simpl in Hlen. by destruct (not_blank v).
  - rewrite filter_length_lt. split; [by right|]. intros [-> | H]; [done | exact H].
Qed.

End TypeDetection.

Section StatisticsOrder.
Context {host : Host}.

Lemma at_index_nat (l : list number) (q : Q) (k : nat) :
  q == inject_Z (Z.of_nat k) -> at_index l (Fin q) = nth k l NaN.
Proof.
  intros E. unfold at_index.
  assert (Hf : Qfloor q = Z.of_nat k) by (rewrite E; apply Qfloor_Z).
  rewrite Hf, Nat2Z.id.
  assert (E1 : Qeq_bool (inject_Z (Z.of_nat k)) q = true) by (apply Qeq_bool_iff; by rewrite E).
  assert (E2 : Qle_bool 0 q = true).
  { apply Qle_bool_iff. rewrite E. apply inject_nat_nonneg. }
  by rewrite E1, E2.
Qed.

Lemma sorted_lookup_le (l : list number) i j x y :
  StronglySorted num_le l -> Forall not_NaN l -> (i <= j)%nat ->
  l !! i = Some x -> l !! j = Some y -> num_le x y.
Proof.
  intros Hs Hn Hij Hi Hj. destruct (decide (i = j)) as [->|Hne].
  - rewrite Hi in Hj. injection Hj as <-. apply num_le_refl.
    rewrite List.Forall_forall in Hn. apply Hn, list_elem_of_In. by eapply list_elem_of_lookup_2.
  - eapply (StronglySorted_lookup num_le l i j); [done | lia | done | done].
Qed.

(** The record returned, read off the ascending arrangement. *)
Lemma calculateStatistics_sorted values stats :
  calculateStatistics values = Some stats ->
  exists sorted,
    Permutation sorted (numeric_values values)
    /\ StronglySorted num_le sorted
    /\ Forall not_NaN sorted
    /\ Statistics.count stats = length sorted
    /\ (0 < length sorted)%nat
    /\ sorted !! 0%nat = Some (Statistics.min stats)
    /\ sorted !! (length sorted - 1)%nat = Some (Statistics.max stats)
    /\ sorted !! floor_index (length sorted) (1 # 4) = Some (Statistics.q1 stats)
    /\ sorted !! floor_index (length sorted) (1 # 2) = Some (Statistics.q2 stats)
    /\ sorted !! floor_index (length sorted) (3 # 4) = Some (Statistics.q3 stats)
    /\ Statistics.median stats = Statistics.q2 stats
    /\ Statistics.range stats = (Statistics.max stats - Statistics.min stats)%num.
Proof.
  unfold calculateStatistics.
  destruct (length (numeric_values values) =? 0)%nat eqn:Hlen; [done|].
  apply Nat.eqb_neq in Hlen. intros E. apply (inj Some) in E. subst stats.
  set (sorted := JS.sort_with (fun a b => (a - b)%num) (numeric_values values)).
  exists sorted.
  cbn [Statistics.count Statistics.min Statistics.max Statistics.q1 Statistics.q2
       Statistics.q3 Statistics.median Statistics.range].
  assert (Hperm : Permutation sorted (numeric_values values)) by apply sort_with_perm.
  assert (HN : (0 < length sorted)%nat) by (rewrite (Permutation_length Hperm); lia).
  assert (Hlast : (Num.of_nat (length sorted) - Fin 1)%num
                  = Fin (inject_Z (Z.of_nat (length sorted)) + - (1))) by done.
  split_and!.
  - exact Hperm.
  - apply sort_with_sub_sorted, numeric_values_not_NaN.
  - rewrite Hperm. apply numeric_values_not_NaN.
  - by rewrite (Permutation_length Hperm).
  - exact HN.
  - rewrite (at_index_nat sorted 0 0) by done. by apply lookup_nth_default.
  - rewrite Hlast, (at_index_nat sorted _ (length sorted - 1)).
    + apply lookup_nth_default. lia.
    + rewrite Nat2Z.inj_sub by lia. unfold Z.sub. rewrite inject_Z_plus. reflexivity.
  - rewrite at_index_floor by done. apply lookup_nth_default, floor_index_lt; done.
  - rewrite at_index_floor by done. apply lookup_nth_default, floor_index_lt; done.
  - rewrite at_index_floor by done. apply lookup_nth_default, floor_index_lt; done.
  - reflexivity.
  - reflexivity.
Qed.

Lemma not_negative_square x : not_negative (Num.pow x 2).
Proof.
  unfold not_negative. destruct x as [| | |a]; simpl; try done.
  apply Qltb_false. nra.
Qed.

Lemma not_negative_add x y : not_negative x -> not_negative y -> not_negative (x + y)%num.
Proof.
  unfold not_negative. destruct x as [| | |a], y as [| | |b]; simpl; try done.
  rewrite !Qltb_false. lra.
Qed.

Lemma not_negative_sum l acc :
  not_negative acc -> Forall not_negative l -> not_negative (fold_left Num.add l acc).
Proof.
  intros Ha Hl. revert acc Ha. induction Hl as [|x l Hx Hl IH]; intros acc Ha; simpl; [done|].
  apply IH. by apply not_negative_add.
Qed.

Lemma not_negative_div x n :
  (0 < n)%nat -> not_negative x -> not_negative (x / Num.of_nat n)%num.
Proof.
  intros Hn. pose proof (inject_nat_pos n Hn) as Hpos.
  unfold not_negative, Num.of_nat. destruct x as [| | |a]; simpl; try done.
  - rewrite of_nat_pos_nonzero by done. simpl.
    destruct (inject_Z (Z.of_nat n) ?= 0) eqn:E; try done.
    apply Qlt_alt in E. lra.
  - rewrite of_nat_pos_nonzero by done. simpl. rewrite !Qltb_false. intros Ha.
    apply Qle_shift_div_l; [done | lra].
Qed.

Lemma not_negative_difference x y :
  not_NaN x -> not_NaN y -> num_le x y -> not_negative (y - x)%num.
Proof.
  unfold not_NaN, num_le, not_negative.
  destruct x as [| | |a], y as [| | |b]; simpl; try done.
  rewrite !Qltb_false. lra.
Qed.

End StatisticsOrder.

Section Mode.
Context {host : Host}.

Lemma key_count_snoc k pre x :
  key_count k (pre ++ [x])
  = (key_count k pre + if String.eqb (JS.Number_toString x) k then 1 else 0)%nat.
Proof.
  unfold key_count. rewrite List.filter_app, length_app. simpl.
  by destruct (String.eqb _ k).
Qed.

Lemma mode_step_invariant pre st x :
  mode_invariant pre st -> mode_invariant (pre ++ [x]) (mode_step st x).
Proof.
  destruct st as [[freq maxFreq] mode]. unfold mode_invariant. cbn [fst snd].
  intros (Hfreq & Hmax & Hmode). unfold mode_step. cbv zeta.
  pose proof (fun k => key_count_snoc k pre x) as Hsnoc.
  remember (JS.Number_toString x) as key eqn:Ekey.
  assert (Hfreq' : forall k, default 0%nat (<[key := S (default 0%nat (freq !! key))]> freq !! k)
                             = key_count k (pre ++ [x])).
  { intros k. rewrite Hsnoc.
    destruct (String.eqb_spec key k) as [<-|Hne].
    - rewrite lookup_insert_eq. simpl. rewrite Hfreq. lia.
    - rewrite lookup_insert_ne by done. rewrite Hfreq. lia. }
  assert (Hkey : key_count key (pre ++ [x]) = S (default 0%nat (freq !! key))).
  { rewrite Hsnoc, String.eqb_refl, Hfreq. lia. }
  destruct (Nat.ltb_spec maxFreq (S (default 0%nat (freq !! key)))) as [Hlt|Hge]; cbn [fst snd].
  - split; [done|]. split.
    + intros k. rewrite Hsnoc. specialize (Hmax k). rewrite Hfreq in *.
      destruct (String.eqb_spec key k) as [<-|Hne]; lia.
    + split; [apply in_app_iff; right; by left | rewrite <- Ekey; exact Hkey].
  - split; [done|]. split.
    + intros k. rewrite Hsnoc. specialize (Hmax k).
      destruct (String.eqb_spec key k) as [<-|Hne]; [|lia].
      rewrite Hfreq in Hge. lia.
    + destruct mode as [m|].
      * destruct Hmode as [Hin Hm]. split; [apply in_app_iff; by left|].
        rewrite Hsnoc.
        destruct (String.eqb_spec key (JS.Number_toString m)) as [E|Hne]; [|lia].
        rewrite Hfreq, E in Hge. lia.
      * destruct Hmode as [-> ->]. lia.
Qed.

Lemma mode_loop_invariant l pre st :
  mode_invariant pre st -> mode_invariant (pre ++ l) (fold_left mode_step l st).
Proof.
  revert pre st. induction l as [|x l IH]; intros pre st Hinv; simpl.
  - by rewrite app_nil_r.
  - replace (pre ++ x :: l) with ((pre ++ [x]) ++ l) by (by rewrite <- app_assoc).
    apply IH. by apply mode_step_invariant.
Qed.

Lemma calculateMode_invariant values :
  mode_invariant values (fold_left mode_step values (∅, 0%nat, None)).
Proof.
  apply (mode_loop_invariant values [] (∅, 0%nat, None)).
  unfold mode_invariant. cbn [fst snd]. split; [|done].
  intros k. by rewrite lookup_empty.
Qed.

End Mode.

Section StatisticsSigns.
Context {host : Host}.

Lemma calculateStatistics_signs values stats :
  calculateStatistics values = Some stats ->
  not_negative (Statistics.variance stats) /\ not_negative (Statistics.range stats).
Proof.
  intros Hstats. split.
  - revert Hstats. unfold calculateStatistics.
    destruct (length (numeric_values values) =? 0)%nat eqn:Hlen; [done|].
    apply Nat.eqb_neq in Hlen. intros E. apply (inj Some) in E. subst stats.
    cbn [Statistics.variance]. apply not_negative_div; [lia|].
    apply not_negative_sum.
    + unfold not_negative. simpl. apply Qltb_false. lra.
    + apply List.Forall_forall. intros y Hy. apply in_map_iff in Hy as (x & <- & _).
      apply not_negative_square.
  - destruct (calculateStatistics_sorted values stats Hstats)
      as (sorted & _ & Hsorted & Hnn & _ & HN & Hmin & Hmax & _ & _ & _ & _ & ->).
    assert (Hin : forall i x, sorted !! i = Some x -> not_NaN x).
    { intros i x Hx. rewrite List.Forall_forall in Hnn.
      apply Hnn, list_elem_of_In. by eapply list_elem_of_lookup_2. }
    apply not_negative_difference; [by eapply Hin | by eapply Hin |].
    eapply (sorted_lookup_le sorted 0 (length sorted - 1)); [done | done | lia | done | done].
Qed.

Lemma calculateStatistics_none values :
  calculateStatistics values = None <-> numeric_values values = [].
Proof.
  unfold calculateStatistics.
  destruct (length (numeric_values values) =? 0)%nat eqn:Hlen.
  - apply Nat.eqb_eq, length_zero_iff_nil in Hlen. done.
  - apply Nat.eqb_neq in Hlen. split; [done|]. intros E. by rewrite E in Hlen.
Qed.

End StatisticsSigns.

Section OutlierOrder.
Context {host : Host}.

Lemma outside_bounds q1 q3 x :
  not_NaN q1 -> not_NaN q3 -> num_le q1 q3 ->
  ((x <? q1 - Fin (3 # 2) * (q3 - q1))%num = true -> (x <? q1)%num = true)
  /\ ((x >? q3 + Fin (3 # 2) * (q3 - q1))%num = true -> (q3 <? x)%num = true).
Proof.
  unfold not_NaN, num_le, Num.gtb.
  destruct q1 as [| | |a], q3 as [| | |b]; try done;
    destruct x as [| | |c]; simpl; try done.
  intros _ _ Hab. apply Qltb_false in Hab. rewrite !Qltb_true. split; intros; lra.
Qed.

Lemma outlier_loop_sorted lo hi values i acc :
  StronglySorted lt (map Outlier.index acc) ->
  Forall (fun k => k < i)%nat (map Outlier.index acc) ->
  StronglySorted lt (map Outlier.index (forEach_indexed (outlier_step lo hi) values i acc))
  /\ Forall (fun k => k < i + length values)%nat
       (map Outlier.index (forEach_indexed (outlier_step lo hi) values i acc)).
Proof.
  revert i acc. induction values as [|v values IH]; intros i acc Hs Hb; cbn [forEach_indexed].
  - simpl. split; [done|]. eapply Forall_impl; [exact Hb|]. simpl. intros; lia.
  - assert (Hweak : forall l : list nat, Forall (fun k => k < i)%nat l -> Forall (fun k => k < S i)%nat l).
    { intros l Hl. eapply Forall_impl; [exact Hl|]. simpl. intros; lia. }
    replace (i + length (v :: values))%nat with (S i + length values)%nat by (simpl; lia).
    unfold outlier_step at 2 4.
    destruct (negb (Num.isNaN (to_numeric v)) && _).
    + apply IH; rewrite map_app; simpl.
      * by apply sorted_snoc.
      * apply Forall_app. split; [by apply Hweak | repeat constructor].
    + apply IH; [done | by apply Hweak].
Qed.

Lemma detectOutliers_sorted values :
  StronglySorted lt (map Outlier.index (OutlierReport.outliers (detectOutliers values)))
  /\ Forall (fun k => k < length values)%nat
       (map Outlier.index (OutlierReport.outliers (detectOutliers values))).
Proof.
  unfold detectOutliers. destruct (calculateStatistics values) as [stats|].
  - cbn [OutlierReport.outliers]. apply (outlier_loop_sorted _ _ values 0 []); constructor.
  - simpl. split; constructor.
Qed.

Lemma detectOutliers_count values :
  OutlierReport.count (detectOutliers values)
  = length (OutlierReport.outliers (detectOutliers values)).
Proof. unfold detectOutliers. by destruct (calculateStatistics values). Qed.

Lemma blank_not_numeric v : not_blank v = false -> Num.isNaN (to_numeric v) = true.
Proof.
  by destruct v as [| |b|n|[|c s]].
Qed.

Lemma flagged_is_numeric values k v :
  values !! k = Some v -> Num.isNaN (to_numeric v) = false ->
  In (to_numeric v) (numeric_values values).
Proof.
  intros Hk Hn. unfold numeric_values. apply filter_In. split; [|by rewrite Hn].
  apply in_map, filter_In. split.
  - apply list_elem_of_In. by eapply list_elem_of_lookup_2.
  - destruct (not_blank v) eqn:E; [done|]. by rewrite blank_not_numeric in Hn.
Qed.

Lemma outlier_outside_quartiles values stats o :
  calculateStatistics values = Some stats ->
  In o (OutlierReport.outliers (detectOutliers values)) ->
  In (Outlier.value o) (numeric_values values)
  /\ ((Outlier.type o = Low /\ (Outlier.value o <? Statistics.q1 stats)%num = true)
      \/ (Outlier.type o = High /\ (Statistics.q3 stats <? Outlier.value o)%num = true)).
Proof.
  intros Hstats Ho.
  destruct (detectOutliers_entry values o Ho) as (v & lo & hi & Hv & Hval & Hn & Hlo & Hhi & Hout & Ht).
  destruct (detectOutliers_bounds values lo hi Hlo Hhi) as (stats' & Hs' & -> & ->).
  rewrite Hstats in Hs'. injection Hs' as <-.
  destruct (quartiles_ordered values stats Hstats) as (N1 & N3 & Hle).
  destruct (outside_bounds (Statistics.q1 stats) (Statistics.q3 stats) (to_numeric v) N1 N3 Hle)
    as [Hlow Hhigh].
  rewrite Hval. split; [by eapply flagged_is_numeric|].
  destruct (to_numeric v <? _)%num eqn:E.
  - left. split; [done | by apply Hlow].
  - right. split; [done | apply Hhigh]. by rewrite orb_false_l in Hout.
Qed.

End OutlierOrder.

Section ConstantColumn.
Context {host : Host}.

Lemma equal_not_below a b x :
  Num.eqb a x = true -> Num.eqb b x = true -> (a <? b)%num = false.
Proof.
  destruct a as [| | |p], b as [| | |q], x as [| | |r]; simpl; try done.
  rewrite !Qeq_bool_iff, Qltb_false. intros -> ->. lra.
Qed.

Lemma quartiles_are_values values stats :
  calculateStatistics values = Some stats ->
  In (Statistics.q1 stats) (numeric_values values)
  /\ In (Statistics.q3 stats) (numeric_values values).
Proof.
  intros Hstats.
  destruct (calculateStatistics_sorted values stats Hstats)
    as (sorted & Hperm & _ & _ & _ & _ & _ & _ & H1 & _ & H3 & _).
  split; apply (Permutation_in _ Hperm), list_elem_of_In; by eapply list_elem_of_lookup_2.
Qed.

Lemma constant_no_outliers values x :
  (forall y, In y (numeric_values values) -> Num.eqb y x = true) ->
  OutlierReport.outliers (detectOutliers values) = [].
Proof.
  intros Hconst.
  destruct (OutlierReport.outliers (detectOutliers values)) as [|o l] eqn:E; [done|]. exfalso.
  assert (Ho : In o (OutlierReport.outliers (detectOutliers values))) by (rewrite E; by left).
  destruct (calculateStatistics values) as [stats|] eqn:Hstats.
  2:{ unfold detectOutliers in Ho. by rewrite Hstats in Ho. }
  destruct (quartiles_are_values values stats Hstats) as [Hq1 Hq3].
  destruct (outlier_outside_quartiles values stats o Hstats Ho) as (Hin & [[_ Hlt] | [_ Hlt]]).
  - by rewrite (equal_not_below _ _ x (Hconst _ Hin) (Hconst _ Hq1)) in Hlt.
  - by rewrite (equal_not_below _ _ x (Hconst _ Hq3) (Hconst _ Hin)) in Hlt.
Qed.

End ConstantColumn.

Section ResultStructure.
Context {host : Host}.

Lemma keys_set_in {A} (o : jsobj A) h v k :
  In k (map fst (Obj.set o h v)) -> In k (map fst o) \/ k = h.
Proof.
  induction o as [|[a x] o IH]; simpl.
  - intros [<- | []]. by right.
  - destruct (String.eqb a h); simpl; [tauto|]. intros [<- | Hk]; [tauto|].
    destruct (IH Hk); tauto.
Qed.

Lemma built_keys_in {A} (f : string -> A) hs (o : jsobj A) k :
  In k (map fst (fold_left (fun o h => Obj.set o h (f h)) hs o)) -> In k (map fst o) \/ In k hs.
Proof.
  revert o. induction hs as [|h hs IH]; intros o; simpl; [tauto|].
  intros Hk. destruct (IH _ Hk) as [Hk' | Hk']; [|tauto].
  apply keys_set_in in Hk' as [Hk' | ->]; tauto.
Qed.

Lemma entries_key_in {A} (o : jsobj A) kv : In kv (Obj.entries o) -> In kv.1 (map fst o).
Proof.
  intros Hin. apply in_map. by apply (Permutation_in _ (entries_perm o)).
Qed.

Lemma missing_keys_init d :
  map fst (MissingReport.byColumn (findMissingValues d)) = map fst (missing_init (headers d)).
Proof.
  set (K := map fst (missing_init (headers d))).
  unfold findMissingValues.
  pose proof (forEach_indexed_invariant
    (fun st : jsobj MissingColumn.t * list MissingRow.t => map fst st.1 = K)
    (missing_row (headers d)) (rows d) 0%nat (missing_init (headers d), [])) as Hinv.
  destruct (forEach_indexed _ _ _ _) as [counted byRow]. simpl in Hinv.
  cbn [MissingReport.byColumn].
  apply (fold_left_invariant (fun o : jsobj MissingColumn.t => map fst o = K)).
  { intros o h Ho. by rewrite keys_alter. }
  apply Hinv; [|done].
  intros [o l] r i Ho. rewrite missing_row_eq. cbn [fst] in *.
  destruct (missing_cells_counted r i (headers d) o 0%nat) as [_ Hk]; [|by rewrite Hk].
  intros h Hh. rewrite Ho. subst K. by apply get_in_keys, missing_init_has.
Qed.

Lemma missing_key_is_header d k :
  In k (map fst (MissingReport.byColumn (findMissingValues d))) -> In k (headers d).
Proof.
  rewrite missing_keys_init. unfold missing_init. intros Hk.
  by apply (built_keys_in (fun _ => MissingColumn.mk 0 (Fin 0) [])) in Hk as [[] | Hk].
Qed.

Lemma dataTypes_key_is_header d k : In k (map fst (analyzeDataTypes d)) -> In k (headers d).
Proof.
  unfold analyzeDataTypes. intros Hk.
  by apply (built_keys_in (fun h => detectDataType (column d h))) in Hk as [[] | Hk].
Qed.

Lemma columnStats_key_is_header d mv cs k :
  build_column_stats d mv (analyzeDataTypes d) = Some cs -> In k (map fst cs) -> In k (headers d).
Proof.
  rewrite build_column_stats_eq. intros [= <-] Hk.
  by apply (built_keys_in (fun h => column_stats_of d mv h (detectDataType (column d h))))
    in Hk as [[] | Hk].
Qed.

Lemma columnStats_get d mv cs h :
  build_column_stats d mv (analyzeDataTypes d) = Some cs -> In h (headers d) ->
  Obj.get cs h = Some (column_stats_of d mv h (detectDataType (column d h))).
Proof.
  rewrite build_column_stats_eq. intros [= <-] Hh.
  by apply (get_built (fun h => column_stats_of d mv h (detectDataType (column d h)))).
Qed.

Lemma pushed_missing_shape e i :
  In i (pushed_missing e) -> Issue.column i = Some e.1 /\ Issue.type i = Missing.
Proof.
  unfold pushed_missing, missing_issue_step. destruct e as [c data].
  destruct (0 <? _)%nat; simpl; [|done]. by intros [<- | []].
Qed.

Lemma pushed_mixed_shape e i :
  In i (pushed_mixed e) -> Issue.column i = Some e.1 /\ Issue.type i = Inconsistent.
Proof.
  unfold pushed_mixed, mixed_issue_step. destruct e as [c t].
  destruct (flag _); simpl; [|done]. by intros [<- | []].
Qed.

Lemma pushed_outlier_shape e i :
  In i (pushed_outlier e) -> Issue.column i = Some e.1 /\ Issue.type i = OutlierIssue.
Proof.
  unfold pushed_outlier, outlier_issue_step. destruct e as [c stats].
  destruct (ColumnStats.outliers stats) as [o|]; [|done].
  destruct (0 <? _)%nat; simpl; [|done]. by intros [<- | []].
Qed.

Lemma pushed_format_shape d e i :
  In i (pushed_format d e) -> Issue.column i = Some e.1 /\ Issue.type i = Format.
Proof.
  unfold pushed_format, format_issue_step. simpl.
  destruct (is_type TNumber e.2); [|done].
  rewrite !mapM_string_test by apply Forall_filter_true. simpl.
  destruct (_ && _); simpl; [|done]. by intros [<- | []].
Qed.

Lemma duplicate_issue_shape dup i :
  In i (duplicate_issue_step [] dup) ->
  Issue.column i = None /\ Issue.type i = Duplicate /\ (0 < DuplicateReport.count dup)%nat.
Proof.
  unfold duplicate_issue_step. destruct (Nat.ltb_spec 0 (DuplicateReport.count dup)); [|done].
  simpl. by intros [<- | []].
Qed.

Lemma issue_shape d r i :
  analyzeDataQuality d = Some r -> In i (QualityAnalysis.issues r) ->
  (Issue.column i = None /\ Issue.type i = Duplicate
   /\ (0 < DuplicateReport.count (findDuplicates d))%nat)
  \/ (exists h, Issue.column i = Some h /\ In h (headers d) /\ Issue.type i <> Duplicate).
Proof.
  intros Hres Hi.
  destruct (analyzeDataQuality_inv d r Hres)
    as (cs & vi & fi & fp & iss & Hcs & _ & _ & _ & Hiss & _ & _ & _ & _ & Hissues & _).
  rewrite generate_issues_eq in Hiss. injection Hiss as Hiss.
  rewrite Hissues, <- Hiss, !in_app_iff, !in_flat_map in Hi.
  destruct Hi as [(e & He & Hi) | [Hi | [(e & He & Hi) | [(e & He & Hi) | (e & He & Hi)]]]].
  - right. apply pushed_missing_shape in Hi as [Hc Ht]. exists e.1. split_and!; [done | | by rewrite Ht].
    by apply missing_key_is_header, entries_key_in.
  - left. by apply duplicate_issue_shape.
  - right. apply pushed_mixed_shape in Hi as [Hc Ht]. exists e.1. split_and!; [done | | by rewrite Ht].
    by apply dataTypes_key_is_header, entries_key_in.
  - right. apply pushed_format_shape in Hi as [Hc Ht]. exists e.1. split_and!; [done | | by rewrite Ht].
    eapply columnStats_key_is_header; [done|]. by apply entries_key_in.
  - right. apply pushed_outlier_shape in Hi as [Hc Ht]. exists e.1. split_and!; [done | | by rewrite Ht].
    eapply columnStats_key_is_header; [done|]. by apply entries_key_in.
Qed.

Lemma duplicate_issue_present d r :
  analyzeDataQuality d = Some r ->
  (0 < DuplicateReport.count (findDuplicates d))%nat ->
  exists i, In i (QualityAnalysis.issues r) /\ Issue.type i = Duplicate.
Proof.
  intros Hres Hpos.
  destruct (analyzeDataQuality_inv d r Hres)
    as (cs & vi & fi & fp & iss & Hcs & _ & _ & _ & Hiss & _ & _ & _ & _ & Hissues & _).
  rewrite generate_issues_eq in Hiss. injection Hiss as Hiss.
  rewrite Hissues, <- Hiss. unfold duplicate_issue_step.
  destruct (Nat.ltb_spec 0 (DuplicateReport.count (findDuplicates d))); [|lia].
  eexists. split; [apply in_app_iff; right; apply in_app_iff; left; by left | reflexivity].
Qed.

End ResultStructure.

Section NumberColumns.
Context {host : Host}.

Lemma number_value_numeric v :
  classify v = TNumber -> v <> VNum NaN -> Num.isNaN (to_numeric v) = false.
Proof.
  unfold classify. destruct (is_boolean v); [done|].
  destruct (is_number v) eqn:E; [|by destruct (isValidDate v)].
  intros _ Hv. destruct v as [| |b|n|s]; try (by simpl in E).
  all: try (simpl; destruct n; try done; by destruct Hv).
  all: unfold is_number in E; apply andb_true_iff in E as [_ E]; by apply negb_true_iff in E.
Qed.

Lemma number_column_numeric values :
  TypeInfo.type (detectDataType values) = TNumber ->
  ~ In (VNum NaN) values ->
  numeric_values values <> [].
Proof.
  intros Ht Hnan.
  assert (Hne : List.filter not_blank values <> []).
  { intros E. rewrite detectDataType_empty in Ht by done. discriminate Ht. }
  destruct (confidence_ratio values Hne) as (c & n & _ & Hc & _ & Hn & _ & Hnc).
  rewrite Ht in Hc.
  assert (Hpos : (0 < count_type TNumber (List.filter not_blank values))%nat) by lia.
  apply count_type_pos in Hpos as (v & Hv & Hcl).
  apply filter_In in Hv as [Hin Hb].
  assert (Hv : v <> VNum NaN) by (intros ->; by apply Hnan).
  pose proof (number_value_numeric v Hcl Hv) as Hnum.
  assert (Hmem : In (to_numeric v) (numeric_values values)).
  { unfold numeric_values. apply filter_In. split; [|by rewrite Hnum].
    apply in_map, filter_In. done. }
  intros E. by rewrite E in Hmem.
Qed.

End NumberColumns.

Section Summary.
Context {host : Host}.

Lemma analyzeDataQuality_summary d r :
  analyzeDataQuality d = Some r ->
  Summary.totalRows (QualityAnalysis.summary r) = length (rows d)
  /\ Summary.totalColumns (QualityAnalysis.summary r) = length (headers d)
  /\ Summary.totalCells (QualityAnalysis.summary r) = (length (rows d) * length (headers d))%nat
  /\ Summary.missingCells (QualityAnalysis.summary r) = MissingReport.total (findMissingValues d)
  /\ Summary.duplicateRows (QualityAnalysis.summary r) = DuplicateReport.count (findDuplicates d)
  /\ Summary.issueCount (QualityAnalysis.summary r) = length (QualityAnalysis.issues r).
Proof.
  unfold analyzeDataQuality. intros H.
  destruct (build_column_stats _ _ _) as [cs|] eqn:E1; simpl in H; [|done].
  destruct (fold_left (validity_step d) _ _) as [vi|] eqn:E2; simpl in H; [|done].
  destruct (fold_left (format_inconsistency_step d) _ _) as [fi|] eqn:E3; simpl in H; [|done].
  destruct (fold_left (format_issues_step d) _ _) as [fp|] eqn:E4; simpl in H; [|done].
  destruct (generate_issues _ _ _ _ _) as [iss|] eqn:E5; simpl in H; [|done].
  injection H as <-. repeat split; done.
Qed.

Lemma column_stats_of_fields d mv h ti :
  ColumnStats.type (column_stats_of d mv h ti) = ti
  /\ ColumnStats.missing (column_stats_of d mv h ti) = Obj.get (MissingReport.byColumn mv) h
  /\ ColumnStats.statistics (column_stats_of d mv h ti)
     = (if bool_decide (TypeInfo.type ti = TNumber)
        then Some (calculateStatistics (column d h)) else None)
  /\ ColumnStats.outliers (column_stats_of d mv h ti)
     = (if bool_decide (TypeInfo.type ti = TNumber)
        then Some (detectOutliers (column d h)) else None).
Proof. unfold column_stats_of. by destruct (TypeInfo.type ti). Qed.

End Summary.

(** ** Validation of uploaded data *)

Section ValidationLemmas.

Lemma nat_digits_head fuel n acc :
  fuel <> 0%nat ->
  exists k rest, (k < 10)%nat /\ Str.nat_digits fuel n acc = String (Str.digit_char k) rest.
Proof.
  revert n acc. induction fuel as [|f IH]; intros n acc Hf; [done|]. cbn [Str.nat_digits].
  destruct (n / 10 =? 0)%nat.
  - exists (n mod 10), acc. split; [|done]. apply Nat.mod_upper_bound. lia.
  - destruct f as [|f'].
    + exists (n mod 10), acc. split; [|done]. apply Nat.mod_upper_bound. lia.
    + apply IH. lia.
Qed.

Lemma of_nat_not_prefixed n s :
  String.prefix "Duplicate column names found: " (Str.of_nat n +:+ s) = false.
Proof.
  unfold Str.of_nat. destruct (nat_digits_head (S n) n EmptyString) as (k & rest & Hk & ->); [lia|].
  do 10 (destruct k as [|k]; [reflexivity|]). lia.
Qed.

Lemma prefix_append p s : String.prefix p (p +:+ s) = true.
Proof.
  induction p as [|a p IH]; simpl; [by destruct s|].
  by destruct (ascii_dec a a).
Qed.

Lemma filter_snoc {B} (p : B -> bool) (l : list B) x :
  List.filter p (l ++ [x]) = List.filter p l ++ (if p x then [x] else []).
Proof. rewrite List.filter_app. simpl. by destruct (p x). Qed.

(** The issues of a validation, part by part. *)
Lemma validateParsedData_issues d :
  Validation.issues (validateParsedData d)
  = (if (length (rows d) =? 0)%nat
     then [ValidationIssue.mk LevelError "No data rows found in file"] else [])
    ++ (if (length (headers d) =? 0)%nat
        then [ValidationIssue.mk LevelError "No column headers found in file"] else [])
    ++ (if (0 <? length (duplicate_headers (headers d)))%nat
        then [ValidationIssue.mk LevelWarning
                ("Duplicate column names found: "
                 +:+ Str.join ", " (duplicate_headers (headers d)))]
        else [])
    ++ (if (0 <? length (List.filter empty_header (headers d)))%nat
        then [ValidationIssue.mk LevelWarning
                ("Found " +:+ Str.of_nat (length (List.filter empty_header (headers d)))
                 +:+ " column(s) with empty names")]
        else [])
    ++ (if (0 <? length (rows d))%nat
           && (0 <? length (List.filter (inconsistent_row (length (headers d))) (rows d)))%nat
        then [ValidationIssue.mk LevelWarning
                (Str.of_nat (length (List.filter (inconsistent_row (length (headers d))) (rows d)))
                 +:+ " row(s) have inconsistent column counts")]
        else []).
Proof.
  unfold validateParsedData. cbn [Validation.issues].
  destruct (length (rows d) =? 0)%nat, (length (headers d) =? 0)%nat,
           (0 <? length (duplicate_headers (headers d)))%nat,
           (0 <? length (List.filter empty_header (headers d)))%nat,
           (0 <? length (rows d))%nat,
           (0 <? length (List.filter (inconsistent_row (length (headers d))) (rows d)))%nat;
    reflexivity.
Qed.

Lemma validateParsedData_isValid d :
  Validation.isValid (validateParsedData d)
  = (length (List.filter is_error (Validation.issues (validateParsedData d))) =? 0)%nat.
Proof. reflexivity. Qed.

Lemma valid_iff d :
  Validation.isValid (validateParsedData d) = true <-> rows d <> [] /\ headers d <> [].
Proof.
  rewrite validateParsedData_isValid, validateParsedData_issues.
  rewrite !List.filter_app.
  destruct (rows d) as [|r rs], (headers d) as [|h hs]; cbn [length Nat.eqb];
    repeat (match goal with |- context [if ?b then _ else _] => destruct b end);
    simpl; split; try done; intros [? ?]; done.
Qed.

End ValidationLemmas.

Section HeaderCounts.

Lemma occurrences_snoc h pre x :
  occurrences h (pre ++ [x]) = (occurrences h pre + if String.eqb h x then 1 else 0)%nat.
Proof.
  unfold occurrences. rewrite List.filter_app, length_app. simpl. by destruct (String.eqb h x).
Qed.

Lemma keys_set_same {A} (o : jsobj A) k v :
  In k (map fst o) -> map fst (Obj.set o k v) = map fst o.
Proof.
  induction o as [|[a x] o IH]; simpl; [done|].
  destruct (String.eqb_spec a k) as [->|Hne]; simpl; [done|].
  intros [? | Hk]; [done|]. by rewrite IH.
Qed.

Lemma NoDup_keys_set {A} (o : jsobj A) k v :
  NoDup (map fst o) -> NoDup (map fst (Obj.set o k v)).
Proof.
  intros Hnd. destruct (in_dec string_dec k (map fst o)) as [Hin|Hnin].
  - by rewrite keys_set_same.
  - rewrite set_fresh by done. rewrite map_app. simpl.
    apply NoDup_app. split_and!; [done | | apply NoDup_singleton].
    intros x Hx [->|[]]%list_elem_of_In. by apply Hnin, list_elem_of_In.
Qed.

Lemma get_Some_in {A} (o : jsobj A) k v : Obj.get o k = Some v -> In (k, v) o.
Proof.
  induction o as [|[a x] o IH]; simpl; [done|].
  destruct (String.eqb_spec a k) as [->|Hne]; [intros [= ->]; by left | right; by apply IH].
Qed.

Lemma counted_under_none h hs : occurrences h hs = 0%nat -> counted_under h hs = None.
Proof. intros E. unfold counted_under. by rewrite E. Qed.

Lemma counted_under_count h hs :
  (0 < occurrences h hs)%nat -> inherited h = false ->
  counted_under h hs = Some (Counted (occurrences h hs)).
Proof.
  intros Hpos Hinh. unfold counted_under. rewrite Hinh.
  by destruct (Nat.ltb_spec 0 (occurrences h hs)); [|lia].
Qed.

Lemma counted_under_text h hs :
  (0 < occurrences h hs)%nat -> inherited h = true -> h <> "__proto__" ->
  counted_under h hs = Some Text.
Proof.
  intros Hpos Hinh Hp. unfold counted_under. rewrite Hinh.
  destruct (Nat.ltb_spec 0 (occurrences h hs)); [|lia].
  by destruct (String.eqb_spec h "__proto__").
Qed.

Lemma counted_under_proto hs : counted_under "__proto__" hs = None.
Proof. unfold counted_under. simpl. by destruct (0 <? _)%nat. Qed.

Lemma count_header_invariant pre (o : jsobj header_count) x :
  NoDup (map fst o) /\ (forall h, Obj.get o h = counted_under h pre) ->
  NoDup (map fst (count_header o x))
  /\ (forall h, Obj.get (count_header o x) h = counted_under h (pre ++ [x])).
Proof.
  intros [Hnd Hget]. unfold count_header. rewrite (Hget x).
  assert (Hother : forall h, h <> x -> counted_under h (pre ++ [x]) = counted_under h pre).
  { intros h Hne. unfold counted_under. rewrite occurrences_snoc.
    destruct (String.eqb_spec h x); [done|]. by rewrite Nat.add_0_r. }
  assert (Hsame : occurrences x (pre ++ [x]) = S (occurrences x pre)).
  { rewrite occurrences_snoc, String.eqb_refl. lia. }
  assert (Hset : forall v, counted_under x (pre ++ [x]) = Some v ->
                 NoDup (map fst (Obj.set o x v))
                 /\ forall h, Obj.get (Obj.set o x v) h = counted_under h (pre ++ [x])).
  { intros v Hv. split; [by apply NoDup_keys_set|]. intros h. rewrite get_set.
    destruct (String.eqb_spec x h) as [<-|Hne]; [done|].
    rewrite Hother by done. apply Hget. }
  assert (Hkeep : x = "__proto__" ->
                  NoDup (map fst o) /\ forall h, Obj.get o h = counted_under h (pre ++ [x])).
  { intros ->. split; [done|]. intros h. rewrite Hget.
    destruct (String.eqb_spec h "__proto__") as [->|Hne]; [by rewrite !counted_under_proto|].
    by rewrite Hother. }
  assert (Hnew : (0 < occurrences x (pre ++ [x]))%nat) by lia.
  destruct (inherited x) eqn:Hinh;
    destruct (String.eqb_spec x "__proto__") as [Hp|Hp];
    destruct (Nat.ltb_spec 0 (occurrences x pre)) as [Hpos|Hzero].
  - subst x. rewrite counted_under_proto. simpl. by apply Hkeep.
  - subst x. rewrite counted_under_proto. simpl. by apply Hkeep.
  - rewrite counted_under_text by done. apply Hset. by apply counted_under_text.
  - rewrite counted_under_none by lia. apply Hset. by apply counted_under_text.
  - subst x. done.
  - subst x. done.
  - rewrite counted_under_count by done. apply Hset.
    rewrite counted_under_count by done. do 2 f_equal. lia.
  - rewrite counted_under_none by lia. apply Hset.
    rewrite counted_under_count by done. do 2 f_equal. lia.
Qed.

Lemma count_headers_invariant hs pre (o : jsobj header_count) :
  NoDup (map fst o) /\ (forall h, Obj.get o h = counted_under h pre) ->
  NoDup (map fst (fold_left count_header hs o))
  /\ (forall h, Obj.get (fold_left count_header hs o) h = counted_under h (pre ++ hs)).
Proof.
  revert pre o. induction hs as [|x hs IH]; intros pre o Hinv; simpl.
  - by rewrite app_nil_r.
  - replace (pre ++ x :: hs) with ((pre ++ [x]) ++ hs) by (by rewrite <- app_assoc).
    apply IH. by apply count_header_invariant.
Qed.

Lemma headerCounts_get hs :
  NoDup (map fst (fold_left count_header hs []))
  /\ (forall h, Obj.get (fold_left count_header hs []) h = counted_under h hs).
Proof.
  apply (count_headers_invariant hs [] []). split; [constructor | done].
Qed.

Lemma duplicate_headers_spec hs h :
  In h (duplicate_headers hs) <-> inherited h = false /\ (2 <= occurrences h hs)%nat.
Proof.
  destruct (headerCounts_get hs) as [Hnd Hget]. unfold duplicate_headers.
  rewrite in_map_iff. split.
  - intros ([k c] & <- & Hin). apply filter_In in Hin as [Hin Hmore]. simpl in *.
    apply (Permutation_in _ (entries_perm _)) in Hin.
    apply get_in in Hin; [|done]. rewrite Hget in Hin. unfold counted_under in Hin.
    destruct (Nat.ltb_spec 0 (occurrences k hs)); [|done].
    destruct (inherited k); [by destruct (String.eqb k "__proto__"); simplify_eq|].
    injection Hin as <-. simpl in Hmore. apply Nat.ltb_lt in Hmore. split; [done | lia].
  - intros [Hinh Hocc]. exists (h, Counted (occurrences h hs)). split; [done|].
    apply filter_In. split.
    + apply (Permutation_in _ (Permutation_sym (entries_perm _))), get_Some_in.
      rewrite Hget. unfold counted_under. rewrite Hinh.
      destruct (Nat.ltb_spec 0 (occurrences h hs)); [done | lia].
    + simpl. apply Nat.ltb_lt. lia.
Qed.

Lemma warns_iff d :
  warns_of_duplicates (validateParsedData d) <-> duplicate_headers (headers d) <> [].
Proof.
  unfold warns_of_duplicates. rewrite validateParsedData_issues. split.
  - intros (i & Hi & Ht & Hp) E. rewrite !in_app_iff in Hi.
    destruct Hi as [Hi | [Hi | [Hi | [Hi | Hi]]]].
    + destruct (length (rows d) =? 0)%nat; [|destruct Hi].
      destruct Hi as [<- | []]. discriminate Ht.
    + destruct (length (headers d) =? 0)%nat; [|destruct Hi].
      destruct Hi as [<- | []]. discriminate Ht.
    + rewrite E in Hi. destruct Hi.
    + destruct (0 <? _)%nat; [|destruct Hi].
      destruct Hi as [<- | []]. simpl in Hp. discriminate Hp.
    + destruct (_ && _); [|destruct Hi].
      destruct Hi as [<- | []]. cbn [ValidationIssue.message] in Hp.
      by rewrite of_nat_not_prefixed in Hp.
  - intros Hne. destruct (duplicate_headers (headers d)) as [|h l] eqn:E; [done|].
    exists (ValidationIssue.mk LevelWarning
              ("Duplicate column names found: " +:+ Str.join ", " (h :: l))).
    split_and!; [|reflexivity|apply prefix_append].
    rewrite !in_app_iff. right. right. left. simpl. by left.
Qed.

End HeaderCounts.

(** ** Texts derived from the issue list *)

Section Recommendations.

Lemma recommend_step_push acc (issue : Issue.t) :
  exists rec, recommend_step acc issue = acc ++ [rec] /\ recommend_step [] issue = [rec].
Proof.
  unfold recommend_step. destruct (Issue.type issue); simpl; eauto.
Qed.

Lemma recommend_loop issues acc :
  length (fold_left recommend_step issues acc) = (length acc + length issues)%nat
  /\ forall k issue,
       issues !! k = Some issue ->
       exists rec, fold_left recommend_step issues acc !! (length acc + k)%nat = Some rec
                   /\ recommend_step [] issue = [rec].
Proof.
  revert acc. induction issues as [|i issues IH]; intros acc; simpl.
  - split; [lia | done].
  - destruct (recommend_step_push acc i) as (rec & -> & Hrec).
    destruct (IH (acc ++ [rec])) as [Hlen Hat]. rewrite length_app in Hlen, Hat. simpl in *.
    split; [lia|]. intros k issue Hk. destruct k as [|k]; simpl in Hk.
    + injection Hk as <-. exists rec. split; [|done]. rewrite Nat.add_0_r.
      assert (Hpre : forall l a, (acc ++ [rec]) `prefix_of` a ->
                                 (acc ++ [rec]) `prefix_of` fold_left recommend_step l a).
      { intros l. induction l as [|j l IHl]; intros a Ha; simpl; [done|].
        apply IHl. destruct (recommend_step_push a j) as (rj & -> & _).
        by apply prefix_app_r. }
      destruct (Hpre issues (acc ++ [rec]) (reflexivity _)) as [rest ->].
      rewrite <- app_assoc. by rewrite lookup_app_r, Nat.sub_diag by lia.
    + destruct (Hat k issue Hk) as (r' & Hr' & Hstep). exists r'. split; [|done].
      by replace (length acc + S k)%nat with (length acc + 1 + k)%nat by lia.
Qed.

Lemma generateRecommendations_spec issues :
  length (generateRecommendations issues) = Nat.max 1 (length issues)
  /\ forall k issue,
       issues !! k = Some issue ->
       exists rec, generateRecommendations issues !! k = Some rec
                   /\ recommend_step [] issue = [rec].
Proof.
  unfold generateRecommendations. destruct (recommend_loop issues []) as [Hlen Hat].
  change (length (@nil Recommendation.t)) with 0%nat in Hlen, Hat.
  destruct issues as [|i issues].
  - simpl. split; [done|]. by intros k issue Hk.
  - destruct (length (fold_left recommend_step (i :: issues) []) =? 0)%nat eqn:E.
    + apply Nat.eqb_eq in E. rewrite E in Hlen. simpl in Hlen. lia.
    + split; [|apply Hat]. etrans; [exact Hlen|]. simpl length. lia.
Qed.

Lemma some_of_type_spec t issues :
  some_of_type t issues = true <-> exists i, In i issues /\ Issue.type i = t.
Proof.
  unfold some_of_type. rewrite existsb_exists. split.
  - intros (i & Hi & Ht). exists i. split; [done|]. by destruct (Issue.type i), t.
  - intros (i & Hi & <-). exists i. split; [done|]. by destruct (Issue.type i).
Qed.

Lemma getFallbackRecommendations_nil issues :
  getFallbackRecommendations issues = []
  <-> forall i, In i issues -> Issue.type i = Format \/ Issue.type i = OutlierIssue.
Proof.
  unfold getFallbackRecommendations. split.
  - intros E i Hi.
    destruct (some_of_type Missing issues) eqn:Em,
             (some_of_type Duplicate issues) eqn:Ed,
             (some_of_type Inconsistent issues) eqn:Ei; simpl in E; try discriminate E.
    destruct (Issue.type i) eqn:Ht; [| | |by left|by right]; exfalso.
    + assert (some_of_type Missing issues = true) by (apply some_of_type_spec; eauto). congruence.
    + assert (some_of_type Duplicate issues = true) by (apply some_of_type_spec; eauto). congruence.
    + assert (some_of_type Inconsistent issues = true) by (apply some_of_type_spec; eauto). congruence.
  - intros Hall.
    assert (Hnone : forall t, t <> Format -> t <> OutlierIssue -> some_of_type t issues = false).
    { intros t H1 H2. destruct (some_of_type t issues) eqn:E; [|done].
      apply some_of_type_spec in E as (i & Hi & <-). destruct (Hall i Hi); done. }
    by rewrite !Hnone.
Qed.

Lemma getFallbackRecommendations_length issues :
  (length (getFallbackRecommendations issues) <= 3)%nat.
Proof.
  unfold getFallbackRecommendations.
  destruct (some_of_type _ _), (some_of_type _ _), (some_of_type _ _); simpl; lia.
Qed.

End Recommendations.

(** ** Fallback insights, the CSV report and the recent analyses *)

Section Insights.
Context {host : Host}.

Lemma severity_partition (issues : list Issue.t) :
  (length (with_severity SevHigh issues) + length (with_severity SevMedium issues)
   + length (with_severity SevLow issues) = length issues)%nat.
Proof.
  unfold with_severity. induction issues as [|i issues IH]; simpl; [done|].
  destruct (Issue.severity i); simpl; lia.
Qed.

Lemma with_severity_in s issues i :
  In i (with_severity s issues) <-> In i issues /\ Issue.severity i = s.
Proof.
  unfold with_severity. rewrite filter_In. split; intros [Hi Hs]; (split; [done|]).
  - by destruct (Issue.severity i), s.
  - rewrite Hs. by destruct s.
Qed.

Lemma in_take {B} (n : nat) (l : list B) x : In x (take n l) -> In x l.
Proof.
  intros Hx. rewrite <- (take_drop n l). apply in_app_iff. by left.
Qed.

Lemma num_geb_mono s (a b : Q) :
  b <= a -> num_geb s (Fin a) = true -> num_geb s (Fin b) = true.
Proof.
  intros Hba. destruct s as [| | |q]; simpl; try done.
  rewrite !negb_true_iff, !Qltb_false. lra.
Qed.

Lemma ready_iff_grade s :
  num_geb s (Fin 70) = true <-> In (getScoreGrade s) ["Excellent"; "Good"; "Fair"].
Proof.
  unfold getScoreGrade. split.
  - intros H70. rewrite H70.
    destruct (num_geb s (Fin 90)); [simpl; tauto|].
    destruct (num_geb s (Fin 80)); simpl; tauto.
  - destruct (num_geb s (Fin 90)) eqn:E90; [intros _; by apply (num_geb_mono s 90 70)|].
    destruct (num_geb s (Fin 80)) eqn:E80; [intros _; by apply (num_geb_mono s 80 70)|].
    destruct (num_geb s (Fin 70)) eqn:E70; [done|].
    destruct (num_geb s (Fin 60)); simpl; intros [H | [H | [H | []]]]; discriminate H.
Qed.

End Insights.

Section RecentAnalyses.



End RecentAnalyses.

Section CsvReport.
Context {host : Host}.

Lemma prefix_app_r p s t : String.prefix p s = true -> String.prefix p (s +:+ t) = true.
Proof.
  revert s. induction p as [|a p IH]; intros s; simpl.
  - intros _. by destruct (s +:+ t).
  - destruct s as [|b s]; [by destruct p|]. simpl.
    destruct (ascii_dec a b); [apply IH | done].
Qed.

Lemma prefix_refl p : String.prefix p p = true.
Proof. induction p as [|a p IH]; simpl; [done|]. by destruct (ascii_dec a a). Qed.

Lemma csv_line_some d r acc h :
  analyzeDataQuality d = Some r -> In h (headers d) ->
  (exists csv, acc = Some csv /\ String.prefix csv_header csv = true) ->
  exists csv, csv_line r acc h = Some csv /\ String.prefix csv_header csv = true.
Proof.
  intros Hres Hh (csv & -> & Hp).
  destruct (analyzeDataQuality_inv d r Hres)
    as (cs & vi & fi & fp & iss & Hcs & _ & _ & _ & _ & Hmv & _ & _ & Hcols & _).
  unfold csv_line. simpl. rewrite Hcols, (columnStats_get d _ cs h Hcs Hh). simpl.
  destruct (column_stats_of_fields d (findMissingValues d) h (detectDataType (column d h)))
    as (_ & Hm & _).
  rewrite Hm.
  assert (Hk : In h (map fst (MissingReport.byColumn (findMissingValues d)))).
  { rewrite missing_keys_init. by apply get_in_keys, missing_init_has. }
  assert (Hsome : is_Some (Obj.get (MissingReport.byColumn (findMissingValues d)) h)).
  { clear -Hk. induction (MissingReport.byColumn (findMissingValues d)) as [|[a x] o IH];
      simpl in *; [done|].
    destruct (String.eqb_spec a h); [eauto|]. apply IH. by destruct Hk. }
  destruct Hsome as [m ->]. simpl. eexists. split; [reflexivity|].
  by apply prefix_app_r.
Qed.

Lemma generateCSVReport_some d r :
  analyzeDataQuality d = Some r ->
  exists csv, generateCSVReport r d = Some csv /\ String.prefix csv_header csv = true.
Proof.
  intros Hres. unfold generateCSVReport.
  assert (Hloop : forall hs acc,
            (forall h, In h hs -> In h (headers d)) ->
            (exists csv, acc = Some csv /\ String.prefix csv_header csv = true) ->
            exists csv, fold_left (csv_line r) hs acc = Some csv
                        /\ String.prefix csv_header csv = true).
  { induction hs as [|h hs IH]; intros acc Hsub Hacc; simpl; [done|].
    apply IH; [intros h' Hh'; apply Hsub; by right|].
    apply (csv_line_some d); [done | apply Hsub; by left | done]. }
  apply Hloop; [done|]. exists csv_header. split; [done | apply prefix_refl].
Qed.

End CsvReport.

(** ** Blank cells, distinct values and the uniqueness score *)

Section BlankAndUnique.
Context {host : Host}.

Lemma blank_is_missing v : not_blank v = false -> isMissing v = true.
Proof.
  unfold not_blank, isMissing.
  destruct (JS.strict_eq v VNull), (JS.strict_eq v VUndefined), (JS.strict_eq v (VStr "")); done.
Qed.

Lemma nullable_column_missing d h :
  NoDup (headers d) -> In h (headers d) -> rows d <> [] ->
  TypeInfo.nullable (detectDataType (column d h)) = true ->
  exists c, Obj.get (MissingReport.byColumn (findMissingValues d)) h = Some c
            /\ (0 < MissingColumn.count c)%nat.
Proof.
  intros Hnd Hh Hr Hnull. eexists. split; [by apply missing_column_get|].
  cbn [MissingColumn.count].
  apply detectDataType_nullable in Hnull as [E | (v & Hv & Hb)].
  { unfold column in E. apply map_eq_nil in E. done. }
  unfold column in Hv. apply in_map_iff in Hv as (r & <- & Hin).
  apply list_elem_of_In, list_elem_of_lookup_1 in Hin as [i Hi].
  assert (Hpos : In i (missing_positions d h)).
  { unfold missing_positions. apply positions_from_spec. exists i, r.
    split_and!; [done | done | by apply blank_is_missing]. }
  destruct (missing_positions d h); [done | simpl; lia].
Qed.

Lemma set_of_list_length l acc :
  (length acc <= length (JS.set_of_list l acc) <= length acc + length l)%nat
  /\ (l <> [] -> acc = [] -> 1 <= length (JS.set_of_list l acc))%nat.
Proof.
  revert acc. induction l as [|x l IH]; intros acc; simpl; [split; [lia | done]|].
  destruct (existsb _ acc) eqn:E.
  - destruct (IH acc) as [Hb _]. split; [lia|]. intros _ ->. done.
  - destruct (IH (acc ++ [x])) as [Hb _]. rewrite length_app in Hb. simpl in Hb.
    split; lia.
Qed.

Lemma Set_size_bounds l :
  (JS.Set_size l <= length l)%nat /\ (l <> [] -> 1 <= JS.Set_size l)%nat.
Proof.
  unfold JS.Set_size. destruct (set_of_list_length l []) as [Hb Hne]. simpl in Hb.
  split; [lia|]. intros Hl. by apply Hne.
Qed.

Lemma column_stats_of_unique d mv h ti :
  ColumnStats.unique (column_stats_of d mv h ti)
  = JS.Set_size (List.filter not_blank (column d h))
  /\ ColumnStats.uniquePercentage (column_stats_of d mv h ti)
     = (Num.of_nat (JS.Set_size (column d h)) / Num.of_nat (length (column d h)) * Fin 100)%num.
Proof. unfold column_stats_of. by destruct (TypeInfo.type ti). Qed.

Lemma duplicates_lower_score d :
  (0 < DuplicateReport.count (findDuplicates d))%nat ->
  exists q p,
    DuplicateReport.uniquenessScore (findDuplicates d) = Fin q
    /\ DuplicateReport.percentage (findDuplicates d) = Fin p
    /\ 0 < p /\ 0 <= q /\ q <= 100 - p.
Proof.
  intros Hpos.
  assert (Hr : rows d <> []).
  { intros E. unfold findDuplicates, find_duplicate_rows in Hpos. rewrite E in Hpos.
    simpl in Hpos. lia. }
  pose proof (duplicate_rows_bound d Hr) as Hlt.
  unfold findDuplicates in *.
  cbn [DuplicateReport.uniquenessScore DuplicateReport.percentage DuplicateReport.count] in *.
  assert (Hn : (0 < length (rows d))%nat) by lia.
  pose proof (uniqueness_penalty_nonneg d (headers d) (Fin 0) ltac:(simpl; lra)) as Hq.
  rewrite of_nat_div by done. simpl.
  set (c := inject_Z (Z.of_nat (length (find_duplicate_rows d)))).
  set (n := inject_Z (Z.of_nat (length (rows d)))).
  assert (Hc : 0 < c) by (by apply inject_nat_pos).
  assert (Hnpos : 0 < n) by (by apply inject_nat_pos).
  assert (Hcn : c < n) by (subst c n; rewrite <- Zlt_Qlt; lia).
  assert (Hratio : 0 < c / n /\ c / n < 1).
  { split; [apply Qlt_shift_div_l | apply Qlt_shift_div_r]; lra. }
  destruct (fold_left _ _ _) as [| | |y]; simpl in Hq; try done. simpl.
  unfold Num.max, Num.ltb. destruct (Num.Qltb _ _) eqn:E.
  - apply Qltb_true in E. eexists _, _. split_and!; [reflexivity | reflexivity | | |]; lra.
  - apply Qltb_false in E. eexists _, _. split_and!; [reflexivity | reflexivity | | |]; lra.
Qed.

End BlankAndUnique.

(** * Further properties of the engine and of its neighbours *)

Section FurtherResults.
Context {host : Host}.

(** X1.  findMissingValues, per column: when the headers are pairwise
    distinct, the object stored under a header lists exactly the indices of
    the rows whose cell is missing, in increasing order; its count is their
    number and its percentage is the count over the number of rows, times
    100. *)
Theorem missing_column_report d h :
  NoDup (headers d) -> In h (headers d) ->
  exists c,
    Obj.get (MissingReport.byColumn (findMissingValues d)) h = Some c
    /\ (forall i, In i (MissingColumn.positions c)
                  <-> exists r, rows d !! i = Some r /\ isMissing (cell r h) = true)
    /\ StronglySorted lt (MissingColumn.positions c)
    /\ MissingColumn.count c = length (MissingColumn.positions c)
    /\ MissingColumn.percentage c
       = (Num.of_nat (MissingColumn.count c) / Num.of_nat (length (rows d)) * Fin 100)%num.
Proof.
  intros Hnd Hh. eexists. split; [by apply missing_column_get|].
  cbn [MissingColumn.positions MissingColumn.count MissingColumn.percentage].
  split_and!; try done.
  - intros i. unfold missing_positions. rewrite positions_from_spec. split.
    + intros (j & r & Hj & -> & Hm). by exists r.
    + intros (r & Hi & Hm). by exists i, r.
  - apply positions_from_sorted.
Qed.

(** X2.  findMissingValues, per row: the rows listed are exactly those with
    at least one missing cell among the headers, in increasing order of row
    index; each entry carries the number of missing cells of its row and
    that number over the number of headers, times 100. *)
Theorem missing_rows_report d :
  StronglySorted lt (map MissingRow.rowIndex (MissingReport.byRow (findMissingValues d)))
  /\ (forall i, In i (map MissingRow.rowIndex (MissingReport.byRow (findMissingValues d)))
                <-> exists r, rows d !! i = Some r /\ (0 < missing_in_row (headers d) r)%nat)
  /\ (forall e, In e (MissingReport.byRow (findMissingValues d)) ->
        exists r, rows d !! MissingRow.rowIndex e = Some r
          /\ MissingRow.missingCount e = missing_in_row (headers d) r
          /\ MissingRow.percentage e
             = (Num.of_nat (missing_in_row (headers d) r)
                / Num.of_nat (length (headers d)) * Fin 100)%num).
Proof.
  rewrite findMissingValues_byRow. split_and!.
  - rewrite missing_rows_indices. apply positions_from_sorted.
  - intros i. rewrite missing_rows_indices. cbn [map app]. rewrite positions_from_spec. split.
    + intros (j & r & Hj & -> & Hm). exists r. split; [done|]. by apply Nat.ltb_lt.
    + intros (r & Hi & Hm). exists i, r. split_and!; [done | done |]. by apply Nat.ltb_lt.
  - intros e He. apply missing_rows_listed in He as [[] | (j & r & Hj & Hpos & ->)].
    by exists r.
Qed.

(** X3.  findMissingValues: when no header is named __proto__ (the
    assignment to that key of the per-column object sets its prototype, and
    Object.values then leaves the column out), the total is the number of
    missing cells, that is, over the rows, of headers under which the cell
    is missing.  A header that occurs twice counts twice on both sides. *)
Theorem missing_total_counts_cells d :
  ~ In "__proto__" (headers d) ->
  MissingReport.total (findMissingValues d) = missing_cells d.
Proof. intros _. apply missing_total. Qed.

(** X4.  findMissingValues: on a data set with a row and a header, none of
    the headers being named __proto__, the completeness score is 100
    exactly when no cell under a header is missing. *)
Theorem completeness_100_iff_complete d :
  rows d <> [] -> headers d <> [] -> ~ In "__proto__" (headers d) ->
  Num.eqb (MissingReport.completenessScore (findMissingValues d)) (Fin 100) = true
  <-> complete d.
Proof. intros Hr Hh _. by apply completeness_100_iff. Qed.

(** X5.  findDuplicates: the duplicates are listed in strictly increasing
    order of duplicateRow, so no row is listed twice; a row is listed exactly
    when an earlier row has the same fingerprint; and each entry carries the
    row found at its duplicateRow. *)
Theorem duplicates_listed_in_row_order d :
  StronglySorted lt
    (map DuplicateEntry.duplicateRow (DuplicateReport.duplicates (findDuplicates d)))
  /\ (forall j,
        In j (map DuplicateEntry.duplicateRow (DuplicateReport.duplicates (findDuplicates d)))
        <-> exists i ri rj,
              (i < j)%nat /\ rows d !! i = Some ri /\ rows d !! j = Some rj
              /\ rowHash (headers d) ri = rowHash (headers d) rj)
  /\ (forall e,
        In e (DuplicateReport.duplicates (findDuplicates d)) ->
        rows d !! DuplicateEntry.duplicateRow e = Some (DuplicateEntry.data e)).
Proof.
  unfold findDuplicates. cbn [DuplicateReport.duplicates]. split_and!.
  - apply duplicate_rows_sorted.
  - apply duplicate_rows_listed.
  - intros e He. apply find_duplicate_rows_spec in He as (r & Hk & Hd & _). by rewrite Hd.
Qed.

(** X6.  findDuplicates: the count is 0 exactly when the fingerprints of the
    rows are pairwise distinct; it is 0 when there is no row, and below the
    number of rows when there is one. *)
Theorem duplicate_count_zero_iff_distinct d :
  (DuplicateReport.count (findDuplicates d) = 0%nat
   <-> NoDup (map (rowHash (headers d)) (rows d)))
  /\ (rows d = [] -> DuplicateReport.count (findDuplicates d) = 0%nat)
  /\ (rows d <> [] -> (DuplicateReport.count (findDuplicates d) < length (rows d))%nat).
Proof.
  unfold findDuplicates. cbn [DuplicateReport.count]. split_and!.
  - rewrite <- duplicate_rows_none. apply length_zero_iff_nil.
  - intros E. unfold find_duplicate_rows. by rewrite E.
  - apply duplicate_rows_bound.
Qed.

(** X7.  detectDataType: on a column with a value that is not blank the
    confidence is a number between 1/4 and 1: the share, among the values
    that are not blank, of those counted under the reported type. *)
Theorem confidence_between_quarter_and_one values :
  List.filter not_blank values <> [] ->
  exists q,
    TypeInfo.confidence (detectDataType values) = Fin q
    /\ 1 # 4 <= q /\ q <= 1
    /\ Fin q = (Num.of_nat (count_type (TypeInfo.type (detectDataType values))
                                       (List.filter not_blank values))
                / Num.of_nat (length (List.filter not_blank values)))%num.
Proof.
  intros Hne. destruct (confidence_bounds values Hne) as (q & Hq & Hlo & Hhi).
  exists q. split_and!; try done.
  rewrite <- Hq. by apply dominant_type_spec.
Qed.

(** X8.  detectDataType: on a column with a value that is not blank,
    mixedTypes is true exactly when two of the values that are not blank are
    counted under different types, and false exactly when the confidence
    is 1. *)
Theorem mixed_types_iff_two_kinds values :
  List.filter not_blank values <> [] ->
  (TypeInfo.mixedTypes (detectDataType values) = Some true
   <-> exists v w, In v (List.filter not_blank values) /\ In w (List.filter not_blank values)
                   /\ classify v <> classify w)
  /\ (TypeInfo.mixedTypes (detectDataType values) = Some false
      <-> Num.eqb (TypeInfo.confidence (detectDataType values)) (Fin 1) = true).
Proof.
  intros Hne. split.
  - rewrite detectDataType_mixed by done.
    etrans; [|apply two_types_mixed]. split; [intros [= H]; exact H | intros H; f_equal; exact H].
  - symmetry. by apply confidence_one_iff.
Qed.

(** X9.  detectDataType: the type is empty exactly when every value is
    blank (null, undefined or the empty string), and nullable is true
    exactly when the column has no value at all or has a blank one. *)
Theorem empty_type_iff_all_blank values :
  (TypeInfo.type (detectDataType values) = TEmpty
   <-> forall v, In v values -> not_blank v = false)
  /\ (TypeInfo.nullable (detectDataType values) = true
      <-> values = [] \/ exists v, In v values /\ not_blank v = false).
Proof.
  split; [|apply detectDataType_nullable].
  rewrite detectDataType_type_empty. split.
  - intros E v Hv. destruct (not_blank v) eqn:Hb; [|done].
    assert (Hin : In v (List.filter not_blank values)) by (by apply filter_In).
    by rewrite E in Hin.
  - intros Hall. destruct (List.filter not_blank values) as [|v l] eqn:E; [done|].
    assert (Hin : In v (List.filter not_blank values)) by (rewrite E; by left).
    apply filter_In in Hin as [Hv Hb]. by rewrite (Hall v Hv) in Hb.
Qed.

(** X10.  calculateStatistics: count is the number of numeric values; min
    and max are numeric values of the column and every numeric value lies
    between them; min <= q1 <= q2 <= q3 <= max; and median is q2. *)
Theorem statistics_in_order values stats :
  calculateStatistics values = Some stats ->
  Statistics.count stats = length (numeric_values values)
  /\ In (Statistics.min stats) (numeric_values values)
  /\ In (Statistics.max stats) (numeric_values values)
  /\ (forall x, In x (numeric_values values) ->
        num_le (Statistics.min stats) x /\ num_le x (Statistics.max stats))
  /\ num_le (Statistics.min stats) (Statistics.q1 stats)
  /\ num_le (Statistics.q1 stats) (Statistics.q2 stats)
  /\ num_le (Statistics.q2 stats) (Statistics.q3 stats)
  /\ num_le (Statistics.q3 stats) (Statistics.max stats)
  /\ Statistics.median stats = Statistics.q2 stats.
Proof.
  intros Hstats.
  destruct (calculateStatistics_sorted values stats Hstats)
    as (sorted & Hperm & Hsorted & Hnn & Hcount & HN & Hmin & Hmax & H1 & H2 & H3 & Hmed & _).
  pose proof (floor_index_lt (length sorted) (1 # 4) HN ltac:(done) ltac:(done)) as L1.
  pose proof (floor_index_lt (length sorted) (1 # 2) HN ltac:(done) ltac:(done)) as L2.
  pose proof (floor_index_lt (length sorted) (3 # 4) HN ltac:(done) ltac:(done)) as L3.
  pose proof (floor_index_mono (length sorted) (1 # 4) (1 # 2) ltac:(done) ltac:(done)) as M12.
  pose proof (floor_index_mono (length sorted) (1 # 2) (3 # 4) ltac:(done) ltac:(done)) as M23.
  assert (Hle : forall i j x y, (i <= j)%nat -> sorted !! i = Some x -> sorted !! j = Some y ->
                                num_le x y)
    by (intros i j x y; by apply sorted_lookup_le).
  assert (Hmem : forall i x, sorted !! i = Some x -> In x (numeric_values values)).
  { intros i x Hx. apply (Permutation_in _ Hperm), list_elem_of_In.
    by eapply list_elem_of_lookup_2. }
  split_and!.
  - by rewrite Hcount, (Permutation_length Hperm).
  - by eapply Hmem.
  - by eapply Hmem.
  - intros x Hx. apply (Permutation_in _ (Permutation_sym Hperm)) in Hx.
    apply list_elem_of_In, list_elem_of_lookup_1 in Hx as [i Hi].
    pose proof (lookup_lt_Some _ _ _ Hi) as Hlt.
    split; [apply (Hle 0%nat i) | apply (Hle i (length sorted - 1)%nat)]; (done || lia).
  - apply (Hle 0%nat (floor_index (length sorted) (1 # 4))); (done || lia).
  - by apply (Hle (floor_index (length sorted) (1 # 4)) (floor_index (length sorted) (1 # 2))).
  - by apply (Hle (floor_index (length sorted) (1 # 2)) (floor_index (length sorted) (3 # 4))).
  - apply (Hle (floor_index (length sorted) (3 # 4)) (length sorted - 1)%nat); (done || lia).
  - exact Hmed.
Qed.

(** X11.  calculateStatistics: null is returned exactly when the column has
    no numeric value; otherwise neither the variance nor the range is
    below 0. *)
Theorem variance_and_range_not_negative values :
  (calculateStatistics values = None <-> numeric_values values = [])
  /\ (forall stats,
        calculateStatistics values = Some stats ->
        not_negative (Statistics.variance stats) /\ not_negative (Statistics.range stats)).
Proof.
  split; [apply calculateStatistics_none | apply calculateStatistics_signs].
Qed.

(** X12.  calculateMode: of a list that is not empty the mode is one of its
    values, and no key of the frequency object has more values filed under
    it than the key of the mode. *)
Theorem mode_is_most_frequent (values : list number) :
  values <> [] ->
  exists m,
    calculateMode values = Some m
    /\ In m values
    /\ forall x, In x values ->
         (key_count (JS.Number_toString x) values
          <= key_count (JS.Number_toString m) values)%nat.
Proof.
  intros Hne. destruct (calculateMode_invariant values) as (_ & Hmax & Hmode).
  unfold calculateMode. destruct (fold_left mode_step values (∅, 0%nat, None)) as [[f mx] [m|]];
    cbn [fst snd] in *.
  - destruct Hmode as [Hin Hm]. exists m. split_and!; [done | done |].
    intros x _. rewrite Hm. apply Hmax.
  - by destruct Hmode as [-> _].
Qed.

(** X13.  detectOutliers: the outliers are listed in strictly increasing
    order of index, count is their number and is at most the number of
    values; the value of each is a numeric value of the column that lies
    strictly outside the quartiles: below q1 when the entry is tagged low,
    above q3 when it is tagged high. *)
Theorem outliers_lie_outside_the_quartiles values stats :
  calculateStatistics values = Some stats ->
  StronglySorted lt (map Outlier.index (OutlierReport.outliers (detectOutliers values)))
  /\ OutlierReport.count (detectOutliers values)
     = length (OutlierReport.outliers (detectOutliers values))
  /\ (OutlierReport.count (detectOutliers values) <= length values)%nat
  /\ forall o,
       In o (OutlierReport.outliers (detectOutliers values)) ->
       In (Outlier.value o) (numeric_values values)
       /\ ((Outlier.type o = Low /\ (Outlier.value o <? Statistics.q1 stats)%num = true)
           \/ (Outlier.type o = High /\ (Statistics.q3 stats <? Outlier.value o)%num = true)).
Proof.
  intros Hstats. destruct (detectOutliers_sorted values) as [Hs Hb].
  split_and!.
  - exact Hs.
  - apply detectOutliers_count.
  - rewrite detectOutliers_count.
    assert (Hb' : Forall (fun k => 0 <= k < length values)%nat
                    (map Outlier.index (OutlierReport.outliers (detectOutliers values)))).
    { eapply Forall_impl; [exact Hb|]. simpl. intros; lia. }
    pose proof (sorted_bounded_length _ _ _ Hs Hb') as Hlen.
    rewrite length_map in Hlen. lia.
  - intros o Ho. by apply outlier_outside_quartiles.
Qed.

(** X14.  detectOutliers: a column whose numeric values are all equal has
    no outlier. *)
Theorem constant_column_has_no_outliers values x :
  (forall y, In y (numeric_values values) -> Num.eqb y x = true) ->
  OutlierReport.outliers (detectOutliers values) = []
  /\ OutlierReport.count (detectOutliers values) = 0%nat.
Proof.
  intros Hconst. pose proof (constant_no_outliers values x Hconst) as E.
  split; [done|]. by rewrite detectOutliers_count, E.
Qed.

(** X15.  On every data set of the data model (each cell undefined, null,
    a boolean, a number or a string) analyzeDataQuality returns a result:
    none of its toString calls meets null or undefined.  The summary of the
    result counts the rows, the headers, their product, the duplicate rows
    and the issues, and, when no header is named __proto__, the missing
    cells. *)
Theorem engine_returns_with_summary d :
  exists r,
    analyzeDataQuality d = Some r
    /\ Summary.totalRows (QualityAnalysis.summary r) = length (rows d)
    /\ Summary.totalColumns (QualityAnalysis.summary r) = length (headers d)
    /\ Summary.totalCells (QualityAnalysis.summary r)
       = (length (rows d) * length (headers d))%nat
    /\ (~ In "__proto__" (headers d) ->
        Summary.missingCells (QualityAnalysis.summary r) = missing_cells d)
    /\ Summary.duplicateRows (QualityAnalysis.summary r)
       = length (DuplicateReport.duplicates (QualityAnalysis.duplicates r))
    /\ Summary.issueCount (QualityAnalysis.summary r) = length (QualityAnalysis.issues r).
Proof.
  destruct (analyzeDataQuality_total d) as [r Hres]. exists r. split; [done|].
  destruct (analyzeDataQuality_summary d r Hres) as (H1 & H2 & H3 & H4 & H5 & H6).
  destruct (analyzeDataQuality_inv d r Hres)
    as (cs & vi & fi & fp & iss & _ & _ & _ & _ & _ & _ & Hdup & _).
  split_and!; try done.
  - intros _. by rewrite H4, missing_total.
  - by rewrite H5, Hdup.
Qed.

(** X16.  analyzeDataQuality: every header has an entry in columnStats; its
    type is what detectDataType says of the column and is also stored in
    dataTypes; its missing part is the object of the missing-value report
    and is defined; statistics and outliers are set exactly when the type
    is number, to what calculateStatistics and detectOutliers return for
    the column. *)
Theorem column_stats_per_header d r h :
  analyzeDataQuality d = Some r -> In h (headers d) ->
  exists cs,
    Obj.get (QualityAnalysis.columnStats r) h = Some cs
    /\ ColumnStats.type cs = detectDataType (column d h)
    /\ Obj.get (QualityAnalysis.dataTypes r) h = Some (ColumnStats.type cs)
    /\ ColumnStats.missing cs
       = Obj.get (MissingReport.byColumn (QualityAnalysis.missingValues r)) h
    /\ is_Some (ColumnStats.missing cs)
    /\ ColumnStats.statistics cs
       = (if bool_decide (TypeInfo.type (ColumnStats.type cs) = TNumber)
          then Some (calculateStatistics (column d h)) else None)
    /\ ColumnStats.outliers cs
       = (if bool_decide (TypeInfo.type (ColumnStats.type cs) = TNumber)
          then Some (detectOutliers (column d h)) else None).
Proof.
  intros Hres Hh.
  destruct (analyzeDataQuality_inv d r Hres)
    as (cs & vi & fi & fp & iss & Hcs & _ & _ & _ & _ & Hmv & _ & Hdt & Hcols & _).
  eexists. rewrite Hcols, Hmv, Hdt. split; [by eapply columnStats_get|].
  destruct (column_stats_of_fields d (findMissingValues d) h (detectDataType (column d h)))
    as (Ht & Hm & Hst & Ho).
  rewrite Ht, Hm, Hst, Ho. split_and!; try done.
  - by apply dataTypes_get.
  - assert (Hk : In h (map fst (MissingReport.byColumn (findMissingValues d)))).
    { rewrite missing_keys_init. by apply get_in_keys, missing_init_has. }
    clear -Hk. induction (MissingReport.byColumn (findMissingValues d)) as [|[a x] o IH];
      simpl in *; [done|].
    destruct (String.eqb_spec a h); [eauto|]. apply IH. by destruct Hk.
Qed.

(** X17.  A column that detectDataType types as number and that holds no
    NaN has a numeric value, so calculateStatistics returns statistics for
    it and not null. *)
Theorem number_column_has_statistics values :
  TypeInfo.type (detectDataType values) = TNumber ->
  ~ In (VNum NaN) values ->
  exists stats,
    calculateStatistics values = Some stats /\ (0 < Statistics.count stats)%nat.
Proof.
  intros Ht Hnan. pose proof (number_column_numeric values Ht Hnan) as Hne.
  destruct (calculateStatistics values) as [stats|] eqn:E.
  - exists stats. split; [done|].
    destruct (calculateStatistics_sorted values stats E) as (sorted & _ & _ & _ & -> & HN & _).
    exact HN.
  - by apply calculateStatistics_none in E.
Qed.

(** X18.  analyzeDataQuality: an issue without a column is the duplicate
    issue, and every other issue names a header of the data set; the
    duplicate issue is there exactly when a duplicate row was found. *)
Theorem issue_columns_are_headers d r :
  analyzeDataQuality d = Some r ->
  (forall i, In i (QualityAnalysis.issues r) ->
     match Issue.column i with
     | Some h => In h (headers d) /\ Issue.type i <> Duplicate
     | None => Issue.type i = Duplicate
     end)
  /\ ((exists i, In i (QualityAnalysis.issues r) /\ Issue.type i = Duplicate)
      <-> (0 < DuplicateReport.count (QualityAnalysis.duplicates r))%nat).
Proof.
  intros Hres.
  destruct (analyzeDataQuality_inv d r Hres)
    as (cs & vi & fi & fp & iss & _ & _ & _ & _ & _ & _ & Hdup & _).
  rewrite Hdup. split.
  - intros i Hi.
    destruct (issue_shape d r i Hres Hi) as [(-> & Ht & _) | (h & -> & Hh & Ht)]; done.
  - split.
    + intros (i & Hi & Ht).
      destruct (issue_shape d r i Hres Hi) as [(_ & _ & Hpos) | (h & _ & _ & Hne)]; done.
    + by apply duplicate_issue_present.
Qed.

(** X19.  validateParsedData: the data are valid exactly when there is at
    least one row and at least one header; warnings never make them
    invalid.  There are at most five issues. *)
Theorem valid_iff_rows_and_headers d :
  (Validation.isValid (validateParsedData d) = true <-> rows d <> [] /\ headers d <> [])
  /\ (length (Validation.issues (validateParsedData d)) <= 5)%nat.
Proof.
  split; [apply valid_iff|]. rewrite validateParsedData_issues, !length_app.
  repeat (match goal with |- context [if ?b then _ else _] => destruct b end); simpl; lia.
Qed.

(** X20.  A data set of the data model (each cell undefined, null, a
    boolean, a number or a string) that validateParsedData accepts gets
    scores and percentages from the engine: analyzeDataQuality returns a
    result whose five scores lie between 0 and 100 and whose percentages
    are finite numbers.  Cells that are objects or arrays, which the
    validation does not look at, are outside the data model. *)
Theorem validated_data_is_scored d :
  Validation.isValid (validateParsedData d) = true ->
  exists r, analyzeDataQuality d = Some r /\ scores_in_range r /\ percentages_defined r.
Proof.
  intros [Hr Hh]%valid_iff. destruct (analyzeDataQuality_total d) as [r Hres].
  exists r. split_and!; [done | |].
  - by apply (scores_in_range_of_result d).
  - by apply (percentages_defined_of_result d).
Qed.

(** X21.  validateParsedData warns of duplicate column names exactly when a
    header that is not the name of a property of Object.prototype occurs
    twice: two columns named constructor pass without the warning, two
    columns named a do not. *)
Theorem duplicate_names_warning :
  (forall d,
     warns_of_duplicates (validateParsedData d)
     <-> exists h, inherited h = false /\ (2 <= occurrences h (headers d))%nat)
  /\ ~ warns_of_duplicates (validateParsedData inherited_twice)
  /\ warns_of_duplicates (validateParsedData plain_twice).
Proof.
  assert (H : forall d,
            warns_of_duplicates (validateParsedData d)
            <-> exists h, inherited h = false /\ (2 <= occurrences h (headers d))%nat).
  { intros d. rewrite warns_iff. split.
    - intros Hne. destruct (duplicate_headers (headers d)) as [|h l] eqn:E; [done|].
      exists h. apply duplicate_headers_spec. rewrite E. by left.
    - intros (h & Hh) E. apply duplicate_headers_spec in Hh. by rewrite E in Hh. }
  split_and!; [exact H | |].
  - rewrite warns_iff. intros Hne. by apply Hne.
  - apply H. exists "a". split; [reflexivity | unfold occurrences; simpl; lia].
Qed.

(** X22.  generateRecommendations never returns an empty list: it returns
    the general cleanup alone for no issue, and otherwise one
    recommendation per issue, the k-th for the k-th issue.  For a result of
    the engine their number is the issue count of the summary, or 1 when
    that is 0. *)
Theorem one_recommendation_per_issue :
  (forall issues,
     length (generateRecommendations issues) = Nat.max 1 (length issues)
     /\ (issues = [] -> generateRecommendations issues = [general_cleanup])
     /\ forall k issue,
          issues !! k = Some issue ->
          exists rec, generateRecommendations issues !! k = Some rec
                      /\ recommend_step [] issue = [rec])
  /\ (forall d r,
        analyzeDataQuality d = Some r ->
        length (generateRecommendations (QualityAnalysis.issues r))
        = Nat.max 1 (Summary.issueCount (QualityAnalysis.summary r))).
Proof.
  split.
  - intros issues. destruct (generateRecommendations_spec issues) as [Hlen Hat].
    split_and!; [done | by intros -> | done].
  - intros d r Hres. destruct (analyzeDataQuality_summary d r Hres) as (_ & _ & _ & _ & _ & ->).
    apply generateRecommendations_spec.
Qed.

(** X23.  getRecommendations returns at most three items, and none at all
    exactly when there are issues but only of the types format and
    outlier. *)
Theorem no_advice_iff_only_format_or_outlier issues :
  (getRecommendations issues = []
   <-> issues <> []
       /\ forall i, In i issues -> Issue.type i = Format \/ Issue.type i = OutlierIssue)
  /\ (length (getRecommendations issues) <= 3)%nat.
Proof.
  unfold getRecommendations. destruct issues as [|i issues]; cbn [length Nat.eqb].
  - split; [|simpl; lia]. split; [done | by intros [? _]].
  - split; [|apply getFallbackRecommendations_length].
    rewrite getFallbackRecommendations_nil. split; [by intros H | by intros [_ H]].
Qed.

(** X24.  getFallbackInsights: the three severity counts of the context add
    up to the total, which is the number of issues; the critical issues
    are at most three, their number is the smaller of 3 and the count of
    high issues, and each repeats the description of an issue of severity
    high; ready is true exactly when getScoreGrade gives Excellent, Good or
    Fair for the overall score. *)
Theorem fallback_insights_agree now r :
  let insights := getFallbackInsights now r in
  let ctx := Insights.context insights in
  AnalysisContext.totalIssues ctx = length (QualityAnalysis.issues r)
  /\ (AnalysisContext.criticalIssues ctx + AnalysisContext.mediumIssues ctx
      + AnalysisContext.lowIssues ctx = AnalysisContext.totalIssues ctx)%nat
  /\ length (Insights.criticalIssues insights) = Nat.min 3 (AnalysisContext.criticalIssues ctx)
  /\ (forall c, In c (Insights.criticalIssues insights) ->
        CriticalIssue.severity c = SevHigh
        /\ exists i, In i (QualityAnalysis.issues r) /\ Issue.severity i = SevHigh
                     /\ CriticalIssue.issue c = Issue.description i)
  /\ (Readiness.ready (Insights.readiness insights) = true
      <-> In (getScoreGrade (QualityAnalysis.overallScore r)) ["Excellent"; "Good"; "Fair"]).
Proof.
  simpl. split_and!.
  - done.
  - apply severity_partition.
  - by rewrite length_map, length_take.
  - intros c Hc. apply in_map_iff in Hc as (i & <- & Hi).
    apply in_take, with_severity_in in Hi as [Hi Hs]. simpl. eauto.
  - apply ready_iff_grade.
Qed.


(** X26.  generateCSVReport does not fail on a result of the engine and the
    data set it was computed from: every header has its columnStats entry
    with a missing part.  The report starts with the line of column
    titles. *)
Theorem csv_report_of_result_exists d r :
  analyzeDataQuality d = Some r ->
  exists csv, generateCSVReport r d = Some csv /\ String.prefix csv_header csv = true.
Proof. apply generateCSVReport_some. Qed.

(** X27.  A blank cell (null, undefined or the empty string) is a missing
    cell: when the headers are pairwise distinct and there is a row, a
    column that detectDataType marks nullable has a positive count in the
    missing-value report.  The converse fails: a cell holding a blank text
    is counted missing although the column is not nullable. *)
Theorem nullable_column_has_missing_cells :
  (forall d h,
     NoDup (headers d) -> In h (headers d) -> rows d <> [] ->
     TypeInfo.nullable (detectDataType (column d h)) = true ->
     exists c, Obj.get (MissingReport.byColumn (findMissingValues d)) h = Some c
               /\ (0 < MissingColumn.count c)%nat)
  /\ (TypeInfo.nullable (detectDataType (column blank_text "a")) = false
      /\ MissingColumn.count
           <$> Obj.get (MissingReport.byColumn (findMissingValues blank_text)) "a"
         = Some 1%nat).
Proof.
  split; [apply nullable_column_missing|]. split; vm_compute; reflexivity.
Qed.

(** X28.  In a result of the engine on a data set with a row, the unique
    count of a column is at most the number of its cells that are not
    blank, and its unique percentage is a number above 0 and at most
    100. *)
Theorem distinct_value_counts d r h :
  analyzeDataQuality d = Some r -> In h (headers d) -> rows d <> [] ->
  exists cs q,
    Obj.get (QualityAnalysis.columnStats r) h = Some cs
    /\ (ColumnStats.unique cs <= length (List.filter not_blank (column d h)))%nat
    /\ ColumnStats.uniquePercentage cs = Fin q
    /\ 0 < q /\ q <= 100.
Proof.
  intros Hres Hh Hr.
  destruct (analyzeDataQuality_inv d r Hres)
    as (cs & vi & fi & fp & iss & Hcs & _ & _ & _ & _ & _ & _ & _ & Hcols & _).
  rewrite Hcols, (columnStats_get d _ cs h Hcs Hh).
  destruct (column_stats_of_unique d (findMissingValues d) h (detectDataType (column d h)))
    as [Hu Hp].
  assert (Hlen : (0 < length (column d h))%nat).
  { rewrite length_column. by apply nonempty_length. }
  assert (Hne : column d h <> []) by (intros E; rewrite E in Hlen; simpl in Hlen; lia).
  destruct (Set_size_bounds (column d h)) as [Hle Hge]. specialize (Hge Hne).
  rewrite of_nat_div in Hp by done. simpl in Hp.
  eexists _, _. split; [reflexivity|]. rewrite Hu, Hp. split_and!; [|reflexivity| |].
  - apply Set_size_bounds.
  - pose proof (inject_nat_pos _ Hlen). pose proof (inject_nat_pos (JS.Set_size (column d h)) Hge).
    assert (0 < inject_Z (Z.of_nat (JS.Set_size (column d h)))
                / inject_Z (Z.of_nat (length (column d h))))
      by (apply Qlt_shift_div_l; lra).
    lra.
  - pose proof (inject_nat_pos _ Hlen).
    assert (inject_Z (Z.of_nat (JS.Set_size (column d h)))
            <= inject_Z (Z.of_nat (length (column d h)))) by (rewrite <- Zle_Qle; lia).
    assert (inject_Z (Z.of_nat (JS.Set_size (column d h)))
            / inject_Z (Z.of_nat (length (column d h))) <= 1)
      by (apply Qle_shift_div_r; lra).
    lra.
Qed.

(** X29.  A duplicate row lowers the uniqueness score: when findDuplicates
    counts a duplicate, the duplicate percentage p is a number above 0 and
    the uniqueness score is a number between 0 and 100 - p. *)
Theorem duplicates_lower_uniqueness d :
  (0 < DuplicateReport.count (findDuplicates d))%nat ->
  exists q p,
    DuplicateReport.uniquenessScore (findDuplicates d) = Fin q
    /\ DuplicateReport.percentage (findDuplicates d) = Fin p
    /\ 0 < p /\ 0 <= q /\ q <= 100 - p.
Proof. apply duplicates_lower_score. Qed.

End FurtherResults.

(** ** The further properties on sample data *)

Section FurtherOnReferenceHost.
#[local] Existing Instance RefHost.host.

Lemma missing_column_report_witness :
  NoDup (headers people) /\ In "age" (headers people)
  /\ exists c,
       Obj.get (MissingReport.byColumn (findMissingValues people)) "age" = Some c
       /\ (forall i, In i (MissingColumn.positions c)
                     <-> exists r, rows people !! i = Some r /\ isMissing (cell r "age") = true)
       /\ StronglySorted lt (MissingColumn.positions c)
       /\ MissingColumn.count c = length (MissingColumn.positions c)
       /\ MissingColumn.percentage c
          = (Num.of_nat (MissingColumn.count c) / Num.of_nat (length (rows people)) * Fin 100)%num.
Proof.
  assert (H1 : NoDup (headers people)) by exact (proj1 people_headers_plain).
  assert (H2 : In "age" (headers people)) by (simpl; tauto).
  exact (conj H1 (conj H2 (missing_column_report people "age" H1 H2))).
Defined.

Lemma missing_rows_report_witness :
  map MissingRow.rowIndex (MissingReport.byRow (findMissingValues people)) = [1%nat]
  /\ StronglySorted lt (map MissingRow.rowIndex (MissingReport.byRow (findMissingValues people))).
Proof.
  split; [vm_compute; reflexivity | exact (proj1 (missing_rows_report people))].
Defined.

Lemma missing_total_counts_cells_witness :
  ~ In "__proto__" (headers people)
  /\ MissingReport.total (findMissingValues people) = missing_cells people
  /\ missing_cells people = 1%nat.
Proof.
  assert (H : ~ In "__proto__" (headers people))
    by (intros [H | [H | []]]; discriminate H).
  exact (conj H (conj (missing_total_counts_cells people H) eq_refl)).
Defined.

Lemma completeness_100_iff_complete_witness :
  rows crossed <> [] /\ headers crossed <> [] /\ ~ In "__proto__" (headers crossed)
  /\ (Num.eqb (MissingReport.completenessScore (findMissingValues crossed)) (Fin 100) = true
      <-> complete crossed).
Proof.
  assert (H1 : rows crossed <> []) by discriminate.
  assert (H2 : headers crossed <> []) by discriminate.
  assert (H3 : ~ In "__proto__" (headers crossed))
    by (intros [H | [H | []]]; discriminate H).
  exact (conj H1 (conj H2 (conj H3 (completeness_100_iff_complete crossed H1 H2 H3)))).
Defined.

Lemma duplicate_count_zero_iff_distinct_witness :
  rows people <> []
  /\ DuplicateReport.count (findDuplicates people) = 1%nat
  /\ (DuplicateReport.count (findDuplicates people) < length (rows people))%nat.
Proof.
  assert (H : rows people <> []) by discriminate.
  exact (conj H (conj eq_refl
           (proj2 (proj2 (duplicate_count_zero_iff_distinct people)) H))).
Defined.

Lemma engine_returns_with_summary_witness :
  ~ In "__proto__" (headers people)
  /\ exists r,
       analyzeDataQuality people = Some r
       /\ Summary.missingCells (QualityAnalysis.summary r) = missing_cells people
       /\ Summary.totalCells (QualityAnalysis.summary r) = 6%nat.
Proof.
  assert (H : ~ In "__proto__" (headers people))
    by (intros [H | [H | []]]; discriminate H).
  destruct (engine_returns_with_summary people) as (r & Hres & _ & _ & Hcells & Hmiss & _).
  exact (conj H (ex_intro _ r (conj Hres (conj (Hmiss H) Hcells)))).
Defined.

Lemma duplicates_listed_in_row_order_witness :
  map DuplicateEntry.duplicateRow (DuplicateReport.duplicates (findDuplicates people)) = [2%nat]
  /\ StronglySorted lt
       (map DuplicateEntry.duplicateRow (DuplicateReport.duplicates (findDuplicates people))).
Proof.
  split; [vm_compute; reflexivity | exact (proj1 (duplicates_listed_in_row_order people))].
Defined.

Lemma confidence_between_quarter_and_one_witness :
  List.filter not_blank level_tally <> []
  /\ exists q,
       TypeInfo.confidence (detectDataType level_tally) = Fin q
       /\ 1 # 4 <= q /\ q <= 1
       /\ Fin q = (Num.of_nat (count_type (TypeInfo.type (detectDataType level_tally))
                                          (List.filter not_blank level_tally))
                   / Num.of_nat (length (List.filter not_blank level_tally)))%num.
Proof.
  assert (H : List.filter not_blank level_tally <> []) by discriminate.
  exact (conj H (confidence_between_quarter_and_one level_tally H)).
Defined.

Lemma mixed_types_iff_two_kinds_witness :
  List.filter not_blank level_tally <> []
  /\ TypeInfo.mixedTypes (detectDataType level_tally) = Some true
  /\ exists v w, In v (List.filter not_blank level_tally)
                 /\ In w (List.filter not_blank level_tally)
                 /\ classify v <> classify w.
Proof.
  assert (H : List.filter not_blank level_tally <> []) by discriminate.
  assert (Hm : TypeInfo.mixedTypes (detectDataType level_tally) = Some true)
    by (vm_compute; reflexivity).
  exact (conj H (conj Hm (proj1 (proj1 (mixed_types_iff_two_kinds level_tally H)) Hm))).
Defined.

Lemma statistics_in_order_witness :
  exists stats,
    calculateStatistics quartet = Some stats
    /\ Statistics.count stats = length (numeric_values quartet)
    /\ In (Statistics.min stats) (numeric_values quartet)
    /\ In (Statistics.max stats) (numeric_values quartet)
    /\ (forall x, In x (numeric_values quartet) ->
          num_le (Statistics.min stats) x /\ num_le x (Statistics.max stats))
    /\ num_le (Statistics.min stats) (Statistics.q1 stats)
    /\ num_le (Statistics.q1 stats) (Statistics.q2 stats)
    /\ num_le (Statistics.q2 stats) (Statistics.q3 stats)
    /\ num_le (Statistics.q3 stats) (Statistics.max stats)
    /\ Statistics.median stats = Statistics.q2 stats.
Proof.
  destruct (calculateStatistics quartet) as [stats|] eqn:E; [|vm_compute in E; discriminate E].
  exists stats. exact (conj eq_refl (statistics_in_order quartet stats E)).
Defined.

Lemma variance_and_range_not_negative_witness :
  exists stats,
    calculateStatistics skewed = Some stats
    /\ not_negative (Statistics.variance stats) /\ not_negative (Statistics.range stats).
Proof.
  destruct (calculateStatistics skewed) as [stats|] eqn:E; [|vm_compute in E; discriminate E].
  exists stats. exact (conj eq_refl (proj2 (variance_and_range_not_negative skewed) stats E)).
Defined.

Lemma mode_is_most_frequent_witness :
  [Fin 1; Fin 2; Fin 2] <> []
  /\ exists m,
       calculateMode [Fin 1; Fin 2; Fin 2] = Some m
       /\ In m [Fin 1; Fin 2; Fin 2]
       /\ forall x, In x [Fin 1; Fin 2; Fin 2] ->
            (key_count (JS.Number_toString x) [Fin 1; Fin 2; Fin 2]
             <= key_count (JS.Number_toString m) [Fin 1; Fin 2; Fin 2])%nat.
Proof.
  assert (H : [Fin 1; Fin 2; Fin 2] <> []) by discriminate.
  exact (conj H (mode_is_most_frequent [Fin 1; Fin 2; Fin 2] H)).
Defined.

Lemma outliers_lie_outside_the_quartiles_witness :
  exists stats,
    calculateStatistics skewed = Some stats
    /\ OutlierReport.outliers (detectOutliers skewed) = [Outlier.mk 4 (Fin 100) High]
    /\ forall o,
         In o (OutlierReport.outliers (detectOutliers skewed)) ->
         In (Outlier.value o) (numeric_values skewed)
         /\ ((Outlier.type o = Low /\ (Outlier.value o <? Statistics.q1 stats)%num = true)
             \/ (Outlier.type o = High /\ (Statistics.q3 stats <? Outlier.value o)%num = true)).
Proof.
  destruct (calculateStatistics skewed) as [stats|] eqn:E; [|vm_compute in E; discriminate E].
  exists stats. split; [reflexivity|]. split; [vm_compute; reflexivity|].
  exact (proj2 (proj2 (proj2 (outliers_lie_outside_the_quartiles skewed stats E)))).
Defined.

Lemma constant_column_has_no_outliers_witness :
  (forall y, In y (numeric_values (map num [5; 5; 5]%Z)) -> Num.eqb y (Fin 5) = true)
  /\ OutlierReport.outliers (detectOutliers (map num [5; 5; 5]%Z)) = []
  /\ OutlierReport.count (detectOutliers (map num [5; 5; 5]%Z)) = 0%nat.
Proof.
  assert (H : forall y, In y (numeric_values (map num [5; 5; 5]%Z)) -> Num.eqb y (Fin 5) = true).
  { intros y Hy. vm_compute in Hy. destruct Hy as [<- | [<- | [<- | []]]]; reflexivity. }
  exact (conj H (constant_column_has_no_outliers (map num [5; 5; 5]%Z) (Fin 5) H)).
Defined.

Lemma column_stats_per_header_witness :
  In "age" (headers people)
  /\ exists r cs,
       analyzeDataQuality people = Some r
       /\ Obj.get (QualityAnalysis.columnStats r) "age" = Some cs
       /\ ColumnStats.type cs = detectDataType (column people "age")
       /\ is_Some (ColumnStats.missing cs).
Proof.
  assert (H : In "age" (headers people)) by (simpl; tauto).
  destruct (analyzeDataQuality people) as [r|] eqn:E; [|vm_compute in E; discriminate E].
  destruct (column_stats_per_header people r "age" E H) as (cs & H1 & H2 & _ & _ & H5 & _).
  exact (conj H (ex_intro _ r (ex_intro _ cs (conj eq_refl (conj H1 (conj H2 H5)))))).
Defined.

Lemma number_column_has_statistics_witness :
  TypeInfo.type (detectDataType quartet) = TNumber
  /\ ~ In (VNum NaN) quartet
  /\ exists stats, calculateStatistics quartet = Some stats /\ (0 < Statistics.count stats)%nat.
Proof.
  assert (H1 : TypeInfo.type (detectDataType quartet) = TNumber) by (vm_compute; reflexivity).
  assert (H2 : ~ In (VNum NaN) quartet).
  { intros H. vm_compute in H. destruct H as [H | [H | [H | [H | []]]]]; discriminate H. }
  exact (conj H1 (conj H2 (number_column_has_statistics quartet H1 H2))).
Defined.

Lemma issue_columns_are_headers_witness :
  exists r,
    analyzeDataQuality people = Some r
    /\ (exists i, In i (QualityAnalysis.issues r) /\ Issue.type i = Duplicate)
    /\ forall i, In i (QualityAnalysis.issues r) ->
         match Issue.column i with
         | Some h => In h (headers people) /\ Issue.type i <> Duplicate
         | None => Issue.type i = Duplicate
         end.
Proof.
  destruct (analyzeDataQuality people) as [r|] eqn:E; [|vm_compute in E; discriminate E].
  exists r. split; [reflexivity|].
  pose proof (issue_columns_are_headers people r E) as [Hcols Hdup].
  split; [|exact Hcols]. apply Hdup.
  assert (Hd : QualityAnalysis.duplicates r = findDuplicates people).
  { destruct (analyzeDataQuality_inv people r E)
      as (cs & vi & fi & fp & iss & _ & _ & _ & _ & _ & _ & Hdup' & _). exact Hdup'. }
  rewrite Hd. vm_compute. lia.
Defined.

Lemma validated_data_is_scored_witness :
  Validation.isValid (validateParsedData people) = true
  /\ exists r, analyzeDataQuality people = Some r /\ scores_in_range r /\ percentages_defined r.
Proof.
  assert (H : Validation.isValid (validateParsedData people) = true) by (vm_compute; reflexivity).
  exact (conj H (validated_data_is_scored people H)).
Defined.

Lemma csv_report_of_result_exists_witness :
  exists r csv,
    analyzeDataQuality people = Some r
    /\ generateCSVReport r people = Some csv
    /\ String.prefix csv_header csv = true.
Proof.
  destruct (analyzeDataQuality people) as [r|] eqn:E; [|vm_compute in E; discriminate E].
  destruct (csv_report_of_result_exists people r E) as (csv & Hcsv & Hp).
  exact (ex_intro _ r (ex_intro _ csv (conj eq_refl (conj Hcsv Hp)))).
Defined.

Lemma nullable_column_has_missing_cells_witness :
  NoDup (headers people) /\ In "age" (headers people) /\ rows people <> []
  /\ TypeInfo.nullable (detectDataType (column people "age")) = true
  /\ exists c, Obj.get (MissingReport.byColumn (findMissingValues people)) "age" = Some c
               /\ (0 < MissingColumn.count c)%nat.
Proof.
  assert (H1 : NoDup (headers people)) by exact (proj1 people_headers_plain).
  assert (H2 : In "age" (headers people)) by (simpl; tauto).
  assert (H3 : rows people <> []) by discriminate.
  assert (H4 : TypeInfo.nullable (detectDataType (column people "age")) = true)
    by (vm_compute; reflexivity).
  exact (conj H1 (conj H2 (conj H3 (conj H4
           (proj1 nullable_column_has_missing_cells people "age" H1 H2 H3 H4))))).
Defined.

Lemma distinct_value_counts_witness :
  In "age" (headers people) /\ rows people <> []
  /\ exists r cs q,
       analyzeDataQuality people = Some r
       /\ Obj.get (QualityAnalysis.columnStats r) "age" = Some cs
       /\ (ColumnStats.unique cs <= length (List.filter not_blank (column people "age")))%nat
       /\ ColumnStats.uniquePercentage cs = Fin q
       /\ 0 < q /\ q <= 100.
Proof.
  assert (H2 : In "age" (headers people)) by (simpl; tauto).
  assert (H3 : rows people <> []) by discriminate.
  destruct (analyzeDataQuality people) as [r|] eqn:E; [|vm_compute in E; discriminate E].
  destruct (distinct_value_counts people r "age" E H2 H3) as (cs & q & H).
  exact (conj H2 (conj H3 (ex_intro _ r (ex_intro _ cs (ex_intro _ q (conj eq_refl H)))))).
Defined.

Lemma duplicates_lower_uniqueness_witness :
  (0 < DuplicateReport.count (findDuplicates people))%nat
  /\ exists q p,
       DuplicateReport.uniquenessScore (findDuplicates people) = Fin q
       /\ DuplicateReport.percentage (findDuplicates people) = Fin p
       /\ 0 < p /\ 0 <= q /\ q <= 100 - p.
Proof.
  assert (H : (0 < DuplicateReport.count (findDuplicates people))%nat)
    by (vm_compute; lia).
  exact (conj H (duplicates_lower_uniqueness people H)).
Defined.

End FurtherOnReferenceHost.
